(** * nestjs-crud: the query-condition language and its compiler

    A shallow embedding of
    - [RequestQueryParser]      (packages/crud-request/src/request-query.parser.ts),
    - [CrudRequestInterceptor]  (the request assembler), and
    - [TypeOrmCrudService]      (the condition compiler and result paginator),
    followed by the properties established about them.

    JavaScript values are an inductive type, objects are association lists
    in key-enumeration order, the mutable objects the code shares by
    reference (query builders, the parameter object, the relation cache, the
    [lastIndex] of the global regular expressions) live in an explicit
    store, and exceptions are an outcome of every effectful operation. *)

From stdpp Require Import base option list strings gmap pretty.
From Stdlib Require Import ZArith Ascii.

Set Warnings "-register-all".

(** ** JavaScript values *)

(** The values that travel through the parser and the compiler: what
    [JSON.parse] produces, plus [undefined] and the [Date] objects the
    parser makes of date strings ([JDate] carries the text [String(d)]
    gives).  Numbers are the integers (the parser's numeric options and the
    tests of the repository only use integers); a number of JavaScript is
    a double, which every integer up to 2^53 is.  [JObj] lists the own
    enumerable properties of an object in the order [Object.keys]
    enumerates them: the array indices first, in ascending order, then the
    other keys in the order of their creation; a JavaScript object has
    pairwise distinct keys. *)
Inductive JValue : Type :=
| JUndefined
| JNull
| JBool (b : bool)
| JNum (n : Z)
| JStr (s : string)
| JDate (text : string)
| JArr (items : list JValue)
| JObj (fields : list (string * JValue)).

(** Thrown exceptions, by class. *)
Inductive Exn : Type :=
| BadRequestException (message : string)
| RequestQueryException (message : string)
| NotFoundException (message : string)
| TypeError (message : string).

#[global] Instance Exn_eq_dec : EqDecision Exn.
Proof. solve_decision. Defined.

(** ** Effects *)

(** The outcome of an operation on a state: a value or a thrown exception,
    and the state either way (a throw does not undo what was written
    before it). *)
Inductive Res (S A : Type) : Type :=
| Ok (a : A) (s : S)
| Throw (e : Exn) (s : S).
Arguments Ok {S A} a s.
Arguments Throw {S A} e s.

Definition ST (S A : Type) : Type := S -> Res S A.

#[global] Instance ST_ret {S} : MRet (ST S) := fun A a s => Ok a s.
#[global] Instance ST_bind {S} : MBind (ST S) := fun A B f m s =>
  match m s with
  | Ok a s' => f a s'
  | Throw e s' => Throw e s'
  end.

(** Operations that read no state return an exception or a value. *)
#[global] Instance Either_ret : MRet (sum Exn) := fun A a => inr a.
#[global] Instance Either_bind : MBind (sum Exn) := fun A B f m =>
  match m with
  | inr a => f a
  | inl e => inl e
  end.

#[global] Instance Either_fmap : FMap (sum Exn) := fun A B f m =>
  match m with
  | inr a => inr (f a)
  | inl e => inl e
  end.

Definition throw {S A} (e : Exn) : ST S A := fun s => Throw e s.

Definition lift {S A} (r : Exn + A) : ST S A :=
  match r with inl e => throw e | inr a => mret a end.

Definition gets {S A} (f : S -> A) : ST S A := fun s => Ok (f s) s.
Definition modify {S} (f : S -> S) : ST S unit := fun s => Ok tt (f s).

(** [l.forEach(f)]. *)
Definition forEach {S A} (f : A -> ST S unit) : list A -> ST S unit :=
  fix go l :=
    match l with
    | [] => mret tt
    | x :: r => f x ;; go r
    end.

Module Js.

(** [String.prototype.split] with a non-empty separator. *)
Fixpoint split_go (sep : string) (skip : nat) (cur : string) (s : string)
  : list string :=
  match s with
  | EmptyString => [cur]
  | String c s' =>
      match skip with
      | S k => split_go sep k cur s'
      | O =>
          if String.prefix sep s
          then cur :: split_go sep (String.length sep - 1) "" s'
          else split_go sep 0 (cur +:+ String c "") s'
      end
  end.

Definition split (sep s : string) : list string := split_go sep 0 "" s.

(** [Array.prototype.join] on an array of strings. *)
Fixpoint join (sep : string) (l : list string) : string :=
  match l with
  | [] => ""
  | [x] => x
  | x :: r => x +:+ sep +:+ join sep r
  end.

(** Truthiness ([!!v]). *)
Definition truthy (v : JValue) : bool :=
  match v with
  | JUndefined | JNull => false
  | JBool b => b
  | JNum n => negb (n =? 0)%Z
  | JStr s => negb (String.eqb s "")
  | JDate _ | JArr _ | JObj _ => true
  end.

(** [a || b]. *)
Definition or_else (a b : JValue) : JValue := if truthy a then a else b.

(** *** Numbers as text *)

(** The double nearest to a natural number (ties to even), which is the
    number itself when it is a double; [None] stands for [Infinity]. *)
Definition nearestDouble (n : Z) : option Z :=
  let e := Z.log2 n in
  if (e <=? 52)%Z then Some n
  else
    let ulp := (2 ^ (e - 52))%Z in
    let q := (n / ulp)%Z in
    let r := (n mod ulp)%Z in
    let q' := if (2 * r <? ulp)%Z then q
              else if (ulp <? 2 * r)%Z then (q + 1)%Z
              else if Z.even q then q else (q + 1)%Z in
    if (2 ^ 1024 <=? q' * ulp)%Z then None else Some (q' * ulp)%Z.

(** Whether the natural number [c] reads as the double [x], 2^53 or
    more: [c] lies between the midpoints of [x] and its neighbours, the
    midpoints included when the mantissa of [x] is even. *)
Definition readsAs (x c : Z) : bool :=
  let ulp := (2 ^ (Z.log2 x - 52))%Z in
  let m := (x / ulp)%Z in
  let lo := (4 * x - (if m =? 2 ^ 52 then ulp else 2 * ulp))%Z in
  let hi := (4 * x + 2 * ulp)%Z in
  if Z.even m then (lo <=? 4 * c)%Z && (4 * c <=? hi)%Z
  else (lo <? 4 * c)%Z && (4 * c <? hi)%Z.

(** The decimals [s * 10^(n - k)] of [k] digits that read as [x], for [n]
    the number of digits of [x] or one more. *)
Definition decimals (x digits k : Z) : list (Z * Z) :=
  flat_map (fun n =>
              let p := (10 ^ (n - k))%Z in
              List.filter (fun '(s, _) =>
                             (10 ^ (k - 1) <=? s)%Z && (s <? 10 ^ k)%Z
                             && readsAs x (s * p)%Z)
                          [((x / p)%Z, n); ((x / p + 1)%Z, n)])
           [digits; (digits + 1)%Z].

(** Of two decimals the one nearer to [x], the even one on a tie. *)
Definition nearer (x k : Z) (c b : Z * Z) : bool :=
  let dist := fun '(s, n) => Z.abs (s * 10 ^ (n - k) - x)%Z in
  (dist c <? dist b)%Z
  || ((dist c =? dist b)%Z && Z.even (fst c) && negb (Z.even (fst b))).

Definition nearest (x k : Z) (cs : list (Z * Z)) : option (Z * Z) :=
  foldl (fun best c =>
           match best with
           | Some b => if nearer x k c b then Some c else Some b
           | None => Some c
           end) None cs.

(** The shortest decimal that reads as [x]: its digits [s], the number
    [n] of digits of its integer part and the number [k] of digits of
    [s]. *)
Fixpoint shortest (x digits : Z) (fuel : nat) (k : Z) : Z * Z * Z :=
  match fuel with
  | O => (x, digits, digits)
  | S fuel' =>
      match nearest x k (decimals x digits k) with
      | Some (s, n) => (s, n, k)
      | None => shortest x digits fuel' (k + 1)%Z
      end
  end.

(** [String(n)] of a number ([Number::toString]): all the digits up to
    2^53; beyond, the digits of the shortest decimal that reads as the
    number, followed by zeros up to 21 digits and by an exponent from
    there. *)
Definition numberToString (n : Z) : string :=
  if (Z.abs n <? 2 ^ 53)%Z then pretty n
  else
    let sign := if (n <? 0)%Z then "-" else "" in
    match nearestDouble (Z.abs n) with
    | None => sign +:+ "Infinity"
    | Some x =>
        let digits := Z.of_nat (String.length (pretty x)) in
        let '(s, n, k) := shortest x digits (Z.to_nat digits) 1%Z in
        if (n <=? 21)%Z
        then sign +:+ pretty s
             +:+ String.string_of_list_ascii
                   (replicate (Z.to_nat (n - k)) "0"%char)
        else sign
             +:+ match pretty s with
                 | String d rest =>
                     if (k =? 1)%Z then String d ""
                     else String d ("." +:+ rest)
                 | EmptyString => ""
                 end
             +:+ "e+" +:+ pretty (n - 1)%Z
    end.

(** [String(v)] of a value that can be converted. *)
Fixpoint toStr (v : JValue) : string :=
  match v with
  | JUndefined => "undefined"
  | JNull => "null"
  | JBool true => "true"
  | JBool false => "false"
  | JNum n => numberToString n
  | JStr s => s
  | JDate text => text
  | JArr items =>
      join "," (map (fun x => match x with
                              | JUndefined | JNull => ""
                              | _ => toStr x
                              end) items)
  | JObj _ => "[object Object]"
  end.

(** Whether [String(v)] returns: an object is converted by its
    [toString], and by its [valueOf] if that is no function; a value read
    from JSON is no function, so that an object with a [toString] of its
    own cannot be converted (the [valueOf] it has or inherits gives no
    primitive), and neither can an array that holds one. *)
Fixpoint convertible (v : JValue) : bool :=
  match v with
  | JArr items => forallb convertible items
  | JObj fields =>
      negb (existsb (fun kv => String.eqb (fst kv) "toString") fields)
  | _ => true
  end.

(** [`${v}`]. *)
Definition template (v : JValue) : Exn + string :=
  if convertible v then inr (toStr v)
  else inl (TypeError "Cannot convert object to primitive value").

(** The functions every object inherits from [Object.prototype]. *)
Definition inheritedFunctions : list string :=
  ["constructor"; "__defineGetter__"; "__defineSetter__"; "hasOwnProperty";
   "__lookupGetter__"; "__lookupSetter__"; "isPrototypeOf";
   "propertyIsEnumerable"; "toString"; "valueOf"; "toLocaleString"].

(** Whether [o[k]] is inherited when the plain object [o] has no property
    [k] of its own: [k] names a function of [Object.prototype], or is
    [__proto__], which gives the prototype itself.  What is inherited is
    truthy and has none of the properties the code reads. *)
Definition inherited (k : string) : bool :=
  String.eqb k "__proto__" || existsb (String.eqb k) inheritedFunctions.

(** [String(o[k])] for an inherited [k]. *)
Definition inheritedText (k : string) : string :=
  if String.eqb k "__proto__" then "[object Object]"
  else "function "
       +:+ (if String.eqb k "constructor" then "Object" else k)
       +:+ "() { [native code] }".

(** Own property lookup [o[k]] on an association list. *)
Fixpoint assoc {A} (k : string) (l : list (string * A)) : option A :=
  match l with
  | [] => None
  | (k', v) :: r => if String.eqb k k' then Some v else assoc k r
  end.

(** [Number(digits)] of a string of decimal digits, as an integer. *)
Definition digitsValue (cs : list ascii) : Z :=
  foldl (fun n c => (10 * n + (Z.of_nat (Ascii.nat_of_ascii c) - 48))%Z)
        0%Z cs.

(** An array index: a key that is the canonical text of an integer from 0
    to 2^32 - 2.  An object enumerates such keys first, in ascending
    order. *)
Definition arrayIndex (k : string) : option Z :=
  let n := digitsValue (String.list_ascii_of_string k) in
  if String.eqb (pretty n) k && (0 <=? n)%Z && (n <? 2 ^ 32 - 1)%Z
  then Some n else None.

(** The value of a property there is. *)
Fixpoint assocReplace {A} (k : string) (v : A) (l : list (string * A))
  : list (string * A) :=
  match l with
  | [] => []
  | (k', v') :: r =>
      if String.eqb k k' then (k, v) :: r else (k', v') :: assocReplace k v r
  end.

(** A new property whose key is the array index [n]: after the smaller
    indices. *)
Fixpoint assocInsert {A} (n : Z) (k : string) (v : A)
    (l : list (string * A)) : list (string * A) :=
  match l with
  | [] => [(k, v)]
  | (k', v') :: r =>
      match arrayIndex k' with
      | Some n' =>
          if (n' <? n)%Z then (k', v') :: assocInsert n k v r
          else (k, v) :: l
      | None => (k, v) :: l
      end
  end.

(** [o[k] = v] on an object: a property there is keeps its place, a new
    one goes among the array indices, if it is one, and to the end
    otherwise. *)
Definition assocSet {A} (k : string) (v : A) (l : list (string * A))
  : list (string * A) :=
  match assoc k l with
  | Some _ => assocReplace k v l
  | None =>
      match arrayIndex k with
      | Some n => assocInsert n k v l
      | None => l ++ [(k, v)]
      end
  end.

(** The index keys ["0"], ["1"], ... of an array or a string. *)
Definition indexKeys (n : nat) : list string := map pretty (seq 0 n).

(** The own enumerable properties of a value, as [Object.entries] lists
    them: the fields of an object, the indexed elements of an array, the
    indexed characters of a string; nothing for the other primitives. *)
Definition entries (v : JValue) : list (string * JValue) :=
  match v with
  | JObj kvs => kvs
  | JArr items => zip (indexKeys (length items)) items
  | JStr s =>
      zip (indexKeys (String.length s))
          (map (fun c => JStr (String c "")) (String.list_ascii_of_string s))
  | _ => []
  end.

(** [v[k]]: [undefined] when the property is missing.  Reading a property
    of [null] or [undefined] is a [TypeError]; the callers below guard
    against that case before they read. *)
Definition prop (k : string) (v : JValue) : JValue :=
  default JUndefined (assoc k (entries v)).

(** [v.length]. *)
Definition jlength (v : JValue) : JValue :=
  match v with
  | JArr items => JNum (Z.of_nat (length items))
  | JStr s => JNum (Z.of_nat (String.length s))
  | _ => prop "length" v
  end.

Definition isArray (v : JValue) : bool :=
  match v with JArr _ => true | _ => false end.

End Js.

(** ** crud-util *)

(** Modelled from the spec: the helpers of package [crud-util] are not part
    of the sources at hand; each is modelled by what its name and its uses
    say ([isObject] is [typeof v === 'object'] without [null], so arrays are
    objects; [isArrayFull] is a non-empty array). *)
Module Util.

Definition isUndefined (v : JValue) : bool :=
  match v with JUndefined => true | _ => false end.

Definition isNull (v : JValue) : bool :=
  match v with JNull => true | _ => false end.

Definition isNil (v : JValue) : bool := isUndefined v || isNull v.

Definition isString (v : JValue) : bool :=
  match v with JStr _ => true | _ => false end.

Definition hasLength {A} (l : list A) : bool :=
  match l with [] => false | _ => true end.

Definition isStringFull (v : JValue) : bool :=
  match v with JStr s => negb (String.eqb s "") | _ => false end.

Definition isArrayFull (v : JValue) : bool :=
  match v with JArr (_ :: _) => true | _ => false end.

Definition isObject (v : JValue) : bool :=
  match v with JDate _ | JArr _ | JObj _ => true | _ => false end.

Definition isDate (v : JValue) : bool :=
  match v with JDate _ => true | _ => false end.

(** [Object.keys]; [None] stands for the [TypeError] on [null] and
    [undefined]. *)
Definition objKeys (v : JValue) : option (list string) :=
  match v with
  | JUndefined | JNull => None
  | _ => Some (map fst (Js.entries v))
  end.

(** [isValue]: a non-empty string, a number, a boolean or a date. *)
Definition isValue (v : JValue) : bool :=
  match v with
  | JStr s => negb (String.eqb s "")
  | JNum _ | JBool _ | JDate _ => true
  | _ => false
  end.

(** [hasValue]: every element of a non-empty array is a value, or the
    value itself is one. *)
Definition hasValue (v : JValue) : bool :=
  match v with
  | JArr (x :: r) => forallb isValue (x :: r)
  | _ => isValue v
  end.

End Util.

(** ** Regular expressions with the [g] and [i] flags *)

(** The four patterns of [sqlInjectionRegEx] use literals, alternation,
    concatenation and the star of a character class.  A match is searched
    the way a backtracking engine does: leftmost start, alternatives in
    order, the star greedy.  A regular expression with the [g] flag carries
    a [lastIndex]: [test] starts there, leaves it at the end of the match,
    and resets it to 0 when nothing matches. *)
Module Regex.

Inductive re : Type :=
| Lit (s : string)
| Alt (a b : re)
| Cat (a b : re)
| Star (cls : ascii -> bool).

Definition lower (c : ascii) : ascii :=
  let n := Ascii.nat_of_ascii c in
  if (65 <=? n) && (n <=? 90) then Ascii.ascii_of_nat (n + 32) else c.

(** The rest of [s] after the literal [l], compared ignoring case. *)
Fixpoint strip (l : string) (s : list ascii) : option (list ascii) :=
  match l, s with
  | EmptyString, _ => Some s
  | String a l', c :: s' =>
      if Ascii.eqb (lower a) (lower c) then strip l' s' else None
  | String _ _, [] => None
  end.

(** What is left of [s] after the longest, ..., the empty run of
    characters of the class. *)
Fixpoint star_rests (cls : ascii -> bool) (s : list ascii)
  : list (list ascii) :=
  match s with
  | [] => [[]]
  | c :: s' => if cls c then star_rests cls s' ++ [s] else [s]
  end.

(** The possible rests of [s] after a match of [r] at its start, in the
    order backtracking tries them. *)
Fixpoint rests (r : re) (s : list ascii) : list (list ascii) :=
  match r with
  | Lit l => match strip l s with Some s' => [s'] | None => [] end
  | Alt a b => rests a s ++ rests b s
  | Cat a b => concat (map (rests b) (rests a s))
  | Star cls => star_rests cls s
  end.

(** The end index of the leftmost match in [s], whose first character has
    index [pos]. *)
Fixpoint search (r : re) (pos : nat) (s : list ascii) : option nat :=
  match rests r s with
  | rest :: _ => Some (pos + (length s - length rest))
  | [] =>
      match s with
      | [] => None
      | _ :: s' => search r (S pos) s'
      end
  end.

(** [r.test(s)] on a regular expression whose [lastIndex] is
    [lastIndex]: the answer and the new [lastIndex]. *)
Definition test (r : re) (lastIndex : nat) (s : string) : bool * nat :=
  let cs := String.list_ascii_of_string s in
  if length cs <? lastIndex then (false, 0)
  else match search r lastIndex (drop lastIndex cs) with
       | Some e => (true, e)
       | None => (false, 0)
       end.

(** [r.test(s)] on a fresh regular expression. *)
Definition matches (r : re) (s : string) : bool := fst (test r 0 s).

End Regex.

(** ** The ORM's query builder *)

(** TypeORM is an external collaborator.  What the service relies on is
    modelled here: an expression map per builder object, where-clauses
    pushed in call order, a bracket whose factory runs on a fresh builder
    before the bracket is pushed (as the service itself does for negated
    brackets), and one parameter object shared by a builder and the
    builders created from it. *)
Module Orm.

Inductive WhereType : Type := WSimple | WAnd | WOr.

Inductive WhereCondition : Type :=
| Sql (str : string)
| Brackets (wheres : list (WhereType * WhereCondition))
| Not (condition : WhereCondition).

Definition WhereClause : Type := WhereType * WhereCondition.

Inductive JoinType : Type := innerJoin | leftJoin.

Record JoinAttribute : Type := mkJoin {
  joinType : JoinType;
  joinPath : option string;
  joinAlias : string;
  joinCondition : option string;
}.

Record ExpressionMap : Type := mkExpressionMap {
  selects : list string;
  wheres : list WhereClause;
  joins : list JoinAttribute;
  orderBys : list (string * string);
  take : option Z;
  skip : option Z;
  cache : option JValue;
  withDeleted : bool;
}.

Definition emptyExpressionMap : ExpressionMap :=
  mkExpressionMap [] [] [] [] None None None false.

Definition set_wheres (ws : list WhereClause) (m : ExpressionMap) :=
  mkExpressionMap (selects m) ws (joins m) (orderBys m) (take m) (skip m)
                  (cache m) (withDeleted m).
Definition set_selects (l : list string) (m : ExpressionMap) :=
  mkExpressionMap l (wheres m) (joins m) (orderBys m) (take m) (skip m)
                  (cache m) (withDeleted m).
Definition set_joins (l : list JoinAttribute) (m : ExpressionMap) :=
  mkExpressionMap (selects m) (wheres m) l (orderBys m) (take m) (skip m)
                  (cache m) (withDeleted m).
Definition set_orderBys (l : list (string * string)) (m : ExpressionMap) :=
  mkExpressionMap (selects m) (wheres m) (joins m) l (take m) (skip m)
                  (cache m) (withDeleted m).
Definition set_take (t : option Z) (m : ExpressionMap) :=
  mkExpressionMap (selects m) (wheres m) (joins m) (orderBys m) t (skip m)
                  (cache m) (withDeleted m).
Definition set_skip (k : option Z) (m : ExpressionMap) :=
  mkExpressionMap (selects m) (wheres m) (joins m) (orderBys m) (take m) k
                  (cache m) (withDeleted m).
Definition set_cache (c : option JValue) (m : ExpressionMap) :=
  mkExpressionMap (selects m) (wheres m) (joins m) (orderBys m) (take m)
                  (skip m) c (withDeleted m).
Definition set_withDeleted (b : bool) (m : ExpressionMap) :=
  mkExpressionMap (selects m) (wheres m) (joins m) (orderBys m) (take m)
                  (skip m) (cache m) b.

(** The truth of a condition on a row, given the truth of each SQL
    fragment.  The clauses of a group are printed in order, each after the
    first preceded by its [AND] or [OR], and [AND] binds tighter than
    [OR]. *)
Fixpoint holdsCondition (atom : string -> bool) (c : WhereCondition) : bool :=
  match c with
  | Sql str => atom str
  | Not c => negb (holdsCondition atom c)
  | Brackets wheres =>
      match wheres with
      | [] => true
      | (_, c) :: rest =>
          (fix go (rest : list (WhereType * WhereCondition))
                  (disjuncts conjunct : bool) : bool :=
             match rest with
             | [] => disjuncts || conjunct
             | (WOr, c) :: rest =>
                 go rest (disjuncts || conjunct) (holdsCondition atom c)
             | (_, c) :: rest =>
                 go rest disjuncts (conjunct && holdsCondition atom c)
             end) rest false (holdsCondition atom c)
      end
  end.

Definition holds (atom : string -> bool) (wheres : list WhereClause) : bool :=
  holdsCondition atom (Brackets wheres).

End Orm.

(** ** Request types (crud-request, crud) *)

Module Request.

(** [QueryFilter]: a single leaf condition. *)
Record QueryFilter : Type := mkFilter {
  field : string;
  operator : string;
  value : JValue;
}.

Record QuerySort : Type := mkSort {
  sortField : string;
  order : string;
}.

(** [QueryJoin]; [select] and [on] are optional. *)
Record QueryJoin : Type := mkQueryJoin {
  joinField : string;
  select : option (list string);
  on : option (list QueryFilter);
}.

(** [ParsedRequestParams]. *)
Record ParsedRequestParams : Type := mkParsed {
  fields : list string;
  paramsFilter : list QueryFilter;
  authPersist : JValue;
  classTransformOptions : JValue;
  search : JValue;
  filter : list QueryFilter;
  or : list QueryFilter;
  join : list QueryJoin;
  sort : list QuerySort;
  limit : JValue;
  offset : JValue;
  page : JValue;
  cache : JValue;
  includeDeleted : JValue;
  extra : JValue;
}.

(** A custom operator: [isArray], [query(field, param)] ([None] when the
    handler throws) and the optional [params]. *)
Record CustomOperator : Type := mkCustomOperator {
  isArray : bool;
  query : string -> string -> option string;
  params : option (gmap string JValue);
}.

Abbreviation CustomOperators := (gmap string CustomOperator).

(** [JoinOption]: one entry of the allowed relations of a route. *)
Record JoinOption : Type := mkJoinOption {
  alias : option string;
  allow : option (list string);
  exclude : option (list string);
  persist : option (list string);
  eager : bool;
  required : bool;
  selectOpt : option bool;
}.

(** [JoinOptions]: relation field to option, in declaration order. *)
Abbreviation JoinOptions := (list (string * JoinOption)).

(** [CrudOptions.query.filter]: absent, a function of the search so far
    (and of whether the action reads many), an array of filters, or a
    search condition. *)
Inductive QueryFilterOption : Type :=
| FilterAbsent
| FilterFunction (f : JValue -> bool -> JValue)
| FilterArray (l : list QueryFilter)
| FilterCondition (c : JValue).

(** [QueryOptions]. *)
Record QueryOptions : Type := mkQueryOptions {
  q_allow : option (list string);
  q_exclude : option (list string);
  q_persist : option (list string);
  q_filter : QueryFilterOption;
  q_join : option JoinOptions;
  q_sort : list QuerySort;
  q_limit : JValue;
  q_maxLimit : JValue;
  q_cache : JValue;
  q_alwaysPaginate : bool;
  q_softDelete : bool;
}.

(** [CrudRequestOptions]; only [query] and [operators.custom] are read
    by the reads modelled here. *)
Record CrudRequestOptions : Type := mkRequestOptions {
  o_query : QueryOptions;
  o_customOperators : option CustomOperators;
}.

End Request.

(** ** CrudService, the abstract base of the service *)

(** Modelled from the spec: [createPageInfo], [decidePagination], [getTake]
    and [getSkip] belong to the abstract [CrudService], which is not part of
    the sources at hand.  The spec's result paginator says: pagination is
    active when the options say "always paginate" or the client supplied
    page or limit; the envelope has [pageCount = ceil(total / limit)],
    [count] the rows returned, [total] the rows matching, and echoes the
    effective page.  The effective limit is the client's limit, else the
    route's, capped by the route's maximum; the effective offset of page
    [p] is [limit * (p - 1)], so that the page of an offset is
    [floor(offset / limit) + 1]. *)
Module CrudService.

(** The paged envelope [{data, count, total, page, pageCount}]. *)
Record GetManyDefaultResponse : Type := mkPage {
  data : list JValue;
  count : Z;
  total : Z;
  page : Z;
  pageCount : Z;
}.

Definition ceilDiv (a b : Z) : Z := (- ((- a) / b))%Z.

Definition createPageInfo (data : list JValue) (total limit offset : Z)
  : GetManyDefaultResponse :=
  mkPage data (Z.of_nat (length data)) total
         (offset / limit + 1)%Z (ceilDiv total limit).

Definition asNumber (v : JValue) : option Z :=
  match v with JNum n => Some n | _ => None end.

Definition capped (n : Z) (maxLimit : JValue) : Z :=
  match asNumber maxLimit with
  | Some m => if (m =? 0)%Z then n else if (n <=? m)%Z then n else m
  | None => n
  end.

Definition getTake (query : Request.ParsedRequestParams)
    (options : Request.QueryOptions) : option Z :=
  if Js.truthy (Request.limit query)
  then (fun n => capped n (Request.q_maxLimit options))
         <$> asNumber (Request.limit query)
  else if Js.truthy (Request.q_limit options)
  then (fun n => capped n (Request.q_maxLimit options))
         <$> asNumber (Request.q_limit options)
  else if Js.truthy (Request.q_maxLimit options)
  then asNumber (Request.q_maxLimit options)
  else None.

Definition getSkip (query : Request.ParsedRequestParams) (take : option Z)
  : option Z :=
  match asNumber (Request.page query), take with
  | Some p, Some t =>
      if negb (p =? 0)%Z && negb (t =? 0)%Z then Some (t * (p - 1))%Z
      else if Js.truthy (Request.offset query)
      then asNumber (Request.offset query) else None
  | _, _ =>
      if Js.truthy (Request.offset query)
      then asNumber (Request.offset query) else None
  end.

Definition decidePagination (parsed : Request.ParsedRequestParams)
    (options : Request.CrudRequestOptions) : bool :=
  Request.q_alwaysPaginate (Request.o_query options)
  || negb (Util.isNil (Request.page parsed))
  || negb (Util.isNil (Request.limit parsed)).

End CrudService.

(** ** TypeOrmCrudService *)

Module Service.

(** *** Entity metadata, as the ORM exposes it *)

Record ColumnMetadata : Type := mkColumn {
  propertyName : string;
  propertyPath : string;
  databasePath : string;
  isPrimary : bool;
  isDeleteDate : bool;
  embeddedMetadata : bool;
  columnType : string;
}.

(** A relation names the entity on its other side; the metadata of that
    entity ([inverseEntityMetadata]) is found in the connection's table of
    entities. *)
Record RelationMetadata : Type := mkRelation {
  relationName : string;
  inverseEntity : string;
}.

Record EntityMetadata : Type := mkEntity {
  targetName : string;
  columns : list ColumnMetadata;
  relations : list RelationMetadata;
}.

Definition primaryColumns (m : EntityMetadata) : list ColumnMetadata :=
  List.filter isPrimary (columns m).

Definition ownColumns (m : EntityMetadata) : list ColumnMetadata :=
  List.filter (fun c => negb (embeddedMetadata c)) (columns m).

Record Repository : Type := mkRepository {
  metadata : EntityMetadata;
  connectionType : string;
  entityMetadatas : gmap string EntityMetadata;
}.

(** [IAllowedRelation], an entry of the relation cache. *)
Record IAllowedRelation : Type := mkAllowedRelation {
  ar_alias : option string;
  ar_nested : bool;
  ar_name : string;
  ar_path : option string;
  ar_columns : list string;
  ar_primaryColumns : list string;
  ar_allowedColumns : list string;
}.

(** *** The mutable world of a service *)

(** A builder is known by its reference, an index into [builders].  The
    parameter object is the one object every builder of a request shares.
    [entityRelationsHash] and the [lastIndex] of each element of
    [sqlInjectionRegEx] belong to the service and outlive a request.
    [ticks] counts the readings of the clock taken so far; [console] holds
    the warnings written. *)
Record World : Type := mkWorld {
  builders : list Orm.ExpressionMap;
  parameters : gmap string JValue;
  entityRelationsHash : gmap string IAllowedRelation;
  lastIndex : gmap nat nat;
  ticks : nat;
  console : list string;
}.

Definition set_builders (bs : list Orm.ExpressionMap) (w : World) : World :=
  mkWorld bs (parameters w) (entityRelationsHash w) (lastIndex w) (ticks w)
          (console w).
Definition set_parameters (ps : gmap string JValue) (w : World) : World :=
  mkWorld (builders w) ps (entityRelationsHash w) (lastIndex w) (ticks w)
          (console w).
Definition set_entityRelationsHash (h : gmap string IAllowedRelation)
    (w : World) : World :=
  mkWorld (builders w) (parameters w) h (lastIndex w) (ticks w) (console w).
Definition set_lastIndex (l : gmap nat nat) (w : World) : World :=
  mkWorld (builders w) (parameters w) (entityRelationsHash w) l (ticks w)
          (console w).
Definition set_ticks (n : nat) (w : World) : World :=
  mkWorld (builders w) (parameters w) (entityRelationsHash w) (lastIndex w) n
          (console w).
Definition set_console (c : list string) (w : World) : World :=
  mkWorld (builders w) (parameters w) (entityRelationsHash w) (lastIndex w)
          (ticks w) c.

Abbreviation M := (ST World).

(** [throwBadRequestException] of the base service. *)
Definition throwBadRequestException {A} (msg : string) : M A :=
  throw (BadRequestException msg).

(** *** Builder operations *)

Definition Ref : Type := nat.

Definition expressionMap (b : Ref) (w : World) : Orm.ExpressionMap :=
  default Orm.emptyExpressionMap (builders w !! b).

Definition updateBuilder (b : Ref) (f : Orm.ExpressionMap -> Orm.ExpressionMap)
  : M unit :=
  modify (fun w => set_builders (alter f b (builders w)) w).

Definition pushWhere (b : Ref) (c : Orm.WhereClause) : M unit :=
  updateBuilder b (fun m => Orm.set_wheres (Orm.wheres m ++ [c]) m).

(** [setParameters]: every key of [ps] is written into the shared
    parameter object. *)
Definition setParameters (ps : gmap string JValue) : M unit :=
  modify (fun w => set_parameters (ps ∪ parameters w) w).

(** [builder.createQueryBuilder()] followed by the resetting of [wheres]:
    a new builder object that starts from the expression map of [b]. *)
Definition createQueryBuilder (b : Ref) : M Ref :=
  fun w =>
    Ok (length (builders w))
       (set_builders (builders w ++ [Orm.set_wheres [] (expressionMap b w)]) w).

(** [builder.andWhere(str, params)] and [builder.orWhere(str, params)]. *)
Definition andWhere (b : Ref) (str : string) (ps : gmap string JValue)
  : M unit :=
  pushWhere b (Orm.WAnd, Orm.Sql str) ;; setParameters ps.

Definition orWhere (b : Ref) (str : string) (ps : gmap string JValue)
  : M unit :=
  pushWhere b (Orm.WOr, Orm.Sql str) ;; setParameters ps.

(** The where-clauses a [Brackets] factory leaves on a fresh builder. *)
Definition runBrackets (b : Ref) (whereFactory : Ref -> M unit)
  : M (list Orm.WhereClause) :=
  qb ← createQueryBuilder b;
  whereFactory qb ;;
  gets (fun w => Orm.wheres (expressionMap qb w)).

(** [builder.andWhere(brackets)] and [builder.orWhere(brackets)]. *)
Definition andWhereBrackets (b : Ref) (whereFactory : Ref -> M unit)
  : M unit :=
  ws ← runBrackets b whereFactory;
  pushWhere b (Orm.WAnd, Orm.Brackets ws).

Definition orWhereBrackets (b : Ref) (whereFactory : Ref -> M unit)
  : M unit :=
  ws ← runBrackets b whereFactory;
  pushWhere b (Orm.WOr, Orm.Brackets ws).

Inductive SConditionKey : Type := KAnd | KOr | KNot.

Definition isAnd (c : SConditionKey) : bool :=
  match c with KAnd => true | _ => false end.

(** *** The service over a repository *)

Section TypeOrmCrudService.

(** [this.repo], and the successive readings of [process.hrtime()]. *)
Variable repo : Repository.
Variable hrtime : nat -> Z * Z.

Definition dbName : string := connectionType repo.

Definition alias : string := targetName (metadata repo).

(** [onInitMapEntityColumns]. *)
Definition entityColumns : list string :=
  map (fun prop => if embeddedMetadata prop then propertyPath prop
                   else propertyName prop)
      (columns (metadata repo)).

Definition entityColumnsHash : gmap string string :=
  foldl (fun h prop =>
           if embeddedMetadata prop
           then <[propertyPath prop := databasePath prop]> h
           else <[propertyName prop := databasePath prop]> h)
        ∅ (columns (metadata repo)).

Definition entityPrimaryColumns : list string :=
  map propertyName (List.filter isPrimary (columns (metadata repo))).

Definition entityHasDeleteColumn : bool :=
  0 <? length (List.filter isDeleteDate (columns (metadata repo))).

(** [sqlInjectionRegEx]. *)
Definition sqlInjectionRegEx : list Regex.re :=
  let quote := Regex.Alt (Regex.Lit "%27") (Regex.Lit "'") in
  [ Regex.Alt (Regex.Lit "%27") (Regex.Alt (Regex.Lit "'")
      (Regex.Alt (Regex.Lit "--") (Regex.Alt (Regex.Lit "%23")
         (Regex.Lit "#"))));
    Regex.Cat (Regex.Alt (Regex.Lit "%3D") (Regex.Lit "="))
      (Regex.Cat (Regex.Star (fun c => negb (Ascii.eqb c "010")))
         (Regex.Alt (Regex.Lit "%27") (Regex.Alt (Regex.Lit "'")
            (Regex.Alt (Regex.Lit "--") (Regex.Alt (Regex.Lit "%3B")
               (Regex.Lit ";"))))));
    Regex.Cat (Regex.Star (fun c => Ascii.eqb (Regex.lower c) "w"))
      (Regex.Cat quote
         (Regex.Cat (Regex.Alt (Regex.Lit "%6F") (Regex.Alt (Regex.Lit "o")
                                                    (Regex.Lit "%4F")))
            (Regex.Alt (Regex.Lit "%72") (Regex.Alt (Regex.Lit "r")
                                            (Regex.Lit "%52")))));
    Regex.Cat quote (Regex.Lit "union") ].

Definition process_hrtime : M (Z * Z) :=
  fun w => Ok (hrtime (ticks w)) (set_ticks (S (ticks w)) w).

(** [getFieldWithAlias].  [entityColumnsHash] is a plain object: where it
    has no column, [this.entityColumnsHash[field]] is what the object
    inherits under that name, if anything. *)
Definition getFieldWithAlias (field : string) (sort : bool) : string :=
  let i := if bool_decide (dbName = "mysql") || bool_decide (dbName = "mariadb")
           then "`" else String "034" "" in
  let cols := Js.split "." field in
  match length cols with
  | 1 =>
      if sort then alias +:+ "." +:+ field
      else
        let dbColName :=
          match entityColumnsHash !! field with
          | Some d => if String.eqb d field then field else d
          | None =>
              if Js.inherited field then Js.inheritedText field
              else "undefined"
          end in
        i +:+ alias +:+ i +:+ "." +:+ i +:+ dbColName +:+ i
  | 2 => field
  | _ => Js.join "." (drop (length cols - 2) cols)
  end.

(** [checkFilterIsArray]; [withLength] is the optional second argument. *)
Definition checkFilterIsArray (cond : Request.QueryFilter)
    (withLength : option bool) : Exn + unit :=
  if negb (Js.isArray (Request.value cond))
     || negb (Js.truthy (Js.jlength (Request.value cond)))
     || default false withLength
  then inl (BadRequestException
              ("Invalid column '" +:+ Request.field cond +:+ "' value"))
  else inr tt.

(** [getColumnType]: reading [type] of a column that was not found is a
    [TypeError]. *)
Definition getColumnType (field : string) : Exn + string :=
  match List.find (fun col => String.eqb (propertyName col) field)
                  (ownColumns (metadata repo)) with
  | Some column => inr (columnType column)
  | None => inl (TypeError "Cannot read properties of undefined (reading 'type')")
  end.

(** A [switch] over string labels. *)
Definition switch {A} (x : string) (cases : list (string * A)) (dflt : A) : A :=
  default dflt (Js.assoc x cases).

(** [if (cond.operator[0] !== '$') cond.operator = '$' + cond.operator]. *)
Definition normalizeOperator (operator : string) : string :=
  if String.prefix "$" operator then operator else "$" +:+ operator.

(** [mapOperatorsToQuery]: the SQL fragment and the parameters to bind. *)
Definition mapOperatorsToQuery (cond : Request.QueryFilter) (param : string)
    (customOperators : Request.CustomOperators)
  : Exn + (string * gmap string JValue) :=
  let field := getFieldWithAlias (Request.field cond) false in
  let likeOperator :=
    if bool_decide (dbName = "postgres") then "ILIKE" else "LIKE" in
  let value := Request.value cond in
  let params : gmap string JValue := {[ param := value ]} in
  let operator := normalizeOperator (Request.operator cond) in
  let cond := Request.mkFilter (Request.field cond) operator value in
  let plain (str : string) : Exn + (string * gmap string JValue) :=
    inr (str, params) in
  let like (str : string) (pattern : string -> string)
    : Exn + (string * gmap string JValue) :=
    text ← Js.template value; inr (str, {[ param := JStr (pattern text) ]}) in
  let array (str : string) : Exn + (string * gmap string JValue) :=
    checkFilterIsArray cond None ≫= fun _ => inr (str, params) in
  let arrayTyped (op : string) : Exn + (string * gmap string JValue) :=
    checkFilterIsArray cond None ≫= fun _ =>
    type ← getColumnType (Request.field cond);
    inr (field +:+ op +:+ param +:+ "]::" +:+ type +:+ "[]", params) in
  switch operator
    [ ("$eq", plain (field +:+ " = :" +:+ param));
      ("$ne", plain (field +:+ " != :" +:+ param));
      ("$gt", plain (field +:+ " > :" +:+ param));
      ("$lt", plain (field +:+ " < :" +:+ param));
      ("$gte", plain (field +:+ " >= :" +:+ param));
      ("$lte", plain (field +:+ " <= :" +:+ param));
      ("$starts", like (field +:+ " LIKE :" +:+ param) (fun text => text +:+ "%"));
      ("$ends", like (field +:+ " LIKE :" +:+ param) (fun text => "%" +:+ text));
      ("$cont", like (field +:+ " LIKE :" +:+ param)
                     (fun text => "%" +:+ text +:+ "%"));
      ("$excl", like (field +:+ " NOT LIKE :" +:+ param)
                     (fun text => "%" +:+ text +:+ "%"));
      ("$in", array (field +:+ " IN (:..." +:+ param +:+ ")"));
      ("$notin", array (field +:+ " NOT IN (:..." +:+ param +:+ ")"));
      ("$isnull", inr (field +:+ " IS NULL", ∅));
      ("$notnull", inr (field +:+ " IS NOT NULL", ∅));
      ("$between",
        match value with
        | JUndefined | JNull =>
            inl (TypeError "Cannot read properties of null (reading 'length')")
        | _ =>
            checkFilterIsArray cond
              (Some (match Js.jlength value with
                     | JNum 2 => false
                     | _ => true
                     end)) ≫= fun _ =>
            inr (field +:+ " BETWEEN :" +:+ param +:+ "0 AND :" +:+ param +:+ "1",
                 {[ param +:+ "0" := Js.prop "0" value;
                    param +:+ "1" := Js.prop "1" value ]})
        end);
      ("$eqL", plain ("LOWER(" +:+ field +:+ ") = :" +:+ param));
      ("$neL", plain ("LOWER(" +:+ field +:+ ") != :" +:+ param));
      ("$startsL", like ("LOWER(" +:+ field +:+ ") " +:+ likeOperator +:+ " :" +:+ param)
                        (fun text => text +:+ "%"));
      ("$endsL", like ("LOWER(" +:+ field +:+ ") " +:+ likeOperator +:+ " :" +:+ param)
                      (fun text => "%" +:+ text));
      ("$contL", like ("LOWER(" +:+ field +:+ ") " +:+ likeOperator +:+ " :" +:+ param)
                      (fun text => "%" +:+ text +:+ "%"));
      ("$exclL", like ("LOWER(" +:+ field +:+ ") NOT " +:+ likeOperator +:+ " :" +:+ param)
                      (fun text => "%" +:+ text +:+ "%"));
      ("$inL", array ("LOWER(" +:+ field +:+ ") IN (:..." +:+ param +:+ ")"));
      ("$notinL", array ("LOWER(" +:+ field +:+ ") NOT IN (:..." +:+ param +:+ ")"));
      ("$contArr", arrayTyped " @> ARRAY[:...");
      ("$intersectsArr", arrayTyped " && ARRAY[:...") ]
    (match customOperators !! operator with
     | None => plain (field +:+ " = :" +:+ param)
     | Some customOperator =>
         let attempt : Exn + (string * gmap string JValue) :=
           (if Request.isArray customOperator
            then checkFilterIsArray cond None else inr tt) ≫= fun _ =>
           match Request.query customOperator field param with
           | None => inl (TypeError "custom operator query")
           | Some str =>
               inr (str, default params (Request.params customOperator))
           end in
         match attempt with
         | inr r => inr r
         | inl _ =>
             inl (BadRequestException
                    ("Invalid custom operator '" +:+ field +:+ "' query"))
         end
     end).


(** [setAndWhere] and [setOrWhere]. *)
Definition setAndWhere (cond : Request.QueryFilter) (i : string)
    (builder : Ref) (customOperators : Request.CustomOperators) : M unit :=
  '(str, params) ← lift (mapOperatorsToQuery cond ("andWhere" +:+ i)
                                              customOperators);
  andWhere builder str params.

Definition setOrWhere (cond : Request.QueryFilter) (i : string)
    (builder : Ref) (customOperators : Request.CustomOperators) : M unit :=
  '(str, params) ← lift (mapOperatorsToQuery cond ("orWhere" +:+ i)
                                              customOperators);
  orWhere builder str params.

(** [builderAddBrackets]: the negated case builds the inner conditions on
    a builder of its own that shares the parameters, then pushes the
    negated group. *)
Definition builderAddBrackets (builder : Ref) (condition : SConditionKey)
    (brackets : Ref -> M unit) (negated : bool) : M unit :=
  if negated then
    whereQueryBuilder ← createQueryBuilder builder;
    brackets whereQueryBuilder ;;
    wheres ← gets (fun w => Orm.wheres (expressionMap whereQueryBuilder w));
    let type := match condition with
                | KAnd => Orm.WAnd
                | KOr => Orm.WOr
                | KNot => Orm.WSimple
                end in
    pushWhere builder (type, Orm.Not (Orm.Brackets wheres))
  else if isAnd condition then andWhereBrackets builder brackets
  else orWhereBrackets builder brackets.

(** [field.replace(/./g, '_')]: every character but a line terminator
    becomes an underscore. *)
Definition safeFieldName (field : string) : string :=
  String.string_of_list_ascii
    (map (fun c => if Ascii.eqb c "010" || Ascii.eqb c "013" then c else "_"%char)
         (String.list_ascii_of_string field)).

(** [builderSetWhere]; [operator] defaults to ["$eq"] at the call sites
    that pass none. *)
Definition builderSetWhere (builder : Ref) (condition : SConditionKey)
    (field : string) (value : JValue)
    (customOperators : Request.CustomOperators) (operator : string) : M unit :=
  time ← process_hrtime;
  let index := safeFieldName field +:+ pretty (fst time) +:+ pretty (snd time) in
  let cond := Request.mkFilter field
                (if Util.isNull value then "$isnull" else operator) value in
  if isAnd condition
  then setAndWhere cond index builder customOperators
  else setOrWhere cond index builder customOperators.

(** The body of [setSearchFieldObjectCondition] on the operators of
    [object]; each comes with its value and with the recursive call on
    that value, which the body makes for the operator ["$or"], where the
    value is [object.$or]. *)
Definition setSearchFieldObjectCondition_on
    (customOperators : Request.CustomOperators)
    (operators : list (string * JValue
                       * (Ref -> SConditionKey -> string -> M unit)))
    (builder : Ref) (condition : SConditionKey) (field : string) : M unit :=
  let keys := map (fun o => fst (fst o)) operators in
  if (length keys =? 1) && negb (String.eqb (hd "" keys) "$or") then
    match operators with
    | (operator, value, _) :: _ =>
        builderSetWhere builder condition field value customOperators operator
    | [] => mret tt
    end
  else
    builderAddBrackets builder condition
      (fun qb =>
         forEach (fun '(operator, value, self) =>
           if negb (String.eqb operator "$or")
           then builderSetWhere qb condition field value customOperators
                                operator
           else
             match Util.objKeys value with
             | None =>
                 throw (TypeError "Cannot convert undefined or null to object")
             | Some orKeys =>
                 if length orKeys =? 1
                 then self qb condition field
                 else builderAddBrackets qb condition
                        (fun qb2 => self qb2 KOr field) false
             end) operators)
      false.

(** [setSearchFieldObjectCondition]. *)
Fixpoint setSearchFieldObjectCondition
    (customOperators : Request.CustomOperators) (object : JValue)
    (builder : Ref) (condition : SConditionKey) (field : string)
    {struct object} : M unit :=
  match object with
  | JObj kvs =>
      setSearchFieldObjectCondition_on customOperators
        (map (fun '(k, v) =>
                (k, v, setSearchFieldObjectCondition customOperators v)) kvs)
        builder condition field
  | JArr items =>
      setSearchFieldObjectCondition_on customOperators
        (zip (zip (Js.indexKeys (length items)) items)
             (map (setSearchFieldObjectCondition customOperators) items))
        builder condition field
  | JDate _ =>
      setSearchFieldObjectCondition_on customOperators [] builder condition
                                       field
  | _ => mret tt
  end.

(** The elements of [search[k]] when that is an array, each mapped by
    [f]. *)
Fixpoint itemsWith {C} (f : JValue -> C) (k : string)
    (l : list (string * JValue)) : list C :=
  match l with
  | [] => []
  | (k', v) :: r =>
      if String.eqb k k'
      then match v with JArr items => map f items | _ => [] end
      else itemsWith f k r
  end.

(** A search condition compiled: what remains is the builder to write to
    and the inherited combinator. *)
Definition Compiled : Type := Ref -> SConditionKey -> M unit.

(** A field of a search object: [builderSetWhere] for a scalar,
    [setSearchFieldObjectCondition] for an object. *)
Definition setSearchField (customOperators : Request.CustomOperators)
    (qb : Ref) (condition : SConditionKey) (field : string) (value : JValue)
  : M unit :=
  if negb (Util.isObject value)
  then builderSetWhere qb condition field value customOperators "$eq"
  else setSearchFieldObjectCondition customOperators value qb condition field.

(** The body of [setSearchCondition] on an object [search]; [itemsOf k]
    are the recursive calls on the elements of the array [search[k]]. *)
Definition setSearchCondition_on (customOperators : Request.CustomOperators)
    (search : JValue) (itemsOf : string -> list Compiled)
    (builder : Ref) (condition : SConditionKey) : M unit :=
  let keys := map fst (Js.entries search) in
  let first (k : string) : Compiled :=
    hd (fun _ _ => mret tt) (itemsOf k) in
  if negb (Util.hasLength keys) then mret tt
  (* search: {$not: [...]} *)
  else if Util.isArrayFull (Js.prop "$not" search) then
    builderAddBrackets builder condition
      (fun qb => forEach (fun item : Compiled => item qb KAnd) (itemsOf "$not"))
      true
  (* search: {$and: [...], ...} *)
  else if Util.isArrayFull (Js.prop "$and" search) then
    if length (itemsOf "$and") =? 1
    then first "$and" builder condition
    else
      builderAddBrackets builder condition
        (fun qb => forEach (fun item : Compiled => item qb KAnd) (itemsOf "$and"))
        false
  (* search: {$or: [...], ...} *)
  else if Util.isArrayFull (Js.prop "$or" search) then
    if length keys =? 1 then
      if length (itemsOf "$or") =? 1
      then first "$or" builder condition
      else
        builderAddBrackets builder condition
          (fun qb => forEach (fun item : Compiled => item qb KOr) (itemsOf "$or"))
          false
    (* search: {$or: [...], foo, ...} *)
    else
      builderAddBrackets builder condition
        (fun qb =>
           forEach (fun '(field, value) =>
             if negb (String.eqb field "$or")
             then setSearchField customOperators qb KAnd field value
             else if length (itemsOf "$or") =? 1
             then first "$or" builder KAnd
             else
               builderAddBrackets qb KAnd
                 (fun qb2 =>
                    forEach (fun item : Compiled => item qb2 KOr)
                            (itemsOf "$or"))
                 false)
             (Js.entries search))
        false
  (* search: {...} *)
  else if length keys =? 1 then
    match Js.entries search with
    | (field, value) :: _ =>
        setSearchField customOperators builder condition field value
    | [] => mret tt
    end
  else
    builderAddBrackets builder condition
      (fun qb =>
         forEach (fun '(field, value) =>
                    setSearchField customOperators qb KAnd field value)
                 (Js.entries search))
      false.

(** [setSearchCondition]; [condition] defaults to ['$and'] at the call
    sites that pass none. *)
Fixpoint setSearchCondition (customOperators : Request.CustomOperators)
    (search : JValue) {struct search} : Compiled :=
  match search with
  | JObj kvs =>
      setSearchCondition_on customOperators (JObj kvs)
        (fun k => itemsWith (setSearchCondition customOperators) k kvs)
  | JArr items =>
      setSearchCondition_on customOperators (JArr items) (fun _ => [])
  | _ => fun _ _ => mret tt
  end.

(** [sqlInjectionRegEx[i].test(field)], on the regular expression object
    the service holds. *)
Definition regexTest (i : nat) (r : Regex.re) (field : string) : M bool :=
  fun w =>
    let '(found, li) := Regex.test r (default 0 (lastIndex w !! i)) field in
    Ok found (set_lastIndex (<[i := li]> (lastIndex w)) w).

(** [checkSqlInjection]. *)
Definition checkSqlInjection (field : string) : M string :=
  forEach (fun '(i, r) =>
             found ← regexTest i r field;
             if found : bool
             then throwBadRequestException
                    ("SQL injection detected: " +:+ String "034" field
                     +:+ String "034" "")
             else mret tt)
          (zip (seq 0 (length sqlInjectionRegEx)) sqlInjectionRegEx) ;;
  mret field.

(** [mapSort]. *)
Definition mapSort (sort : list Request.QuerySort)
  : M (list (string * string)) :=
  foldl (fun (acc : M (list (string * string))) s =>
           params ← acc;
           let field := getFieldWithAlias (Request.sortField s) true in
           checkedFiled ← checkSqlInjection field;
           mret (Js.assocSet checkedFiled (Request.order s) params))
        (mret []) sort.

(** [getSort]. *)
Definition getSort (query : Request.ParsedRequestParams)
    (options : Request.QueryOptions) : M (list (string * string)) :=
  if Util.hasLength (Request.sort query) then mapSort (Request.sort query)
  else if Util.hasLength (Request.q_sort options)
  then mapSort (Request.q_sort options)
  else mret [].

(** [l && l.length] on an optional array. *)
Definition full (l : option (list string)) : bool :=
  match l with Some (_ :: _) => true | _ => false end.

Definition includes (x : string) (l : list string) : bool :=
  existsb (String.eqb x) l.

(** [getAllowedColumns]; [exclude] and [allow] are the two fields it reads
    from its [options] argument. *)
Definition getAllowedColumns (columns : list string)
    (exclude allow : option (list string)) : list string :=
  if negb (full exclude) && negb (full allow) then columns
  else List.filter
         (fun column =>
            (if full exclude then negb (includes column (default [] exclude))
             else true)
            && (if full allow then includes column (default [] allow)
                else true))
         columns.

(** [[...new Set(l)]]: the first occurrence of each element, in order. *)
Fixpoint uniqFrom (seen : list string) (l : list string) : list string :=
  match l with
  | [] => []
  | x :: r =>
      if includes x seen then uniqFrom seen r else x :: uniqFrom (x :: seen) r
  end.

Definition uniq (l : list string) : list string := uniqFrom [] l.

(** [getSelect]. *)
Definition getSelect (query : Request.ParsedRequestParams)
    (options : Request.QueryOptions) : list string :=
  let allowed := getAllowedColumns entityColumns (Request.q_exclude options)
                                   (Request.q_allow options) in
  let columns :=
    if Util.hasLength (Request.fields query)
    then List.filter (fun field => includes field allowed)
                     (Request.fields query)
    else allowed in
  let select :=
    map (fun col => alias +:+ "." +:+ col)
        (uniq ((if full (Request.q_persist options)
                then default [] (Request.q_persist options) else [])
               ++ columns ++ entityPrimaryColumns)) in
  uniq select.

(** [getEntityColumns]. *)
Definition getEntityColumns (entityMetadata : EntityMetadata)
  : list string * list string :=
  (map propertyPath (columns entityMetadata),
   map propertyPath (primaryColumns entityMetadata)).

Definition findRelation (name : string) (rels : list RelationMetadata)
  : option RelationMetadata :=
  List.find (fun one => String.eqb (relationName one) name) rels.

Definition inverseEntityMetadata (r : RelationMetadata)
  : option EntityMetadata :=
  entityMetadatas repo !! inverseEntity r.

(** An optional string is truthy when present and non-empty. *)
Definition present (s : option string) : bool :=
  match s with Some s => negb (String.eqb s "") | None => false end.

(** [getRelationMetadata]; [None] stands for [undefined]. *)
Definition getRelationMetadata (field : string) (options : Request.JoinOption)
  : M (option IAllowedRelation) :=
  hash ← gets entityRelationsHash;
  let allowedRelation : option IAllowedRelation :=
    match hash !! field with
    | Some cached => Some cached
    | None =>
        let fields := Js.split "." field in
        let '(relationMetadata, name, path, parentPath, nested) :=
          if length fields =? 1 then
            match findRelation (hd "" fields) (relations (metadata repo)) with
            | Some found =>
                (inverseEntityMetadata found, hd "" fields,
                 Some (alias +:+ "." +:+ hd "" fields), "", false)
            | None => (None, "", None, "", false)
            end
          else
            let '(_, relationMetadata, name, parentPath) :=
              foldl (fun '(rels, _, _, parentPath) '(i, propertyName) =>
                       let found :=
                         if Util.hasLength rels
                         then findRelation propertyName rels else None in
                       let relationMetadata :=
                         found ≫= inverseEntityMetadata in
                       let rels' :=
                         match relationMetadata with
                         | Some m => relations m
                         | None => []
                         end in
                       (rels', relationMetadata, propertyName,
                        if negb (i =? length fields - 1)
                        then (if String.eqb parentPath "" then propertyName
                              else parentPath +:+ "." +:+ propertyName)
                        else parentPath))
                    (relations (metadata repo), None, "", "")
                    (zip (seq 0 (length fields)) fields) in
            (relationMetadata, name, None, parentPath, true) in
        match relationMetadata with
        | Some relationMetadata =>
            let '(columns, primaryColumns) :=
              getEntityColumns relationMetadata in
            let path :=
              if negb (present path) && negb (String.eqb parentPath "") then
                match hash !! parentPath with
                | Some parentAllowedRelation =>
                    if present (ar_alias parentAllowedRelation)
                    then Some (default "" (ar_alias parentAllowedRelation)
                               +:+ "." +:+ name)
                    else Some field
                | None => path
                end
              else path in
            Some (mkAllowedRelation (Request.alias options) nested name path
                                    columns primaryColumns [])
        | None => None
        end
    end in
  match allowedRelation with
  | Some allowedRelation =>
      let allowedColumns :=
        getAllowedColumns (ar_columns allowedRelation)
                          (Request.exclude options) (Request.allow options) in
      let toSave :=
        mkAllowedRelation (ar_alias allowedRelation) (ar_nested allowedRelation)
          (ar_name allowedRelation) (ar_path allowedRelation)
          (ar_columns allowedRelation) (ar_primaryColumns allowedRelation)
          allowedColumns in
      modify (fun w => set_entityRelationsHash
                         (<[field := toSave]> (entityRelationsHash w)) w) ;;
      (if present (Request.alias options)
       then modify (fun w =>
                      set_entityRelationsHash
                        (<[default "" (Request.alias options) := toSave]>
                           (entityRelationsHash w)) w)
       else mret tt) ;;
      mret (Some toSave)
  | None => mret None
  end.

(** [convertArrayToQuery]. *)
Definition convertArrayToQuery (data : list (string * gmap string JValue))
  : string * gmap string JValue :=
  (Js.join " AND " (map fst data),
   foldl (fun params item => snd item ∪ params) ∅ data).

Definition console_warn (msg : string) : M unit :=
  modify (fun w => set_console (console w ++ [msg]) w).

(** [builder.innerJoin] and [builder.leftJoin]: the parameters are set
    and the join is added to the expression map; then the builder reads
    the path, which is a [TypeError] when the path is [undefined]. *)
Definition addJoin (builder : Ref) (type : Orm.JoinType)
    (path : option string) (alias : string)
    (on : option (string * gmap string JValue)) : M unit :=
  match on with
  | Some (_, params) => setParameters params
  | None => mret tt
  end ;;
  updateBuilder builder
    (fun m => Orm.set_joins
                (Orm.joins m ++ [Orm.mkJoin type path alias (fst <$> on)]) m) ;;
  match path with
  | Some _ => mret tt
  | None =>
      throw (TypeError "Cannot read properties of undefined (reading 'substr')")
  end.

(** [builder.addSelect]. *)
Definition addSelect (builder : Ref) (select : list string) : M unit :=
  updateBuilder builder
    (fun m => Orm.set_selects (Orm.selects m ++ select) m).

(** [a.map((x, i) => f(x, i))] for an [f] that may throw. *)
Fixpoint mapi_go {A B} (f : A -> nat -> Exn + B) (i : nat) (l : list A)
  : Exn + list B :=
  match l with
  | [] => inr []
  | x :: r => y ← f x i; ys ← mapi_go f (S i) r; inr (y :: ys)
  end.

(** [joinOptions[field]], [joinOptions] being a plain object: the option
    declared under [field]; where none is declared, what the object
    inherits under that name, which has none of the properties of an
    option; [None] stands for [undefined]. *)
Definition joinOption (field : string) (joinOptions : Request.JoinOptions)
  : option Request.JoinOption :=
  match Js.assoc field joinOptions with
  | Some options => Some options
  | None =>
      if Js.inherited field
      then Some (Request.mkJoinOption None None None None false false None)
      else None
  end.

(** [setJoin]. *)
Definition setJoin (cond : Request.QueryJoin)
    (joinOptions : Request.JoinOptions) (builder : Ref) : M unit :=
  match joinOption (Request.joinField cond) joinOptions with
  | None =>
      console_warn
        ("relation " +:+ String "034" (Request.joinField cond)
         +:+ String "034" " not found in allowed relations in the controller. Did you mean to use one of these? ["
         +:+ Js.join ", " (map fst joinOptions) +:+ "]")
  | Some options =>
      allowedRelation ← getRelationMetadata (Request.joinField cond) options;
      match allowedRelation with
      | None => mret tt
      | Some allowedRelation =>
          let relationType :=
            if Request.required options then Orm.innerJoin else Orm.leftJoin in
          let alias :=
            if present (Request.alias options)
            then default "" (Request.alias options)
            else ar_name allowedRelation in
          match Request.on cond with
          | Some on =>
              conds ← lift (mapi_go
                              (fun condition i =>
                                 mapOperatorsToQuery condition
                                   ("andCondition" +:+ pretty i) ∅) 0 on);
              addJoin builder relationType (ar_path allowedRelation) alias
                      (Some (convertArrayToQuery conds))
          | None =>
              addJoin builder relationType (ar_path allowedRelation) alias None
          end ;;
          if negb (bool_decide (Request.selectOpt options = Some false)) then
            let columns :=
              if full (Request.select cond)
              then List.filter
                     (fun column =>
                        includes column (ar_allowedColumns allowedRelation))
                     (default [] (Request.select cond))
              else ar_allowedColumns allowedRelation in
            let select :=
              map (fun col => alias +:+ "." +:+ col)
                  (uniq (ar_primaryColumns allowedRelation
                         ++ (if full (Request.persist options)
                             then default [] (Request.persist options) else [])
                         ++ columns)) in
            addSelect builder (uniq select)
          else mret tt
      end
  end.

(** The store behind the repository: the rows a query yields when its
    limit and offset are left out, in the order the query asks for. *)
Variable rowsMatching : Orm.ExpressionMap -> gmap string JValue -> list JValue.

(** [this.repo.createQueryBuilder(this.alias)]: a new, empty builder. *)
Definition repo_createQueryBuilder : M Ref :=
  fun w =>
    Ok (length (builders w))
       (set_builders (builders w ++ [Orm.emptyExpressionMap]) w).

(** The "set joins" step of [createBuilder]: the eager relations first,
    then the requested joins that are not eager.  [eagerJoins] is a plain
    object: [eagerJoins[field]] is truthy for an eager relation and for a
    name the object inherits. *)
Definition setJoins (parsed : Request.ParsedRequestParams)
    (joinOptions : Request.JoinOptions) (builder : Ref) : M unit :=
  let allowedJoins := map fst joinOptions in
  if Util.hasLength allowedJoins then
    eagerJoins ←
      foldl (fun (acc : M (list string)) '(allowedJoin, option) =>
               eagerJoins ← acc;
               if Request.eager option then
                 let cond :=
                   default (Request.mkQueryJoin allowedJoin None None)
                     (List.find (fun j => String.eqb (Request.joinField j)
                                                     allowedJoin)
                                (Request.join parsed)) in
                 setJoin cond joinOptions builder ;;
                 mret (eagerJoins ++ [allowedJoin])
               else mret eagerJoins)
            (mret []) joinOptions;
    forEach (fun j =>
               if negb (includes (Request.joinField j) eagerJoins
                        || Js.inherited (Request.joinField j))
               then setJoin j joinOptions builder
               else mret tt)
            (Request.join parsed)
  else mret tt.

(** [createBuilder]; [many] defaults to [true] and [withDeleted] to
    [false].  [isFinite] holds of what [getTake] and [getSkip] return, a
    number or [null]. *)
Definition createBuilder (parsed : Request.ParsedRequestParams)
    (options : Request.CrudRequestOptions) (many withDeleted : bool)
  : M Ref :=
  let query := Request.o_query options in
  builder ← repo_createQueryBuilder;
  let select := getSelect parsed query in
  updateBuilder builder (Orm.set_selects select) ;;
  (if entityHasDeleteColumn && Request.q_softDelete query
   then if match Request.includeDeleted parsed with
           | JNum 1 => true
           | _ => false
           end || withDeleted
        then updateBuilder builder (Orm.set_withDeleted true)
        else mret tt
   else mret tt) ;;
  setSearchCondition (default ∅ (Request.o_customOperators options))
                     (Request.search parsed) builder KAnd ;;
  setJoins parsed (default [] (Request.q_join query)) builder ;;
  (if many then
     sort ← getSort parsed query;
     updateBuilder builder (Orm.set_orderBys sort) ;;
     let take := CrudService.getTake parsed query in
     updateBuilder builder (Orm.set_take take) ;;
     let skip := CrudService.getSkip parsed take in
     updateBuilder builder (Orm.set_skip skip)
   else mret tt) ;;
  (if Js.truthy (Request.q_cache query)
      && negb match Request.cache parsed with
              | JNum 0 => true
              | _ => false
              end
   then updateBuilder builder (Orm.set_cache (Some (Request.q_cache query)))
   else mret tt) ;;
  mret builder.

(** What [getMany] returns: the paged envelope or the bare rows. *)
Inductive GetManyResult : Type :=
| Paged (response : CrudService.GetManyDefaultResponse)
| Plain (rows : list JValue).

(** The rows of a page: [skip] rows are passed over, at most [take] rows
    are returned. *)
Definition pageOf (take skip : option Z) (rows : list JValue) : list JValue :=
  let rest := drop (Z.to_nat (default 0%Z skip)) rows in
  match take with
  | Some n => firstn (Z.to_nat n) rest
  | None => rest
  end.

(** [builder.getMany()] and [builder.getManyAndCount()]. *)
Definition builder_getMany (builder : Ref) : M (list JValue) :=
  gets (fun w =>
         let m := expressionMap builder w in
         pageOf (Orm.take m) (Orm.skip m) (rowsMatching m (parameters w))).

Definition builder_getManyAndCount (builder : Ref) : M (list JValue * Z) :=
  gets (fun w =>
         let m := expressionMap builder w in
         let rows := rowsMatching m (parameters w) in
         (pageOf (Orm.take m) (Orm.skip m) rows, Z.of_nat (length rows))).

(** [n || d] on an optional number. *)
Definition numberOr (n : option Z) (d : Z) : Z :=
  match n with
  | Some n => if (n =? 0)%Z then d else n
  | None => d
  end.

(** [doGetMany]. *)
Definition doGetMany (builder : Ref) (query : Request.ParsedRequestParams)
    (options : Request.CrudRequestOptions) : M GetManyResult :=
  if CrudService.decidePagination query options then
    '(data, total) ← builder_getManyAndCount builder;
    limit ← gets (fun w => Orm.take (expressionMap builder w));
    offset ← gets (fun w => Orm.skip (expressionMap builder w));
    mret (Paged (CrudService.createPageInfo data total (numberOr limit total)
                                            (numberOr offset 0)))
  else
    rows ← builder_getMany builder;
    mret (Plain rows).

(** [getMany]. *)
Definition getMany (parsed : Request.ParsedRequestParams)
    (options : Request.CrudRequestOptions) : M GetManyResult :=
  builder ← createBuilder parsed options true false;
  doGetMany builder parsed options.

End TypeOrmCrudService.

(** *** Reading one entity, and writing *)

(** The calls of the service that change the store behind the
    repository: [repo.save] of an entity and of an array of entities,
    [repo.recover], [repo.softRemove] and [repo.remove]. *)
Inductive RepoCall : Type :=
| Save (entity : JValue)
| SaveBulk (entities : list JValue) (chunk : Z)
| Recover (entity : JValue)
| SoftRemove (entity : JValue)
| Remove (entity : JValue).

(** A service at work on a store: its world, and the writes it made, in
    order. *)
Record Store : Type := mkStore {
  world : World;
  writes : list RepoCall;
}.

(** An operation on the world, as an operation on the store. *)
Definition onWorld {A} (m : M A) : ST Store A :=
  fun s =>
    match m (world s) with
    | Ok a w => Ok a (mkStore w (writes s))
    | Throw e w => Throw e (mkStore w (writes s))
    end.

Definition write (c : RepoCall) : ST Store unit :=
  modify (fun s => mkStore (world s) (writes s ++ [c])).

(** [promise.catch(handler)]. *)
Definition catch {S A} (m : ST S A) (handler : Exn -> ST S A) : ST S A :=
  fun s =>
    match m s with
    | Ok a s' => Ok a s'
    | Throw e s' => handler e s'
    end.

(** [req.options.routes], as far as the service reads it. *)
Record RoutesOptions : Type := mkRoutes {
  createOneBase_returnShallow : bool;
  updateOneBase_allowParamsOverride : bool;
  updateOneBase_returnShallow : bool;
  replaceOneBase_allowParamsOverride : bool;
  replaceOneBase_returnShallow : bool;
  deleteOneBase_returnDeleted : bool;
}.

(** [CrudRequest], as the service reads it: the parsed request, the
    options with those of the routes, and what [getPrimaryParams] of the
    abstract service gives for the options.  The service assigns to fields
    of the request it is given; an assignment is modelled by passing the
    changed request on. *)
Record CrudRequest : Type := mkCrudRequest {
  req_parsed : Request.ParsedRequestParams;
  req_options : Request.CrudRequestOptions;
  req_routes : RoutesOptions;
  req_primaryParams : list string;
}.

(** [req.options.query.cache = false]. *)
Definition disableCache (req : CrudRequest) : CrudRequest :=
  let options := req_options req in
  let q := Request.o_query options in
  mkCrudRequest (req_parsed req)
    (Request.mkRequestOptions
       (Request.mkQueryOptions (Request.q_allow q) (Request.q_exclude q)
          (Request.q_persist q) (Request.q_filter q) (Request.q_join q)
          (Request.q_sort q) (Request.q_limit q) (Request.q_maxLimit q)
          (JBool false) (Request.q_alwaysPaginate q)
          (Request.q_softDelete q))
       (Request.o_customOperators options))
    (req_routes req) (req_primaryParams req).

(** [req.parsed.search = search]. *)
Definition withSearch (search : JValue) (req : CrudRequest) : CrudRequest :=
  let p := req_parsed req in
  mkCrudRequest
    (Request.mkParsed (Request.fields p) (Request.paramsFilter p)
       (Request.authPersist p) (Request.classTransformOptions p) search
       (Request.filter p) (Request.or p) (Request.join p) (Request.sort p)
       (Request.limit p) (Request.offset p) (Request.page p)
       (Request.cache p) (Request.includeDeleted p) (Request.extra p))
    (req_options req) (req_routes req) (req_primaryParams req).

(** The request after the values of [req.parsed.paramsFilter] were
    assigned. *)
Definition withParamsFilter (paramsFilter : list Request.QueryFilter)
    (req : CrudRequest) : CrudRequest :=
  let p := req_parsed req in
  mkCrudRequest
    (Request.mkParsed (Request.fields p) paramsFilter
       (Request.authPersist p) (Request.classTransformOptions p)
       (Request.search p) (Request.filter p) (Request.or p) (Request.join p)
       (Request.sort p) (Request.limit p) (Request.offset p) (Request.page p)
       (Request.cache p) (Request.includeDeleted p) (Request.extra p))
    (req_options req) (req_routes req) (req_primaryParams req).

(** [{...target, ...source}], [target] being the properties spread so
    far. *)
Definition spread (target : list (string * JValue)) (source : JValue)
  : list (string * JValue) :=
  foldl (fun o '(k, v) => Js.assocSet k v o) target (Js.entries source).

(** [keys.reduce((acc, p) => ({ ...acc, [p]: source[p] }), {})]; reading
    a property of [null] or [undefined] is a [TypeError]. *)
Definition pick (keys : list string) (source : JValue)
  : Exn + list (string * JValue) :=
  if Util.hasLength keys && Util.isNil source
  then inl (TypeError "Cannot read properties of undefined")
  else inr (foldl (fun acc p => Js.assocSet p (Js.prop p source) acc) [] keys).

(** [getParamFilters]. *)
Definition getParamFilters (parsed : Request.ParsedRequestParams)
  : list (string * JValue) :=
  if Util.hasLength (Request.paramsFilter parsed)
  then foldl (fun filters filter =>
                Js.assocSet (Request.field filter) (Request.value filter)
                            filters)
             [] (Request.paramsFilter parsed)
  else [].

Section TypeOrmCrudServiceWrites.

Variable repo : Repository.
Variable hrtime : nat -> Z * Z.

(** The store behind the repository: the rows a query yields after the
    writes made so far, when its limit and offset are left out; what
    [repo.save] and [repo.recover] resolve to after them. *)
Variable rowsAfter :
  list RepoCall -> Orm.ExpressionMap -> gmap string JValue -> list JValue.
Variable saved : list RepoCall -> JValue -> JValue.
Variable savedBulk : list RepoCall -> list JValue -> list JValue.
Variable recovered : list RepoCall -> JValue -> JValue.

(** [plainToClass(this.entityType, plain, options)] and
    [value instanceof this.entityType], of class-transformer and of the
    runtime; the exception [throwNotFoundException(name)] of the abstract
    service throws. *)
Variable plainToClass : JValue -> JValue -> JValue.
Variable instanceOfEntity : JValue -> bool.
Variable notFoundException : string -> Exn.

Definition repo_save (entity : JValue) : ST Store JValue :=
  fun s =>
    Ok (saved (writes s) entity) (mkStore (world s) (writes s ++ [Save entity])).

Definition repo_saveBulk (entities : list JValue) (chunk : Z)
  : ST Store (list JValue) :=
  fun s =>
    Ok (savedBulk (writes s) entities)
       (mkStore (world s) (writes s ++ [SaveBulk entities chunk])).

Definition repo_recover (entity : JValue) : ST Store JValue :=
  fun s =>
    Ok (recovered (writes s) entity)
       (mkStore (world s) (writes s ++ [Recover entity])).

(** [builder.getOne()]: the first row of the query, or [null]. *)
Definition builder_getOne (builder : Ref) : ST Store JValue :=
  gets (fun s =>
         let m := expressionMap builder (world s) in
         default JNull
           (head (pageOf (Orm.take m) (Orm.skip m)
                         (rowsAfter (writes s) m (parameters (world s)))))).

(** [getOneOrFail]; [shallow] and [withDeleted] default to [false]. *)
Definition getOneOrFail (req : CrudRequest) (shallow withDeleted : bool)
  : ST Store JValue :=
  let parsed := req_parsed req in
  let options := req_options req in
  builder ← onWorld (if shallow then repo_createQueryBuilder
                     else createBuilder repo hrtime parsed options true
                                        withDeleted);
  (if shallow
   then onWorld (setSearchCondition repo hrtime
                   (default ∅ (Request.o_customOperators options))
                   (Request.search parsed) builder KAnd)
   else mret tt) ;;
  found ← (if withDeleted
           then onWorld (updateBuilder builder (Orm.set_withDeleted true)) ;;
                builder_getOne builder
           else builder_getOne builder);
  if negb (Js.truthy found) then throw (notFoundException (alias repo))
  else mret found.

(** [getOne]. *)
Definition getOne (req : CrudRequest) : ST Store JValue :=
  getOneOrFail req false false.

(** [prepareEntityBeforeSave]; [undefined] when there is nothing to
    save. *)
Definition prepareEntityBeforeSave (dto : JValue)
    (parsed : Request.ParsedRequestParams) : JValue :=
  if negb (Util.isObject dto) then JUndefined
  else
    let assigned :=
      if Util.hasLength (Request.paramsFilter parsed)
      then foldl (fun o filter =>
                    Js.assocSet (Request.field filter) (Request.value filter) o)
                 (Js.entries dto) (Request.paramsFilter parsed)
      else Js.entries dto in
    if negb (Util.hasLength (map fst assigned)) then JUndefined
    else if instanceOfEntity dto
    then JObj (spread assigned (Request.authPersist parsed))
    else plainToClass (JObj (spread assigned (Request.authPersist parsed)))
                      (Request.classTransformOptions parsed).

(** [createOne]. *)
Definition createOne (req : CrudRequest) (dto : JValue) : ST Store JValue :=
  let returnShallow := createOneBase_returnShallow (req_routes req) in
  let entity := prepareEntityBeforeSave dto (req_parsed req) in
  (if negb (Js.truthy entity)
   then throw (BadRequestException "Empty data. Nothing to save.")
   else mret tt) ;;
  saved ← repo_save entity;
  if returnShallow then mret saved
  else
    let primaryParams := req_primaryParams req in
    if negb (Util.hasLength primaryParams)
       && existsb (fun p => Util.isNil (Js.prop p saved)) primaryParams
    then mret saved
    else
      search ← lift (pick primaryParams saved);
      getOneOrFail (withSearch (JObj search) req) false false.

(** [createMany]. *)
Definition createMany (req : CrudRequest) (dto : JValue)
  : ST Store (list JValue) :=
  (if negb (Util.isObject dto)
      || negb (Util.isArrayFull (Js.prop "bulk" dto))
   then throw (BadRequestException "Empty data. Nothing to save.")
   else mret tt) ;;
  let bulk :=
    List.filter (fun d => negb (Util.isUndefined d))
      (map (fun one => prepareEntityBeforeSave one (req_parsed req))
           (match Js.prop "bulk" dto with JArr items => items | _ => [] end)) in
  (if negb (Util.hasLength bulk)
   then throw (BadRequestException "Empty data. Nothing to save.")
   else mret tt) ;;
  repo_saveBulk bulk 50.

(** [updateOne]. *)
Definition updateOne (req : CrudRequest) (dto : JValue) : ST Store JValue :=
  let allowParamsOverride :=
    updateOneBase_allowParamsOverride (req_routes req) in
  let returnShallow := updateOneBase_returnShallow (req_routes req) in
  let paramsFilters := getParamFilters (req_parsed req) in
  let req := disableCache req in
  found ← getOneOrFail req returnShallow false;
  let toSave :=
    if negb allowParamsOverride
    then spread (spread (spread (spread [] found) dto) (JObj paramsFilters))
                (Request.authPersist (req_parsed req))
    else spread (spread (spread [] found) dto)
                (Request.authPersist (req_parsed req)) in
  updated ← repo_save
              (plainToClass (JObj toSave)
                 (Request.classTransformOptions (req_parsed req)));
  if returnShallow then mret updated
  else
    (if Util.hasLength (Request.paramsFilter (req_parsed req))
        && Util.isNil updated
     then throw (TypeError "Cannot read properties of undefined")
     else mret tt) ;;
    getOneOrFail
      (withParamsFilter
         (map (fun filter =>
                 Request.mkFilter (Request.field filter)
                   (Request.operator filter)
                   (Js.prop (Request.field filter) updated))
              (Request.paramsFilter (req_parsed req)))
         req)
      false false.

(** [recoverOne]. *)
Definition recoverOne (req : CrudRequest) : ST Store JValue :=
  let req := disableCache req in
  found ← getOneOrFail req false true;
  repo_recover found.

(** [replaceOne]. *)
Definition replaceOne (req : CrudRequest) (dto : JValue) : ST Store JValue :=
  let allowParamsOverride :=
    replaceOneBase_allowParamsOverride (req_routes req) in
  let returnShallow := replaceOneBase_returnShallow (req_routes req) in
  let paramsFilters := getParamFilters (req_parsed req) in
  let req := disableCache req in
  found ← catch (getOneOrFail req returnShallow false) (fun _ => mret JNull);
  let base := spread [] (Js.or_else found (JObj [])) in
  let toSave :=
    if negb allowParamsOverride
    then spread (spread (spread base dto) (JObj paramsFilters))
                (Request.authPersist (req_parsed req))
    else spread (spread (spread base (JObj paramsFilters)) dto)
                (Request.authPersist (req_parsed req)) in
  replaced ← repo_save
               (plainToClass (JObj toSave)
                  (Request.classTransformOptions (req_parsed req)));
  if returnShallow then mret replaced
  else
    let primaryParams := req_primaryParams req in
    if negb (Util.hasLength primaryParams) then mret replaced
    else
      search ← lift (pick primaryParams replaced);
      getOneOrFail (withSearch (JObj search) req) false false.

(** [deleteOne]. *)
Definition deleteOne (req : CrudRequest) : ST Store JValue :=
  let returnDeleted := deleteOneBase_returnDeleted (req_routes req) in
  let req := disableCache req in
  found ← getOneOrFail req returnDeleted false;
  let toReturn :=
    if returnDeleted
    then plainToClass (JObj (spread [] found))
                      (Request.classTransformOptions (req_parsed req))
    else JUndefined in
  (if Request.q_softDelete (Request.o_query (req_options req))
   then write (SoftRemove found)
   else write (Remove found)) ;;
  mret toReturn.

End TypeOrmCrudServiceWrites.

End Service.

(** ** RequestQueryParser *)

Module Parser.

(** [RequestQueryBuilderOptions]: the delimiters and, for each logical
    parameter, the names it goes by (a single name is a list of one). *)
Record RequestQueryBuilderOptions : Type := mkOptions {
  delim : string;
  delimStr : string;
  paramNamesMap : string -> list string;
}.

(** A route parameter descriptor. *)
Record ParamOption : Type := mkParamOption {
  po_field : string;
  po_type : string;
  po_disabled : bool;
}.

Abbreviation ParamsOptions := (list (string * ParamOption)).

(** The parser object: the parsed request and the private fields. *)
Record RequestQueryParser : Type := mkParser {
  parsed : Request.ParsedRequestParams;
  _params : JValue;
  _query : JValue;
  _paramNames : list string;
  _paramsOptions : ParamsOptions;
}.

(** [RequestQueryParser.create()]. *)
Definition create : RequestQueryParser :=
  mkParser (Request.mkParsed [] [] JUndefined JUndefined JUndefined [] [] [] []
                             JUndefined JUndefined JUndefined JUndefined
                             JUndefined JUndefined)
           JUndefined JUndefined [] [].

(** [getParsed]. *)
Definition getParsed (this : RequestQueryParser) : Request.ParsedRequestParams :=
  parsed this.

Definition updParsed
    (f : Request.ParsedRequestParams -> Request.ParsedRequestParams)
  : ST RequestQueryParser unit :=
  modify (fun this => mkParser (f (parsed this)) (_params this) (_query this)
                               (_paramNames this) (_paramsOptions this)).

Definition set_fields (x : list string) (p : Request.ParsedRequestParams) :=
  Request.mkParsed x (Request.paramsFilter p) (Request.authPersist p)
    (Request.classTransformOptions p) (Request.search p) (Request.filter p)
    (Request.or p) (Request.join p) (Request.sort p) (Request.limit p)
    (Request.offset p) (Request.page p) (Request.cache p)
    (Request.includeDeleted p) (Request.extra p).
Definition set_paramsFilter (x : list Request.QueryFilter)
    (p : Request.ParsedRequestParams) :=
  Request.mkParsed (Request.fields p) x (Request.authPersist p)
    (Request.classTransformOptions p) (Request.search p) (Request.filter p)
    (Request.or p) (Request.join p) (Request.sort p) (Request.limit p)
    (Request.offset p) (Request.page p) (Request.cache p)
    (Request.includeDeleted p) (Request.extra p).
Definition set_authPersist (x : JValue) (p : Request.ParsedRequestParams) :=
  Request.mkParsed (Request.fields p) (Request.paramsFilter p) x
    (Request.classTransformOptions p) (Request.search p) (Request.filter p)
    (Request.or p) (Request.join p) (Request.sort p) (Request.limit p)
    (Request.offset p) (Request.page p) (Request.cache p)
    (Request.includeDeleted p) (Request.extra p).
Definition set_classTransformOptions (x : JValue)
    (p : Request.ParsedRequestParams) :=
  Request.mkParsed (Request.fields p) (Request.paramsFilter p)
    (Request.authPersist p) x (Request.search p) (Request.filter p)
    (Request.or p) (Request.join p) (Request.sort p) (Request.limit p)
    (Request.offset p) (Request.page p) (Request.cache p)
    (Request.includeDeleted p) (Request.extra p).
Definition set_search (x : JValue) (p : Request.ParsedRequestParams) :=
  Request.mkParsed (Request.fields p) (Request.paramsFilter p)
    (Request.authPersist p) (Request.classTransformOptions p) x
    (Request.filter p) (Request.or p) (Request.join p) (Request.sort p)
    (Request.limit p) (Request.offset p) (Request.page p) (Request.cache p)
    (Request.includeDeleted p) (Request.extra p).
Definition set_filter (x : list Request.QueryFilter)
    (p : Request.ParsedRequestParams) :=
  Request.mkParsed (Request.fields p) (Request.paramsFilter p)
    (Request.authPersist p) (Request.classTransformOptions p)
    (Request.search p) x (Request.or p) (Request.join p) (Request.sort p)
    (Request.limit p) (Request.offset p) (Request.page p) (Request.cache p)
    (Request.includeDeleted p) (Request.extra p).
Definition set_or (x : list Request.QueryFilter)
    (p : Request.ParsedRequestParams) :=
  Request.mkParsed (Request.fields p) (Request.paramsFilter p)
    (Request.authPersist p) (Request.classTransformOptions p)
    (Request.search p) (Request.filter p) x (Request.join p) (Request.sort p)
    (Request.limit p) (Request.offset p) (Request.page p) (Request.cache p)
    (Request.includeDeleted p) (Request.extra p).
Definition set_join (x : list Request.QueryJoin)
    (p : Request.ParsedRequestParams) :=
  Request.mkParsed (Request.fields p) (Request.paramsFilter p)
    (Request.authPersist p) (Request.classTransformOptions p)
    (Request.search p) (Request.filter p) (Request.or p) x (Request.sort p)
    (Request.limit p) (Request.offset p) (Request.page p) (Request.cache p)
    (Request.includeDeleted p) (Request.extra p).
Definition set_sort (x : list Request.QuerySort)
    (p : Request.ParsedRequestParams) :=
  Request.mkParsed (Request.fields p) (Request.paramsFilter p)
    (Request.authPersist p) (Request.classTransformOptions p)
    (Request.search p) (Request.filter p) (Request.or p) (Request.join p) x
    (Request.limit p) (Request.offset p) (Request.page p) (Request.cache p)
    (Request.includeDeleted p) (Request.extra p).
Definition set_limit (x : JValue) (p : Request.ParsedRequestParams) :=
  Request.mkParsed (Request.fields p) (Request.paramsFilter p)
    (Request.authPersist p) (Request.classTransformOptions p)
    (Request.search p) (Request.filter p) (Request.or p) (Request.join p)
    (Request.sort p) x (Request.offset p) (Request.page p) (Request.cache p)
    (Request.includeDeleted p) (Request.extra p).
Definition set_offset (x : JValue) (p : Request.ParsedRequestParams) :=
  Request.mkParsed (Request.fields p) (Request.paramsFilter p)
    (Request.authPersist p) (Request.classTransformOptions p)
    (Request.search p) (Request.filter p) (Request.or p) (Request.join p)
    (Request.sort p) (Request.limit p) x (Request.page p) (Request.cache p)
    (Request.includeDeleted p) (Request.extra p).
Definition set_page (x : JValue) (p : Request.ParsedRequestParams) :=
  Request.mkParsed (Request.fields p) (Request.paramsFilter p)
    (Request.authPersist p) (Request.classTransformOptions p)
    (Request.search p) (Request.filter p) (Request.or p) (Request.join p)
    (Request.sort p) (Request.limit p) (Request.offset p) x (Request.cache
    p) (Request.includeDeleted p) (Request.extra p).
Definition set_cache (x : JValue) (p : Request.ParsedRequestParams) :=
  Request.mkParsed (Request.fields p) (Request.paramsFilter p)
    (Request.authPersist p) (Request.classTransformOptions p)
    (Request.search p) (Request.filter p) (Request.or p) (Request.join p)
    (Request.sort p) (Request.limit p) (Request.offset p) (Request.page p) x
    (Request.includeDeleted p) (Request.extra p).
Definition set_includeDeleted (x : JValue) (p : Request.ParsedRequestParams) :=
  Request.mkParsed (Request.fields p) (Request.paramsFilter p)
    (Request.authPersist p) (Request.classTransformOptions p)
    (Request.search p) (Request.filter p) (Request.or p) (Request.join p)
    (Request.sort p) (Request.limit p) (Request.offset p) (Request.page p)
    (Request.cache p) x (Request.extra p).
Definition set_extra (x : JValue) (p : Request.ParsedRequestParams) :=
  Request.mkParsed (Request.fields p) (Request.paramsFilter p)
    (Request.authPersist p) (Request.classTransformOptions p)
    (Request.search p) (Request.filter p) (Request.or p) (Request.join p)
    (Request.sort p) (Request.limit p) (Request.offset p) (Request.page p)
    (Request.cache p) (Request.includeDeleted p) x.

Definition setPrivate (query : JValue) (paramNames : list string)
  : ST RequestQueryParser unit :=
  modify (fun this => mkParser (parsed this) (_params this) query paramNames
                               (_paramsOptions this)).

Definition setParams (params : JValue) (options : ParamsOptions)
  : ST RequestQueryParser unit :=
  modify (fun this => mkParser (parsed this) params (_query this)
                               (_paramNames this) options).

(** [convertFilterToSearch]; [None] is the [undefined] an index past the
    end of an array gives. *)
Definition convertFilterToSearch (filter : option Request.QueryFilter)
  : JValue :=
  let isEmptyValue (operator : string) : bool :=
    String.eqb operator "isnull" || String.eqb operator "notnull" in
  match filter with
  | Some filter =>
      JObj [(Request.field filter,
             JObj [(Request.operator filter,
                    if isEmptyValue (Request.operator filter) then JBool true
                    else Request.value filter)])]
  | None => JObj []
  end.

(** [filters.map(parser.convertFilterToSearch)]. *)
Definition convertFilters (filters : list Request.QueryFilter) : list JValue :=
  map (fun filter => convertFilterToSearch (Some filter)) filters.

(** *** Indexed query parameters *)

Definition isDigit (c : ascii) : bool :=
  let n := Ascii.nat_of_ascii c in (48 <=? n) && (n <=? 57).

Definition isBracket (c : ascii) : bool :=
  Ascii.eqb c "["%char || Ascii.eqb c "]"%char.

Fixpoint span (p : ascii -> bool) (l : list ascii) : list ascii * list ascii :=
  match l with
  | c :: r => if p c then let '(a, b) := span p r in (c :: a, b) else ([], l)
  | [] => ([], [])
  end.

(** [Number(digits)], as the integer the digits write: the number is the
    double nearest to it, which differs from it only from 2^53 on. *)
Definition numberOfDigits (ds : list ascii) : Z := Js.digitsValue ds.

(** [key.match(/^([^\[\]]+)\[(\d+)]$/)]: the base key and the index. *)
Definition matchIndexed (key : string) : option (string * Z) :=
  let '(base, rest) :=
    span (fun c => negb (isBracket c)) (String.list_ascii_of_string key) in
  match base, rest with
  | _ :: _, open :: rest' =>
      let '(digits, close) := span isDigit rest' in
      match digits, close with
      | _ :: _, [c] =>
          if Ascii.eqb open "["%char && Ascii.eqb c "]"%char
          then Some (String.string_of_list_ascii base, numberOfDigits digits)
          else None
      | _, _ => None
      end
  | _, _ => None
  end.

(** [a[i] = v] on an array, for a number [i] that is a natural number:
    up to 2^32 - 2 it is an index, and the array grows, with holes, when
    [i] is past its end; from 2^32 - 1 on it names a property that is no
    element, which [filter] does not see. *)
Definition setIndex (a : list JValue) (i : Z) (v : JValue) : list JValue :=
  if (i <? 2 ^ 32 - 1)%Z then
    let i := Z.to_nat i in
    if i <? length a then <[i := v]> a
    else a ++ replicate (i - length a) JUndefined ++ [v]
  else a.

(** [normalizeIndexedParams].  An assignment to [result.__proto__] makes
    no property of the result: it sets the prototype of the result, or
    does nothing; what the result inherits from a prototype set that way
    is left out. *)
Definition normalizeIndexedParams (input : JValue) : JValue :=
  let result :=
    foldl (fun result '(key, value) =>
             match matchIndexed key with
             | Some (baseKey, index) =>
                 if String.eqb baseKey "__proto__" then result
                 else
                   let array := match Js.assoc baseKey result with
                                | Some (JArr l) => l
                                | _ => []
                                end in
                   Js.assocSet baseKey (JArr (setIndex array index value))
                               result
             | None =>
                 if String.eqb key "__proto__" then result
                 else Js.assocSet key value result
             end)
          [] (Js.entries input) in
  JObj (map (fun '(key, value) =>
               match value with
               | JArr l =>
                   (key, JArr (List.filter (fun v => negb (Util.isUndefined v)) l))
               | _ => (key, value)
               end) result).

(** *** Parsing *)

Section RequestQueryParser.

(** [RequestQueryBuilder.getOptions()]. *)
Variable options : RequestQueryBuilderOptions.

(** The runtime: [JSON.parse] ([None] when it throws), the test for a date
    string and the text of the [Date] made of one. *)
Variable JSON_parse : string -> option JValue.
Variable isDateString : string -> bool.
Variable dateText : string -> string.

(** The validators of [request-query.validator] and [qs.parse], which are
    not part of the sources at hand; a validator returns the exception it
    throws, if any. *)
Variable validateCondition :
  Request.QueryFilter -> string -> Request.CustomOperators -> Exn + unit.
Variable validateJoin : Request.QueryJoin -> Exn + unit.
Variable validateSort : string -> option string -> Exn + unit.
Variable validateNumeric : JValue -> string -> Exn + unit.
Variable validateParamOption : ParamsOptions -> string -> Exn + unit.
Variable validateUUID : JValue -> string -> Exn + unit.
Variable qs_parse : string -> string -> JValue.

(** [getParamNames]. *)
Definition getParamNames (this : RequestQueryParser) (type : string)
  : list string :=
  List.filter (fun p => existsb (String.eqb p) (paramNamesMap options type))
              (_paramNames this).

(** [parseValue]. *)
Definition parseValue (val : JValue) : JValue :=
  match JSON_parse (Js.toStr val) with
  | Some parsed =>
      if negb (Util.isDate parsed) && Util.isObject parsed then val
      else match parsed, val with
           | JNum n, JStr text =>
               if String.eqb (pretty n) text then parsed else val
           | JNum _, _ => val
           | _, _ => parsed
           end
  | None =>
      if isDateString (Js.toStr val) then JDate (dateText (Js.toStr val))
      else val
  end.

(** [parseValues]. *)
Definition parseValues (vals : JValue) : JValue :=
  match vals with
  | JArr (v :: r) => JArr (map parseValue (v :: r))
  | _ => parseValue vals
  end.

(** [parseSearchQueryParam].  [JSON.parse(d)] reads the text of [d] under
    the [try]: a [d] that cannot be converted throws there, as the text
    [[object Object]] that stands for it here does. *)
Definition parseSearchQueryParam (d : JValue) : Exn + JValue :=
  if Util.isNil d then inr JUndefined
  else match JSON_parse (Js.toStr d) with
       | Some data =>
           if negb (Util.isObject data)
           then inl (RequestQueryException "Invalid search param. JSON expected")
           else inr data
       | None => inl (RequestQueryException "Invalid search param. JSON expected")
       end.

(** A parser of one parameter value; the values of a query are strings,
    and calling a string method on anything else is a [TypeError]. *)
Definition onString {A} (parser : string -> Exn + A) (val : JValue)
  : Exn + A :=
  match val with
  | JStr s => parser s
  | _ => inl (TypeError "data.split is not a function")
  end.

Fixpoint mapE {A B} (f : A -> Exn + B) (l : list A) : Exn + list B :=
  match l with
  | [] => inr []
  | x :: r => y ← f x; ys ← mapE f r; inr (y :: ys)
  end.

(** [getParamValues]. *)
Definition getParamValues {A} (value : JValue) (parser : string -> Exn + A)
  : Exn + list A :=
  if Util.isStringFull value then (fun x => [x]) <$> onString parser value
  else match value with
       | JArr (v :: r) => mapE (onString parser) (v :: r)
       | _ => inr []
       end.

(** [parseQueryParam]. *)
Definition parseQueryParam {A} (this : RequestQueryParser) (type : string)
    (parser : string -> Exn + A) : Exn + list A :=
  foldl (fun (a : Exn + list A) name =>
           a ← a;
           vs ← getParamValues (Js.prop name (_query this)) parser;
           inr (a ++ vs))
        (inr []) (getParamNames this type).

(** [conditionParser]. *)
Definition conditionParser (cond : string)
    (customOperators : Request.CustomOperators) (data : string)
  : Exn + Request.QueryFilter :=
  let isArrayValue (operator : string) : bool :=
    existsb (String.eqb operator)
            ["in"; "notin"; "between"; "$in"; "$notin"; "$between"; "$inL";
             "$notinL"; "$contArr"; "$intersectsArr"]
    || match customOperators !! operator with
       | Some op => Request.isArray op
       | None => false
       end in
  let isEmptyValue (operator : string) : bool :=
    existsb (String.eqb operator) ["isnull"; "notnull"; "$isnull"; "$notnull"] in
  let param := Js.split (delim options) data in
  let field := hd "" param in
  let operator := param !! 1 in
  let raw := match param !! 2 with
             | Some v => if String.eqb v "" then "" else v
             | None => ""
             end in
  let value :=
    if from_option isArrayValue false operator
    then JArr (map JStr (Js.split (delimStr options) raw))
    else JStr raw in
  let value := parseValues value in
  if negb (from_option isEmptyValue false operator) && negb (Util.hasValue value)
  then inl (RequestQueryException ("Invalid " +:+ cond +:+ " value"))
  else
    let condition :=
      Request.mkFilter field (default "undefined" operator) value in
    validateCondition condition cond customOperators ≫= fun _ =>
    inr condition.

(** [fieldsParser]. *)
Definition fieldsParser (data : string) : Exn + list string :=
  inr (Js.split (delimStr options) data).

(** [parseJoinConditions]. *)
Definition parseJoinConditions (conditionsString : string)
  : Exn + list Request.QueryFilter :=
  match Js.prop "on" (qs_parse conditionsString (delimStr options)) with
  | JArr conditions => mapE (onString (conditionParser "filter" ∅)) conditions
  | _ => inl (TypeError "conditions.map is not a function")
  end.

(** [joinParser]. *)
Definition joinParser (data : string) : Exn + Request.QueryJoin :=
  let param := Js.split (delim options) data in
  let field := hd "" param in
  let selectString := default "" (param !! 1) in
  let conditions := Js.join (delim options) (drop 2 param) in
  on ← (if negb (String.eqb conditions "")
        then Some <$> parseJoinConditions conditions
        else inr None);
  let join :=
    Request.mkQueryJoin field
      (if negb (String.eqb selectString "")
       then Some (Js.split (delimStr options) selectString) else None)
      on in
  validateJoin join ≫= fun _ => inr join.

(** [sortParser]; an absent order does not pass [validateSort]. *)
Definition sortParser (data : string) : Exn + Request.QuerySort :=
  let param := Js.split (delimStr options) data in
  validateSort (hd "" param) (param !! 1) ≫= fun _ =>
  inr (Request.mkSort (hd "" param) (default "undefined" (param !! 1))).

(** [numericParser]. *)
Definition numericParser (num : string) (data : string) : Exn + JValue :=
  let val := parseValue (JStr data) in
  validateNumeric val num ≫= fun _ => inr val.

(** [parseDotChainToObject], as the object it builds under the first key
    of [key]. *)
Fixpoint dotChain (data : JValue) (keys : list string) : JValue :=
  match keys with
  | [] | [_] => parseValue data
  | _ :: (k :: _) as rest => JObj [(k, dotChain data rest)]
  end.

Definition parseDotChainToObject (data : JValue) (key : string)
    (result : list (string * JValue)) : list (string * JValue) :=
  let keys := Js.split "." key in
  Js.assocSet (hd "" keys) (dotChain data keys) result.

(** [k.replace('extra.', '')]: the first occurrence is removed. *)
Fixpoint removeFirst (pat : string) (s : string) : string :=
  if String.prefix pat s
  then String.substring (String.length pat) (String.length s) s
  else match s with
       | EmptyString => EmptyString
       | String c r => String c (removeFirst pat r)
       end.

(** [parseExtraFromQueryParam]. *)
Definition parseExtraFromQueryParam (this : RequestQueryParser) : JValue :=
  let params := paramNamesMap options "extra" in
  let extraKeys :=
    foldl (fun o '(k, v) => parseDotChainToObject v (removeFirst "extra." k) o)
          []
          (List.filter
             (fun '(k, _) =>
                existsb (fun p => negb (String.eqb p "") && String.prefix p k)
                        params)
             (Js.entries (_query this))) in
  if 0 <? length extraKeys then JObj extraKeys else JUndefined.

(** [parseQuery]. *)
Definition parseQuery (query : JValue)
    (customOperators : Request.CustomOperators)
  : ST RequestQueryParser unit :=
  if Util.isObject query then
    let normalizedQuery := normalizeIndexedParams query in
    let paramNames := map fst (Js.entries normalizedQuery) in
    if Util.hasLength paramNames then
      setPrivate normalizedQuery paramNames ;;
      this ← gets id;
      let searchData :=
        Js.prop (default "undefined" (getParamNames this "search" !! 0))
                (_query this) in
      search ← lift (parseSearchQueryParam searchData);
      updParsed (set_search search) ;;
      (if Util.isNil search then
         filter ← lift (parseQueryParam this "filter"
                          (conditionParser "filter" customOperators));
         updParsed (set_filter filter) ;;
         or ← lift (parseQueryParam this "or"
                      (conditionParser "or" customOperators));
         updParsed (set_or or)
       else mret tt) ;;
      fields ← lift (parseQueryParam this "fields" fieldsParser);
      updParsed (set_fields (default [] (fields !! 0))) ;;
      join ← lift (parseQueryParam this "join" joinParser);
      updParsed (set_join join) ;;
      sort ← lift (parseQueryParam this "sort" sortParser);
      updParsed (set_sort sort) ;;
      limit ← lift (parseQueryParam this "limit" (numericParser "limit"));
      updParsed (set_limit (default JUndefined (limit !! 0))) ;;
      offset ← lift (parseQueryParam this "offset" (numericParser "offset"));
      updParsed (set_offset (default JUndefined (offset !! 0))) ;;
      page ← lift (parseQueryParam this "page" (numericParser "page"));
      updParsed (set_page (default JUndefined (page !! 0))) ;;
      cache ← lift (parseQueryParam this "cache" (numericParser "cache"));
      updParsed (set_cache (default JUndefined (cache !! 0))) ;;
      includeDeleted ← lift (parseQueryParam this "includeDeleted"
                               (numericParser "includeDeleted"));
      updParsed (set_includeDeleted (default JUndefined (includeDeleted !! 0))) ;;
      updParsed (set_extra (parseExtraFromQueryParam this))
    else mret tt
  else mret tt.

(** [paramParser]; [None] stands for the [undefined] of a disabled
    parameter. *)
Definition paramParser (this : RequestQueryParser) (name : string)
  : Exn + option Request.QueryFilter :=
  validateParamOption (_paramsOptions this) name ≫= fun _ =>
  match Js.assoc name (_paramsOptions this) with
  | None =>
      inl (TypeError "Cannot read properties of undefined (reading 'disabled')")
  | Some option =>
      if po_disabled option then inr None
      else
        let value := Js.prop name (_params this) in
        value ←
          (if String.eqb (po_type option) "number" then
             let value := parseValue value in
             validateNumeric value ("param " +:+ name) ≫= fun _ => inr value
           else if String.eqb (po_type option) "uuid" then
             validateUUID value name ≫= fun _ => inr value
           else inr value);
        inr (Some (Request.mkFilter (po_field option) "$eq" value))
  end.

(** [parseParams]. *)
Definition parseParams (params : JValue) (options : ParamsOptions)
  : ST RequestQueryParser unit :=
  if Util.isObject params then
    let paramNames := map fst (Js.entries params) in
    if Util.hasLength paramNames then
      setParams params options ;;
      this ← gets id;
      filters ← lift (mapE (paramParser this) paramNames);
      updParsed (set_paramsFilter (omap id filters))
    else mret tt
  else mret tt.

(** [setAuthPersist] and [setClassTransformOptions]; the argument
    defaults to the empty object. *)
Definition setAuthPersist (persist : JValue) : ST RequestQueryParser unit :=
  let persist := if Util.isUndefined persist then JObj [] else persist in
  updParsed (set_authPersist (Js.or_else persist (JObj []))).

Definition setClassTransformOptions (options : JValue)
  : ST RequestQueryParser unit :=
  let options := if Util.isUndefined options then JObj [] else options in
  updParsed (set_classTransformOptions (Js.or_else options (JObj []))).

End RequestQueryParser.

End Parser.

(** ** CrudRequestInterceptor *)

Module Interceptor.

Inductive CrudActions : Type :=
| ReadAll | ReadOne | CreateOne | CreateMany | UpdateOne | ReplaceOne
| DeleteOne | RecoverOne.

Definition isReadAll (a : CrudActions) : bool :=
  match a with ReadAll => true | _ => false end.

(** [AuthOptions]: the property of the request that holds the principal,
    and the optional functions of the principal (or of the request). *)
Record AuthOptions : Type := mkAuthOptions {
  property : option string;
  auth_filter : option (JValue -> JValue);
  auth_or : option (JValue -> JValue);
  auth_persist : option (JValue -> JValue);
  auth_classTransformOptions : option (JValue -> JValue);
  auth_groups : option (JValue -> JValue);
}.

(** [MergedCrudOptions], as far as the interceptor reads it. *)
Record MergedCrudOptions : Type := mkCrudOptions {
  query : Request.QueryOptions;
  params : Parser.ParamsOptions;
  auth : option AuthOptions;
  customOperators : option Request.CustomOperators;
}.

(** [CrudRequest]. *)
Record CrudRequest : Type := mkCrudRequest {
  cr_parsed : Request.ParsedRequestParams;
  cr_options : Request.CrudRequestOptions;
  cr_auth : JValue;
}.

(** The calls made to the functions of the authorization rule. *)
Inductive AuthCall : Type :=
| CallOr | CallFilter | CallPersist | CallClassTransformOptions | CallGroups.

#[global] Instance AuthCall_eq_dec : EqDecision AuthCall.
Proof. solve_decision. Defined.

(** What one interception works on: the parser it created and the calls
    it has made to the authorization rule. *)
Record State : Type := mkState {
  parser : Parser.RequestQueryParser;
  calls : list AuthCall;
}.

Definition onParser {A} (m : ST Parser.RequestQueryParser A) : ST State A :=
  fun s =>
    match m (parser s) with
    | Ok a p => Ok a (mkState p (calls s))
    | Throw e p => Throw e (mkState p (calls s))
    end.

(** A call of a function of the authorization rule. *)
Definition call (c : AuthCall) (f : JValue -> JValue) (x : JValue)
  : ST State JValue :=
  fun s => Ok (f x) (mkState (parser s) (calls s ++ [c])).

(** What [getAuth] returns. *)
Record Auth : Type := mkAuth {
  a_filter : JValue;
  a_or : JValue;
  a_auth : JValue;
}.

Section CrudRequestInterceptor.

Variable options : Parser.RequestQueryBuilderOptions.
Variable JSON_parse : string -> option JValue.
Variable isDateString : string -> bool.
Variable dateText : string -> string.
Variable validateCondition :
  Request.QueryFilter -> string -> Request.CustomOperators -> Exn + unit.
Variable validateJoin : Request.QueryJoin -> Exn + unit.
Variable validateSort : string -> option string -> Exn + unit.
Variable validateNumeric : JValue -> string -> Exn + unit.
Variable validateParamOption : Parser.ParamsOptions -> string -> Exn + unit.
Variable validateUUID : JValue -> string -> Exn + unit.
Variable qs_parse : string -> string -> JValue.

Definition parseQuery : JValue -> Request.CustomOperators ->
                        ST Parser.RequestQueryParser unit :=
  Parser.parseQuery options JSON_parse isDateString dateText validateCondition
                    validateJoin validateSort validateNumeric qs_parse.

Definition parseParams : JValue -> Parser.ParamsOptions ->
                         ST Parser.RequestQueryParser unit :=
  Parser.parseParams JSON_parse isDateString dateText validateNumeric
                     validateParamOption validateUUID.

(** [getCrudRequest]. *)
Definition getCrudRequest (parser : Parser.RequestQueryParser)
    (crudOptions : MergedCrudOptions) (auth : JValue) : CrudRequest :=
  mkCrudRequest (Parser.getParsed parser)
                (Request.mkRequestOptions (query crudOptions)
                                          (customOperators crudOptions))
                auth.

(** [getParamsSearch]; [params] is optional. *)
Definition getParamsSearch (crudOptions : MergedCrudOptions)
    (params : JValue) : ST State (list JValue) :=
  if Js.truthy params then
    onParser (parseParams params (Interceptor.params crudOptions)) ;;
    paramsFilter ← gets (fun s => Request.paramsFilter (Parser.parsed (parser s)));
    mret (if Util.hasLength paramsFilter
          then Parser.convertFilters paramsFilter
          else [])
  else mret [].

(** The local [search] of [getSearch]: the client's search condition. *)
Definition clientSearch (parser : Parser.RequestQueryParser) : list JValue :=
  let p := Parser.parsed parser in
  let filter := Request.filter p in
  let or := Request.or p in
  if Js.truthy (Request.search p) then [Request.search p]
  else if Util.hasLength filter && Util.hasLength or then
    if (length filter =? 1) && (length or =? 1)
    then [JObj [("$or", JArr [Parser.convertFilterToSearch (filter !! 0);
                              Parser.convertFilterToSearch (or !! 0)])]]
    else [JObj [("$or",
                 JArr [JObj [("$and", JArr (Parser.convertFilters filter))];
                       JObj [("$and", JArr (Parser.convertFilters or))]])]]
  else if Util.hasLength filter
  then Parser.convertFilters filter
  else if Util.hasLength or then
    if length or =? 1
    then [Parser.convertFilterToSearch (or !! 0)]
    else [JObj [("$or", JArr (Parser.convertFilters or))]]
  else [].

(** The local [optionsFilter] of [getSearch]. *)
Definition optionsFilter (filter : Request.QueryFilterOption) : list JValue :=
  match filter with
  | Request.FilterArray (f :: r) => Parser.convertFilters (f :: r)
  | Request.FilterArray [] => [JArr []]
  | Request.FilterCondition c => [Js.or_else c (JObj [])]
  | _ => [JObj []]
  end.

(** [getSearch]; [params] is optional. *)
Definition getSearch (crudOptions : MergedCrudOptions) (action : CrudActions)
    (params : JValue) : ST State (list JValue) :=
  paramsSearch ← getParamsSearch crudOptions params;
  parser ← gets parser;
  match Request.q_filter (query crudOptions) with
  | Request.FilterFunction f =>
      let filterCond :=
        Js.or_else (f (Request.search (Parser.parsed parser))
                      (isReadAll action))
                   (JObj []) in
      mret (paramsSearch ++ [filterCond])
  | filter =>
      mret (paramsSearch ++ optionsFilter filter ++ clientSearch parser)
  end.

(** [Object.assign(target, source)]. *)
Definition assign (target : list (string * JValue)) (source : JValue)
  : list (string * JValue) :=
  foldl (fun o '(k, v) => Js.assocSet k v o) target (Js.entries source).

(** [getAuth]; [req] is the request object. *)
Definition getAuth (crudOptions : MergedCrudOptions) (req : JValue)
  : ST State Auth :=
  match auth crudOptions with
  | Some authOptions =>
      let hasProperty :=
        match property authOptions with
        | Some p => negb (String.eqb p "")
        | None => false
        end in
      let principal := Js.prop (default "" (property authOptions)) req in
      let userOrRequest := if hasProperty then principal else req in
      let a_auth :=
        if hasProperty && Js.truthy principal then
          if Util.isObject principal then
            if 0 <? length (Js.entries principal) then principal
            else JUndefined
          else principal
        else JUndefined in
      or ← match auth_or authOptions with
           | Some f => call CallOr f userOrRequest
           | None => mret JUndefined
           end;
      filter ← match auth_filter authOptions with
               | Some f =>
                   if negb (Js.truthy or)
                   then r ← call CallFilter f userOrRequest;
                        mret (Js.or_else r (JObj []))
                   else mret JUndefined
               | None => mret JUndefined
               end;
      match auth_persist authOptions with
      | Some f =>
          r ← call CallPersist f userOrRequest;
          onParser (Parser.setAuthPersist r)
      | None => mret tt
      end ;;
      options ← match auth_classTransformOptions authOptions with
                | Some f =>
                    r ← call CallClassTransformOptions f userOrRequest;
                    mret (assign [] r)
                | None => mret []
                end;
      options ← match auth_groups authOptions with
                | Some f =>
                    r ← call CallGroups f userOrRequest;
                    mret (Js.assocSet "groups" r options)
                | None => mret options
                end;
      onParser (Parser.setClassTransformOptions (JObj options)) ;;
      mret (mkAuth filter or a_auth)
  | None => mret (mkAuth JUndefined JUndefined JUndefined)
  end.

(** The part of [intercept] that runs when the request carries no parsed
    request yet: [ctrlOptions] and [crudOptions] and [action] are what
    [getCrudInfo] gives; the result is what is stored on the request. *)
Definition assemble (ctrlOptions : JValue)
    (crudOptions : MergedCrudOptions) (action : CrudActions) (req : JValue)
  : ST State CrudRequest :=
  onParser (parseQuery (Js.prop "query" req)
                       (default ∅ (customOperators crudOptions))) ;;
  auth ←
    (if negb (Util.isNil ctrlOptions) then
       search ← getSearch crudOptions action (Js.prop "params" req);
       auth ← getAuth crudOptions req;
       onParser
         (Parser.updParsed
            (Parser.set_search
               (if Js.truthy (a_or auth)
                then JObj [("$or", JArr [a_or auth;
                                         JObj [("$and", JArr search)]])]
                else JObj [("$and", JArr (a_filter auth :: search))]))) ;;
       mret (a_auth auth)
     else
       search ← getSearch crudOptions action JUndefined;
       onParser (Parser.updParsed
                   (Parser.set_search (JObj [("$and", JArr search)]))) ;;
       mret JUndefined);
  parser ← gets parser;
  mret (getCrudRequest parser crudOptions auth).

(** [intercept]: a request that already carries a parsed request is left
    alone; a [RequestQueryException] becomes a [BadRequestException]. *)
Definition intercept (ctrlOptions : JValue)
    (crudOptions : MergedCrudOptions) (action : CrudActions) (req : JValue)
    (parsedCrudRequest : option CrudRequest)
  : Res State (option CrudRequest) :=
  match parsedCrudRequest with
  | Some r => Ok (Some r) (mkState Parser.create [])
  | None =>
      match assemble ctrlOptions crudOptions action req
                     (mkState Parser.create []) with
      | Ok r s => Ok (Some r) s
      | Throw (RequestQueryException message) s =>
          Throw (BadRequestException message) s
      | Throw e s => Throw e s
      end
  end.

End CrudRequestInterceptor.

End Interceptor.

(** * Example data *)

Module Examples.

Definition column (name : string) (primary : bool) : Service.ColumnMetadata :=
  Service.mkColumn name name name primary false false "text".

(** An entity [User] with a relation to [Company], on a MySQL
    connection. *)
Definition users : Service.Repository :=
  Service.mkRepository
    (Service.mkEntity "User"
       [column "id" true; column "a" false; column "b" false;
        column "foo" false; column "status" false]
       [Service.mkRelation "company" "Company"])
    "mysql"
    {[ "Company" := Service.mkEntity "Company"
                      [column "id" true; column "name" false] [] ]}.

(** The same entity where [Company] has a relation back to [User]. *)
Definition staff : Service.Repository :=
  Service.mkRepository
    (Service.mkEntity "User" [column "id" true]
       [Service.mkRelation "company" "Company"])
    "mysql"
    {[ "Company" := Service.mkEntity "Company" [column "id" true]
                      [Service.mkRelation "users" "User"];
       "User" := Service.mkEntity "User" [column "id" true]
                   [Service.mkRelation "company" "Company"] ]}.

(** A clock whose n-th reading is 7 seconds and n nanoseconds. *)
Definition clock (n : nat) : Z * Z := (7%Z, Z.of_nat n).

(** A service that has served nothing yet, and one builder. *)
Definition fresh : Service.World :=
  Service.mkWorld [Orm.emptyExpressionMap] ∅ ∅ ∅ 0 [].

(** A store of 25 rows, whatever the query. *)
Definition rows25 (_ : Orm.ExpressionMap) (_ : gmap string JValue)
  : list JValue :=
  map (fun i => JObj [("id", JNum (Z.of_nat i))]) (seq 1 25).

Definition noQueryOptions : Request.QueryOptions :=
  Request.mkQueryOptions None None None Request.FilterAbsent None []
                         JUndefined JUndefined JUndefined false false.

Definition noOptions : Request.CrudRequestOptions :=
  Request.mkRequestOptions noQueryOptions None.

Definition nothingParsed : Request.ParsedRequestParams :=
  Parser.parsed Parser.create.

(** A join option with nothing set. *)
Definition plainJoin : Request.JoinOption :=
  Request.mkJoinOption None None None None false false None.

(** [limit=10&page=2], parsed. *)
Definition page2 : Request.ParsedRequestParams :=
  Parser.set_page (JNum 2) (Parser.set_limit (JNum 10) nothingParsed).

(** The world [createBuilder] leaves for that request; the builder it
    returns is the second one of the world. *)
Definition page2Built : Service.World :=
  match Service.createBuilder users clock page2 noOptions true false fresh with
  | Ok _ w => w
  | Throw _ w => w
  end.

(** The search [{"$or": [{"a": 1}], "foo": 2}]: a [$or] of one element
    with a sibling field. *)
Definition soleOrWithSibling : JValue :=
  JObj [("$or", JArr [JObj [("a", JNum 1)]]); ("foo", JNum 2)].

(** The same under a parent [$or], next to [{"b": 3}]. *)
Definition soleOrUnderOr : JValue :=
  JObj [("$or", JArr [JObj [("b", JNum 3)]; soleOrWithSibling])].

(** What the same position looks like with the element written in place
    of the [$or] of one element. *)
Definition mergedUnderOr : JValue :=
  JObj [("$or", JArr [JObj [("b", JNum 3)];
                      JObj [("a", JNum 1); ("foo", JNum 2)]])].

(** A row on which the conditions on [b] hold and no other does. *)
Definition rowWithB (sql : string) : bool := String.prefix "`User`.`b`" sql.

(** The parser's options: the default names and delimiters. *)
Definition parserOptions : Parser.RequestQueryBuilderOptions :=
  Parser.mkOptions "||" ","
    (fun type =>
       if String.eqb type "search" then ["s"]
       else if String.eqb type "filter" then ["filter"]
       else if String.eqb type "or" then ["or"]
       else [type]).

(** A [JSON.parse] that knows the texts the examples use. *)
Definition parseJson (text : string) : option JValue :=
  Js.assoc text [("{}", JObj []); ("10", JNum 10); ("2", JNum 2);
                 ("[]", JArr []); ("7", JNum 7)].

Definition noDate (_ : string) : bool := false.
Definition accept {A B C} (_ : A) (_ : B) (_ : C) : Exn + unit := inr tt.
Definition accept2 {A B} (_ : A) (_ : B) : Exn + unit := inr tt.
Definition accept1 {A} (_ : A) : Exn + unit := inr tt.
Definition noQs (_ _ : string) : JValue := JObj [].

(** The interceptor and the parser over this runtime. *)
Definition intercept :=
  Interceptor.intercept parserOptions parseJson noDate id accept accept1
                        accept2 accept2 accept2 accept2 noQs.

Definition parseQuery :=
  Parser.parseQuery parserOptions parseJson noDate id accept accept1 accept2
                    accept2 noQs.


(** An authorization rule with both an [or] and a [filter] function. *)
Definition authOrAndFilter : Interceptor.AuthOptions :=
  Interceptor.mkAuthOptions (Some "user")
    (Some (fun user => JObj [("ownerId", Js.prop "id" user)]))
    (Some (fun user => JObj [("public", JBool true)]))
    None None None.

Definition crudOptionsWith (auth : option Interceptor.AuthOptions)
  : Interceptor.MergedCrudOptions :=
  Interceptor.mkCrudOptions noQueryOptions [] auth None.

(** A request with a principal and no query string. *)
Definition request : JValue :=
  JObj [("user", JObj [("id", JNum 7)])].

(** A store that holds one user, whatever is asked and was written. *)
Definition ann : JValue :=
  JObj [("id", JNum 1); ("name", JStr "ann"); ("owner", JNum 7)].

Definition oneUser (_ : list Service.RepoCall) (_ : Orm.ExpressionMap)
    (_ : gmap string JValue) : list JValue :=
  [ann].

(** Saving resolves to the entity given. *)
Definition asGiven (_ : list Service.RepoCall) (entity : JValue) : JValue :=
  entity.

(** A class transformer that leaves a plain object as it is, and a class
    no value is an instance of. *)
Definition plain (value _ : JValue) : JValue := value.
Definition noInstance (_ : JValue) : bool := false.

Definition notFound (name : string) : Exn :=
  NotFoundException (name +:+ " not found").

Definition noRoutes : Service.RoutesOptions :=
  Service.mkRoutes false false false false false false.

(** A store nothing was written to. *)
Definition unwritten : Service.Store := Service.mkStore fresh [].

(** Options of a route that caches for a second. *)
Definition cachedOptions : Request.CrudRequestOptions :=
  Request.mkRequestOptions
    (Request.mkQueryOptions None None None Request.FilterAbsent None []
                            JUndefined JUndefined (JNum 1000) false false)
    None.

(** The request of the route [/users/:id] for the user 1, by the
    principal 7. *)
Definition userOne : Service.CrudRequest :=
  Service.mkCrudRequest
    (Parser.set_authPersist (JObj [("owner", JNum 7)])
       (Parser.set_search (JObj [("id", JNum 1)])
          (Parser.set_paramsFilter [Request.mkFilter "id" "$eq" (JNum 1)]
             nothingParsed)))
    cachedOptions noRoutes ["id"].

(** A body that names another user and another owner. *)
Definition bob : JValue :=
  JObj [("id", JNum 9); ("name", JStr "bob"); ("owner", JNum 8)].

End Examples.

(** * Vocabulary of the statements *)

Module Claims.

(** The clause type [builder.andWhere] and [builder.orWhere] give. *)
Definition whereType (condition : Service.SConditionKey) : Orm.WhereType :=
  if Service.isAnd condition then Orm.WAnd else Orm.WOr.

(** The world after a where-clause was pushed on [b]. *)
Definition pushed (b : Service.Ref) (c : Orm.WhereClause)
    (w : Service.World) : Service.World :=
  Service.set_builders
    (alter (fun m => Orm.set_wheres (Orm.wheres m ++ [c]) m) b
           (Service.builders w)) w.

(** The labels of the [switch] of [mapOperatorsToQuery]. *)
Definition builtinOperators : list string :=
  ["$eq"; "$ne"; "$gt"; "$lt"; "$gte"; "$lte"; "$starts"; "$ends"; "$cont";
   "$excl"; "$in"; "$notin"; "$isnull"; "$notnull"; "$between"; "$eqL";
   "$neL"; "$startsL"; "$endsL"; "$contL"; "$exclL"; "$inL"; "$notinL";
   "$contArr"; "$intersectsArr"].

(** The array-class operators: the built-in ones and the custom operators
    flagged [isArray]. *)
Definition plainArrayOperators : list string :=
  ["$in"; "$notin"; "$inL"; "$notinL"; "$between"].

Definition typedArrayOperators : list string :=
  ["$contArr"; "$intersectsArr"].

Definition isCustomArrayOperator (customOperators : Request.CustomOperators)
    (operator : string) : bool :=
  negb (Service.includes operator builtinOperators)
  && match customOperators !! operator with
     | Some c => Request.isArray c
     | None => false
     end.

Definition isArrayClassOperator (customOperators : Request.CustomOperators)
    (operator : string) : bool :=
  Service.includes operator plainArrayOperators
  || Service.includes operator typedArrayOperators
  || isCustomArrayOperator customOperators operator.

(** The value an array-class operator accepts: a non-empty array, of
    exactly two elements for [$between]. *)
Definition arityOk (operator : string) (value : JValue) : bool :=
  match value with
  | JArr ((_ :: _) as items) =>
      if String.eqb operator "$between" then length items =? 2 else true
  | _ => false
  end.

(** The bad-request errors of the array check. *)
Definition invalidColumnValue (field : string) : Exn :=
  BadRequestException ("Invalid column '" +:+ field +:+ "' value").

Definition invalidCustomOperator (aliased : string) : Exn :=
  BadRequestException ("Invalid custom operator '" +:+ aliased +:+ "' query").

(** The parameter name [builderSetWhere] derives from the field and the
    clock. *)
Definition paramName (hrtime : nat -> Z * Z)
    (condition : Service.SConditionKey) (field : string)
    (w : Service.World) : string :=
  (if Service.isAnd condition then "andWhere" else "orWhere")
  +:+ Service.safeFieldName field
  +:+ pretty (fst (hrtime (Service.ticks w)))
  +:+ pretty (snd (hrtime (Service.ticks w))).

(** The columns the root select is made of. *)
Definition selected (repo : Service.Repository)
    (query : Request.ParsedRequestParams)
    (options : Request.QueryOptions) : list string :=
  (if Service.full (Request.q_persist options)
   then default [] (Request.q_persist options) else [])
  ++ (if Util.hasLength (Request.fields query)
      then List.filter
             (fun field =>
                Service.includes field
                  (Service.getAllowedColumns (Service.entityColumns repo)
                     (Request.q_exclude options) (Request.q_allow options)))
             (Request.fields query)
      else Service.getAllowedColumns (Service.entityColumns repo)
             (Request.q_exclude options) (Request.q_allow options))
  ++ Service.entityPrimaryColumns repo.

(** The state an operation ends in, returned or thrown. *)
Definition final {S A} (r : Res S A) : S :=
  match r with Ok _ s | Throw _ s => s end.



(** The message of the parser on a bad search parameter. *)
Definition invalidSearch : Exn :=
  RequestQueryException "Invalid search param. JSON expected".

(** The principal the functions of the authorization rule are applied
    to. *)
Definition userOrRequest (a : Interceptor.AuthOptions) (req : JValue)
  : JValue :=
  match Interceptor.property a with
  | Some p => if String.eqb p "" then req else Js.prop p req
  | None => req
  end.

(** What the [or] function of the rule returns, [undefined] without one. *)
Definition authOr (crudOptions : Interceptor.MergedCrudOptions)
    (req : JValue) : JValue :=
  match Interceptor.auth crudOptions with
  | Some a =>
      match Interceptor.auth_or a with
      | Some f => f (userOrRequest a req)
      | None => JUndefined
      end
  | None => JUndefined
  end.

(** What the [filter] function of the rule returns, [undefined] without
    one. *)
Definition authFilter (crudOptions : Interceptor.MergedCrudOptions)
    (req : JValue) : JValue :=
  match Interceptor.auth crudOptions with
  | Some a =>
      match Interceptor.auth_filter a with
      | Some f => Js.or_else (f (userOrRequest a req)) (JObj [])
      | None => JUndefined
      end
  | None => JUndefined
  end.

(** [isFunction] on an optional function. *)
Definition isFunction {A} (f : option A) : bool :=
  match f with Some _ => true | None => false end.

(** The calls [getAuth] makes to the functions of the rule, in order. *)
Definition authCalls (crudOptions : Interceptor.MergedCrudOptions)
    (req : JValue) : list Interceptor.AuthCall :=
  match Interceptor.auth crudOptions with
  | Some a =>
      (if isFunction (Interceptor.auth_or a) then [Interceptor.CallOr] else [])
      ++ (if isFunction (Interceptor.auth_filter a)
          then if Js.truthy (authOr crudOptions req) then []
               else [Interceptor.CallFilter]
          else [])
      ++ (if isFunction (Interceptor.auth_persist a)
          then [Interceptor.CallPersist] else [])
      ++ (if isFunction (Interceptor.auth_classTransformOptions a)
          then [Interceptor.CallClassTransformOptions] else [])
      ++ (if isFunction (Interceptor.auth_groups a)
          then [Interceptor.CallGroups] else [])
  | None => []
  end.

(** The search the interceptor assigns, from the two results of the rule
    and the conditions [getSearch] returns. *)
Definition finalSearch (authOr authFilter : JValue) (search : list JValue)
  : JValue :=
  if Js.truthy authOr
  then JObj [("$or", JArr [authOr; JObj [("$and", JArr search)]])]
  else JObj [("$and", JArr (authFilter :: search))].

End Claims.

(** * Further vocabulary *)

Module Props.

(** A string without a dot: a single segment of a field path. *)
Definition dotFree (s : string) : bool :=
  forallb (fun c => negb (Ascii.eqb c ".")) (String.list_ascii_of_string s).

(** The key of a column in [entityColumnsHash]: the property path of an
    embedded column, the property name of any other. *)
Definition columnKey (c : Service.ColumnMetadata) : string :=
  if Service.embeddedMetadata c then Service.propertyPath c
  else Service.propertyName c.

(** The quote of identifiers: a backtick on MySQL and MariaDB, a double
    quote elsewhere. *)
Definition identifierQuote (repo : Service.Repository) : string :=
  if bool_decide (Service.dbName repo = "mysql")
     || bool_decide (Service.dbName repo = "mariadb")
  then "`" else String "034" "".

(** The built-in operators that take a single value or none: the tests
    for null, the comparisons, and the operators of the [LIKE] family,
    each with the pattern it makes of a text. *)
Definition nullOperators : list string := ["$isnull"; "$notnull"].

Definition comparisonOperators : list string :=
  ["$eq"; "$ne"; "$gt"; "$lt"; "$gte"; "$lte"; "$eqL"; "$neL"].

Definition likePattern (operator : string) : option (string -> string) :=
  if Service.includes operator ["$starts"; "$startsL"]
  then Some (fun text => text +:+ "%")
  else if Service.includes operator ["$ends"; "$endsL"]
  then Some (fun text => "%" +:+ text)
  else if Service.includes operator ["$cont"; "$excl"; "$contL"; "$exclL"]
  then Some (fun text => "%" +:+ text +:+ "%")
  else None.

(** The value [convertFilterToSearch] puts under the operator of a
    filter. *)
Definition searchValue (filter : Request.QueryFilter) : JValue :=
  if String.eqb (Request.operator filter) "isnull"
     || String.eqb (Request.operator filter) "notnull"
  then JBool true else Request.value filter.

(** A service none of whose regular expressions is in the middle of a
    global search: each [lastIndex] is 0, as it is when the service is
    created. *)
Definition fresh (w : Service.World) : Prop :=
  forall i, default 0 (Service.lastIndex w !! i) = 0.

(** A pattern of [sqlInjectionRegEx] matches somewhere in the field. *)
Definition matchesInjection (field : string) : bool :=
  existsb (fun r => Regex.matches r field) Service.sqlInjectionRegEx.

(** The message of [checkSqlInjection]. *)
Definition injectionDetected (field : string) : Exn :=
  BadRequestException
    ("SQL injection detected: " +:+ String "034" field +:+ String "034" "").

(** The sort that [getSort] maps: the client's, else the route's. *)
Definition effectiveSort (query : Request.ParsedRequestParams)
    (options : Request.QueryOptions) : list Request.QuerySort :=
  if Util.hasLength (Request.sort query) then Request.sort query
  else Request.q_sort options.

(** The order-by object of a sort: each field under its alias, a field
    sorted twice keeping its first position and its last order. *)
Definition orderBy (repo : Service.Repository) (sort : list Request.QuerySort)
  : list (string * string) :=
  foldl (fun params s =>
           Js.assocSet (Service.getFieldWithAlias repo (Request.sortField s) true)
                       (Request.order s) params)
        [] sort.

(** An operation respects a relation on states when the state it ends
    in, returning or throwing, is related to the state it starts from. *)
Definition respects {S A} (T : S -> S -> Prop) (m : ST S A) : Prop :=
  forall s, T s (Claims.final (m s)).

(** Every builder of [w] is a builder of [w'], related by [R]. *)
Definition evolves (R : Orm.ExpressionMap -> Orm.ExpressionMap -> Prop)
    (w w' : Service.World) : Prop :=
  forall b m,
    Service.builders w !! b = Some m ->
    exists m', Service.builders w' !! b = Some m' /\ R m m'.

(** [m'] is [m] with where-clauses added at the end. *)
Definition addsWheres (m m' : Orm.ExpressionMap) : Prop :=
  exists ws, m' = Orm.set_wheres (Orm.wheres m ++ ws) m.

(** Every parameter bound in [w] is bound in [w']. *)
Definition keepsParameters (w w' : Service.World) : Prop :=
  forall k, is_Some (Service.parameters w !! k) ->
            is_Some (Service.parameters w' !! k).

(** What compiling a search condition may do to the world: add
    where-clauses at the end of builders, create builders, bind
    parameters, read the clock. *)
Definition compiled (w w' : Service.World) : Prop :=
  evolves addsWheres w w'
  /\ keepsParameters w w'
  /\ Service.entityRelationsHash w' = Service.entityRelationsHash w
  /\ Service.lastIndex w' = Service.lastIndex w
  /\ Service.console w' = Service.console w
  /\ Service.ticks w <= Service.ticks w'.

(** [m'] is [m] with joins and selected columns added at the end. *)
Definition addsJoins (m m' : Orm.ExpressionMap) : Prop :=
  exists js ss,
    m' = Orm.set_selects (Orm.selects m ++ ss)
           (Orm.set_joins (Orm.joins m ++ js) m).

(** What setting joins may do to the world: add joins and selected
    columns at the end of builders, bind parameters, fill the relation
    cache, write warnings. *)
Definition joined (w w' : Service.World) : Prop :=
  evolves addsJoins w w'
  /\ keepsParameters w w'
  /\ Service.lastIndex w' = Service.lastIndex w
  /\ Service.ticks w' = Service.ticks w
  /\ Service.console w `prefix_of` Service.console w'.

(** The relation of a field of one segment, as [getRelationMetadata]
    resolves it from the metadata of the related entity. *)
Definition relationOf (repo : Service.Repository) (field : string)
    (options : Request.JoinOption) (related : Service.EntityMetadata)
  : Service.IAllowedRelation :=
  Service.mkAllowedRelation (Request.alias options) false field
    (Some (Service.alias repo +:+ "." +:+ field))
    (map Service.propertyPath (Service.columns related))
    (map Service.propertyPath (Service.primaryColumns related))
    (Service.getAllowedColumns
       (map Service.propertyPath (Service.columns related))
       (Request.exclude options) (Request.allow options)).

(** The alias a relation is joined under: the one of its option, else
    its name. *)
Definition joinAlias (options : Request.JoinOption)
    (relation : Service.IAllowedRelation) : string :=
  if Service.present (Request.alias options)
  then default "" (Request.alias options)
  else Service.ar_name relation.

(** The columns [setJoin] selects of a relation. *)
Definition joinSelect (cond : Request.QueryJoin)
    (options : Request.JoinOption) (relation : Service.IAllowedRelation)
  : list string :=
  if bool_decide (Request.selectOpt options = Some false) then []
  else
    Service.uniq
      (map (fun col => joinAlias options relation +:+ "." +:+ col)
           (Service.uniq
              (Service.ar_primaryColumns relation
               ++ (if Service.full (Request.persist options)
                   then default [] (Request.persist options) else [])
               ++ (if Service.full (Request.select cond)
                   then List.filter
                          (fun column =>
                             Service.includes column
                               (Service.ar_allowedColumns relation))
                          (default [] (Request.select cond))
                   else Service.ar_allowedColumns relation)))).

(** The relation cache after [relation] was saved for [field]: under
    the field, and under the alias of the option when it has one. *)
Definition cached (field : string) (options : Request.JoinOption)
    (relation : Service.IAllowedRelation)
    (hash : gmap string Service.IAllowedRelation)
  : gmap string Service.IAllowedRelation :=
  if Service.present (Request.alias options)
  then <[default "" (Request.alias options) := relation]>
         (<[field := relation]> hash)
  else <[field := relation]> hash.

(** The condition of a join and the parameters it binds: none without
    [on], else the conditions mapped, each under the parameter name of its
    position, with no custom operator, and joined by [AND]. *)
Definition joinCondition (repo : Service.Repository)
    (on : option (list Request.QueryFilter))
  : Exn + option (string * gmap string JValue) :=
  match on with
  | Some on =>
      (fun conds => Some (Service.convertArrayToQuery conds))
        <$> Service.mapi_go
              (fun condition i =>
                 Service.mapOperatorsToQuery repo condition
                   ("andCondition" +:+ pretty i) ∅) 0 on
  | None => inr None
  end.

(** [m'] has the settings of [m]: the deleted-rows flag, the cache, the
    order, the limit and the offset; and its select list starts with that
    of [m]. *)
Definition keepsSettings (m m' : Orm.ExpressionMap) : Prop :=
  Orm.withDeleted m' = Orm.withDeleted m
  /\ Orm.cache m' = Orm.cache m
  /\ Orm.orderBys m' = Orm.orderBys m
  /\ Orm.take m' = Orm.take m
  /\ Orm.skip m' = Orm.skip m
  /\ Orm.selects m `prefix_of` Orm.selects m'.

(** A value with no [undefined] element, if it is an array. *)
Definition noHoles (v : JValue) : bool :=
  match v with
  | JArr l => forallb (fun x => negb (Util.isUndefined x)) l
  | _ => true
  end.

(** A primitive value or a date: neither an array nor an object. *)
Definition scalar (v : JValue) : bool :=
  match v with JArr _ | JObj _ => false | _ => true end.

(** A scalar or an array of scalars. *)
Definition flat (v : JValue) : bool :=
  match v with
  | JArr l => forallb scalar l
  | JObj _ => false
  | _ => true
  end.

(** The operators that take no value, as [conditionParser] lists them. *)
Definition emptyValueOperators : list string :=
  ["isnull"; "notnull"; "$isnull"; "$notnull"].

(** The size of a value. *)
Fixpoint jsize (v : JValue) : nat :=
  match v with
  | JArr items => S (list_sum (map jsize items))
  | JObj kvs => S (list_sum (map (fun '(_, v) => jsize v) kvs))
  | _ => 1
  end.

(** The store [s'] holds the writes of [s] and no other. *)
Definition keepsWrites (s s' : Service.Store) : Prop :=
  Service.writes s' = Service.writes s.

(** The own keys of a value are distinct, as the keys of an object
    are. *)
Definition distinctKeys (v : JValue) : Prop :=
  NoDup (map fst (Js.entries v)).

(** The value of the property [k] in the first of [layers] that has
    it. *)
Fixpoint firstOf (k : string) (layers : list JValue) : option JValue :=
  match layers with
  | [] => None
  | layer :: below =>
      match Js.assoc k (Js.entries layer) with
      | Some v => Some v
      | None => firstOf k below
      end
  end.

(** The value of the last route parameter filter on the field [k]. *)
Definition paramOf (k : string) (parsed : Request.ParsedRequestParams)
  : option JValue :=
  Request.value
    <$> last (List.filter (fun f => String.eqb (Request.field f) k)
                          (Request.paramsFilter parsed)).

End Props.

(** * The condition compiler *)

Section Compiler.

Context (repo : Service.Repository) (hrtime : nat -> Z * Z).
Context (customOperators : Request.CustomOperators).

Local Abbreviation setSearchCondition :=
  (Service.setSearchCondition repo hrtime customOperators).
Local Abbreviation builderSetWhere := (Service.builderSetWhere repo hrtime).
Local Abbreviation mapOperatorsToQuery := (Service.mapOperatorsToQuery repo).
Local Abbreviation getFieldWithAlias := (Service.getFieldWithAlias repo).

(** [setSearchCondition] on an object is its body, run on the recursive
    calls for the elements of the arrays of the object. *)
Lemma setSearchCondition_object kvs :
  setSearchCondition (JObj kvs)
  = Service.setSearchCondition_on repo hrtime customOperators (JObj kvs)
      (fun k => Service.itemsWith setSearchCondition k kvs).
Proof. reflexivity. Qed.

(** A property of an object with one field is that field's value or is
    missing. *)
Lemma prop_single_not_array k field v :
  Util.isArrayFull v = false ->
  Util.isArrayFull (Js.prop k (JObj [(field, v)])) = false.
Proof.
  intros Hv. unfold Js.prop. cbn [Js.entries Js.assoc].
  destruct (String.eqb k field); cbn [default]; [exact Hv | reflexivity].
Qed.

(** An object with a single field that holds no full array is dispatched
    to the field-condition logic, on the same builder and combinator. *)
Lemma setSearchCondition_single_field field v b condition :
  Util.isArrayFull v = false ->
  setSearchCondition (JObj [(field, v)]) b condition
  = Service.setSearchField repo hrtime customOperators b condition field v.
Proof.
  intros Hv. rewrite setSearchCondition_object.
  unfold Service.setSearchCondition_on.
  rewrite !prop_single_not_array by exact Hv.
  reflexivity.
Qed.

(** [mapOperatorsToQuery] on [$isnull]. *)
Lemma mapOperatorsToQuery_isnull field v param :
  mapOperatorsToQuery (Request.mkFilter field "$isnull" v) param
                      customOperators
  = inr (getFieldWithAlias field false +:+ " IS NULL", ∅).
Proof. reflexivity. Qed.

(** A null value is compiled as [IS NULL] whatever the operator: one
    clause on the builder, one reading of the clock, no parameter. *)
Lemma builderSetWhere_null b condition field operator w :
  builderSetWhere b condition field JNull customOperators operator w
  = Ok tt (Service.set_parameters (∅ ∪ Service.parameters w)
             (Claims.pushed b
                (Claims.whereType condition,
                 Orm.Sql (getFieldWithAlias field false +:+ " IS NULL"))
                (Service.set_ticks (S (Service.ticks w)) w))).
Proof. destruct condition; reflexivity. Qed.

(** C5: a field whose value is null and that carries no operator goes,
    at every position of a search object, through the field-condition
    dispatch with the default operator, which pushes the single clause
    [field IS NULL] and binds no parameter; so does the leaf
    [{field: null}] as a whole.  The clause is never [field = :p]. *)
Theorem C5_null_leaf_compiles_to_is_null field b condition w :
  let isNullClause :=
    (Claims.whereType condition,
     Orm.Sql (getFieldWithAlias field false +:+ " IS NULL")) in
  let after (r : Res Service.World unit) :=
    exists w',
      r = Ok tt w'
      /\ Service.builders w'
         = alter (fun m => Orm.set_wheres (Orm.wheres m ++ [isNullClause]) m)
                 b (Service.builders w)
      /\ Service.parameters w' = Service.parameters w in
  after (Service.setSearchField repo hrtime customOperators b condition field
                                JNull w)
  /\ after (setSearchCondition (JObj [(field, JNull)]) b condition w).
Proof.
  cbv zeta.
  rewrite setSearchCondition_single_field by reflexivity.
  unfold Service.setSearchField. cbn [Util.isObject negb].
  rewrite builderSetWhere_null.
  split; (eexists; split; [reflexivity|]; split; [reflexivity|];
          cbn; apply (left_id ∅ (∪))).
Qed.

(** *** Array-class operators *)

(** The array check fails on what is not a full array, and on a forced
    failure; it passes otherwise. *)
Lemma checkFilterIsArray_bad field operator v withLength :
  Util.isArrayFull v = false \/ withLength = Some true ->
  Service.checkFilterIsArray (Request.mkFilter field operator v) withLength
  = inl (Claims.invalidColumnValue field).
Proof.
  unfold Service.checkFilterIsArray. cbn [Request.value Request.field].
  intros [Hv | ->].
  - destruct v as [| | | | | |[|x r]|]; try discriminate Hv; reflexivity.
  - cbn [default]. rewrite orb_true_r. reflexivity.
Qed.

Lemma checkFilterIsArray_ok field operator v withLength :
  Util.isArrayFull v = true -> default false withLength = false ->
  Service.checkFilterIsArray (Request.mkFilter field operator v) withLength
  = inr tt.
Proof.
  unfold Service.checkFilterIsArray. cbn [Request.value Request.field].
  intros Hv ->.
  destruct v as [| | | | | |[|x r]|]; try discriminate Hv.
  reflexivity.
Qed.

(** [mapOperatorsToQuery] on the plain array operators: the array check,
    then the fragment. *)
Lemma mapOperatorsToQuery_plain_array operator field v param :
  Service.includes operator ["$in"; "$notin"; "$inL"; "$notinL"] = true ->
  exists str,
    mapOperatorsToQuery (Request.mkFilter field operator v) param
                        customOperators
    = Service.checkFilterIsArray (Request.mkFilter field operator v) None
      ≫= fun _ => inr (str, {[ param := v ]}).
Proof.
  unfold Service.includes. cbn [existsb]. rewrite !orb_true_iff.
  intros [H|[H|[H|[H|H]]]]; try discriminate H;
    apply String.eqb_eq in H; subst operator; eexists; reflexivity.
Qed.

(** [mapOperatorsToQuery] on [$between]. *)
Lemma mapOperatorsToQuery_between field v param :
  v <> JUndefined -> v <> JNull ->
  mapOperatorsToQuery (Request.mkFilter field "$between" v) param
                      customOperators
  = Service.checkFilterIsArray (Request.mkFilter field "$between" v)
      (Some (match Js.jlength v with JNum 2 => false | _ => true end))
    ≫= fun _ =>
       inr (getFieldWithAlias field false +:+ " BETWEEN :" +:+ param
            +:+ "0 AND :" +:+ param +:+ "1",
            {[ param +:+ "0" := Js.prop "0" v;
               param +:+ "1" := Js.prop "1" v ]}).
Proof.
  intros Hu Hn. destruct v; try congruence; reflexivity.
Qed.

(** ... on the typed array operators: the array check, then the column
    type. *)
Lemma mapOperatorsToQuery_typed_array operator field v param :
  Service.includes operator Claims.typedArrayOperators = true ->
  exists sql,
    mapOperatorsToQuery (Request.mkFilter field operator v) param
                        customOperators
    = Service.checkFilterIsArray (Request.mkFilter field operator v) None
      ≫= fun _ =>
         type ← Service.getColumnType repo field;
         inr (getFieldWithAlias field false +:+ sql +:+ param +:+ "]::"
              +:+ type +:+ "[]", {[ param := v ]}).
Proof.
  unfold Service.includes, Claims.typedArrayOperators. cbn [existsb].
  rewrite !orb_true_iff.
  intros [H|[H|H]]; try discriminate H;
    apply String.eqb_eq in H; subst operator; eexists; reflexivity.
Qed.


Lemma includes_elem_of x l : Service.includes x l = true -> x ∈ l.
Proof.
  unfold Service.includes. intros H. apply existsb_exists in H as (y & Hy & E).
  apply String.eqb_eq in E. subst y. apply list_elem_of_In, Hy.
Qed.

(** One case for each of the operators an [includes] allows. *)
Ltac cases_of_includes H :=
  apply includes_elem_of in H;
  repeat (apply elem_of_cons in H as [H|H]; [subst|]);
  try (apply elem_of_nil in H; destruct H).

Lemma assoc_none {A} k (cases : list (string * A)) :
  Service.includes k (map fst cases) = false -> Js.assoc k cases = None.
Proof.
  induction cases as [|[k' a] cases IH]; [reflexivity|].
  unfold Service.includes. cbn [map fst existsb Js.assoc].
  intros H. apply orb_false_elim in H as [-> H].
  apply IH, H.
Qed.

(** ... on an operator that is none of the built-in ones and that the
    custom operators define: the optional array check and the handler,
    any failure of which becomes one bad-request error. *)
Lemma mapOperatorsToQuery_custom operator field v param c :
  Service.normalizeOperator operator = operator ->
  Service.includes operator Claims.builtinOperators = false ->
  customOperators !! operator = Some c ->
  mapOperatorsToQuery (Request.mkFilter field operator v) param
                      customOperators
  = match
      (if Request.isArray c
       then Service.checkFilterIsArray (Request.mkFilter field operator v) None
       else inr tt) ≫= fun _ =>
      match Request.query c (getFieldWithAlias field false) param with
      | None => inl (TypeError "custom operator query")
      | Some str => inr (str, default {[ param := v ]} (Request.params c))
      end
    with
    | inr r => inr r
    | inl _ => inl (Claims.invalidCustomOperator (getFieldWithAlias field false))
    end.
Proof.
  intros Hn Hb Hc. unfold Service.mapOperatorsToQuery.
  cbn [Request.operator Request.field Request.value].
  rewrite Hn. unfold Service.switch.
  rewrite assoc_none by exact Hb.
  cbn [default]. rewrite Hc. reflexivity.
Qed.

Lemma normalizeOperator_idem operator :
  Service.normalizeOperator (Service.normalizeOperator operator)
  = Service.normalizeOperator operator.
Proof.
  unfold Service.normalizeOperator.
  destruct (String.prefix "$" operator) eqn:E; [rewrite E; reflexivity|].
  cbn. destruct operator; reflexivity.
Qed.

(** Only the normalized operator of a condition matters. *)
Lemma mapOperatorsToQuery_normalized field operator v param :
  mapOperatorsToQuery (Request.mkFilter field operator v) param
                      customOperators
  = mapOperatorsToQuery
      (Request.mkFilter field (Service.normalizeOperator operator) v) param
      customOperators.
Proof.
  unfold Service.mapOperatorsToQuery.
  cbn [Request.operator Request.field Request.value].
  rewrite normalizeOperator_idem. reflexivity.
Qed.

(** [builderSetWhere] on a value that is not null reads the clock, maps
    the condition, and pushes the fragment or throws what the mapping
    throws. *)
Lemma builderSetWhere_not_null b condition field v operator w :
  v <> JNull ->
  builderSetWhere b condition field v customOperators operator w
  = match mapOperatorsToQuery (Request.mkFilter field operator v)
            (Claims.paramName hrtime condition field w) customOperators with
    | inl e => Throw e (Service.set_ticks (S (Service.ticks w)) w)
    | inr (str, params) =>
        Ok tt (Service.set_parameters (params ∪ Service.parameters w)
                 (Claims.pushed b (Claims.whereType condition, Orm.Sql str)
                    (Service.set_ticks (S (Service.ticks w)) w)))
    end.
Proof.
  intros Hv.
  unfold Service.builderSetWhere, Claims.paramName.
  assert (Util.isNull v = false) as Hn by (destruct v; try reflexivity; congruence).
  rewrite Hn.
  destruct condition; cbn [Service.isAnd];
    unfold Service.setAndWhere, Service.setOrWhere;
    unfold mbind, ST_bind, Service.process_hrtime, lift;
    cbn [Service.ticks Service.set_ticks];
    match goal with
    | |- context [Service.mapOperatorsToQuery ?r ?c ?p ?o] =>
        destruct (Service.mapOperatorsToQuery r c p o) as [e|[str params]]
    end; reflexivity.
Qed.

Lemma is_not_two n :
  match JNum n with JNum 2 => false | _ => true end = negb (n =? 2)%Z.
Proof.
  destruct n as [|p|p]; try reflexivity.
  destruct p as [p|p|]; try reflexivity.
  destruct p; reflexivity.
Qed.

Lemma invalid_errors_differ field aliased :
  Claims.invalidCustomOperator aliased <> Claims.invalidColumnValue field.
Proof.
  unfold Claims.invalidCustomOperator, Claims.invalidColumnValue.
  intros H. injection H as H. simpl in H. discriminate H.
Qed.

(** What mapping an array-class condition gives: the documented error
    when the value does not have the arity, never that error otherwise. *)
Lemma mapOperatorsToQuery_array_class field operator v param :
  Service.normalizeOperator operator = operator ->
  Claims.isArrayClassOperator customOperators operator = true ->
  v <> JNull ->
  (operator = "$between" -> v <> JUndefined) ->
  let r := mapOperatorsToQuery (Request.mkFilter field operator v) param
                               customOperators in
  if Claims.arityOk operator v
  then r <> inl (Claims.invalidColumnValue field)
       /\ (Service.includes operator Claims.plainArrayOperators = true ->
           exists q, r = inr q)
  else r = inl (if Service.includes operator Claims.builtinOperators
                then Claims.invalidColumnValue field
                else Claims.invalidCustomOperator
                       (getFieldWithAlias field false)).
Proof.
  intros Hnorm Hclass Hnull Hundef r.
  unfold Claims.isArrayClassOperator in Hclass.
  apply orb_true_iff in Hclass as [Hclass|Hcustom];
    [apply orb_true_iff in Hclass as [Hplain|Htyped]|].
  - (* the plain operators *)
    destruct (String.eqb operator "$between") eqn:Hbetween.
    + apply String.eqb_eq in Hbetween. subst operator. subst r.
      rewrite mapOperatorsToQuery_between by auto.
      change (Service.includes "$between" Claims.builtinOperators) with true.
      unfold Claims.arityOk. cbn [String.eqb Ascii.eqb Bool.eqb].
      destruct v as [| | | | | |items|];
        try (rewrite checkFilterIsArray_bad by (left; reflexivity);
             reflexivity).
      destruct items as [|x items];
        [rewrite checkFilterIsArray_bad by (left; reflexivity); reflexivity|].
      cbn [Js.jlength]. rewrite is_not_two.
      destruct (length (x :: items) =? 2) eqn:Hlen.
      * apply Nat.eqb_eq in Hlen.
        rewrite checkFilterIsArray_ok; [|reflexivity|].
        -- split; [intros H; cbn in H; discriminate H|]. intros _. eexists. reflexivity.
        -- cbn [default]. rewrite Hlen. reflexivity.
      * apply Nat.eqb_neq in Hlen.
        rewrite checkFilterIsArray_bad; [reflexivity|]. right. f_equal.
        apply negb_true_iff, Z.eqb_neq. lia.
    + assert (Service.includes operator ["$in"; "$notin"; "$inL"; "$notinL"]
              = true
              /\ Service.includes operator Claims.builtinOperators = true)
        as [Hsimple Hb].
      { cases_of_includes Hplain; try discriminate Hbetween;
          split; reflexivity. }
      rewrite Hb.
      destruct (mapOperatorsToQuery_plain_array operator field v param Hsimple)
        as [str Hr].
      subst r. rewrite Hr. unfold Claims.arityOk. rewrite Hbetween.
      destruct v as [| | | | | |[|x items]|];
        try (rewrite checkFilterIsArray_bad by (left; reflexivity);
             reflexivity).
      rewrite checkFilterIsArray_ok by reflexivity.
      split; [intros H; cbn in H; discriminate H|]. intros _. eexists. reflexivity.
  - (* the typed operators *)
    destruct (mapOperatorsToQuery_typed_array operator field v param Htyped)
      as [sql Hr].
    assert (Service.includes operator Claims.builtinOperators = true
            /\ String.eqb operator "$between" = false
            /\ Service.includes operator Claims.plainArrayOperators = false)
      as (Hb & Hbetween & Hplain).
    { cases_of_includes Htyped; repeat split; reflexivity. }
    rewrite Hb, Hplain.
    subst r. rewrite Hr. unfold Claims.arityOk. rewrite Hbetween.
    destruct v as [| | | | | |[|x items]|];
      try (rewrite checkFilterIsArray_bad by (left; reflexivity);
           reflexivity).
    rewrite checkFilterIsArray_ok by reflexivity.
    split; [|discriminate].
    unfold Service.getColumnType.
    destruct (List.find _ _); intros H; cbn in H; discriminate H.
  - (* the custom operators *)
    unfold Claims.isCustomArrayOperator in Hcustom.
    apply andb_true_iff in Hcustom as [Hb Hc].
    apply negb_true_iff in Hb. rewrite Hb.
    destruct (customOperators !! operator) as [c|] eqn:Hlookup;
      [|discriminate Hc].
    subst r. rewrite (mapOperatorsToQuery_custom _ _ _ _ c) by assumption.
    rewrite Hc.
    assert (String.eqb operator "$between" = false
            /\ Service.includes operator Claims.plainArrayOperators = false)
      as [Hbetween Hplain].
    { split.
      - destruct (String.eqb operator "$between") eqn:E; [|reflexivity].
        apply String.eqb_eq in E. subst operator. discriminate Hb.
      - destruct (Service.includes operator Claims.plainArrayOperators)
          eqn:E; [|reflexivity].
        cases_of_includes E; discriminate Hb. }
    rewrite Hplain.
    unfold Claims.arityOk. rewrite Hbetween.
    destruct v as [| | | | | |[|x items]|];
      try (rewrite checkFilterIsArray_bad by (left; reflexivity);
           reflexivity).
    rewrite checkFilterIsArray_ok by reflexivity.
    split; [|discriminate].
    cbn. destruct (Request.query c _ _); [discriminate|].
    intros H.
    apply (invalid_errors_differ field (getFieldWithAlias field false)).
    congruence.
Qed.

(** C6, as amended: compiling a leaf whose operator is array-class.  A
    null value is compiled as [IS NULL] whatever the operator.  Otherwise a
    value that is not a non-empty array (of exactly two elements for
    [$between]) fails with a bad-request error: [Invalid column ... value]
    for the built-in operators, [Invalid custom operator ... query] for a
    custom one; and a value that has the arity never raises the former,
    and compiles for [$in], [$notin], [$inL], [$notinL] and [$between]. *)
Theorem C6_array_class_operators b condition field v operator w :
  let op := Service.normalizeOperator operator in
  Claims.isArrayClassOperator customOperators op = true ->
  (op = "$between" -> v <> JUndefined) ->
  let run := builderSetWhere b condition field v customOperators operator w in
  let ticked := Service.set_ticks (S (Service.ticks w)) w in
  if Util.isNull v then
    run = Ok tt (Service.set_parameters (∅ ∪ Service.parameters w)
                   (Claims.pushed b
                      (Claims.whereType condition,
                       Orm.Sql (getFieldWithAlias field false +:+ " IS NULL"))
                      ticked))
  else if Claims.arityOk op v then
    (forall w', run <> Throw (Claims.invalidColumnValue field) w')
    /\ (Service.includes op Claims.plainArrayOperators = true ->
        exists w', run = Ok tt w')
  else
    run = Throw (if Service.includes op Claims.builtinOperators
                 then Claims.invalidColumnValue field
                 else Claims.invalidCustomOperator
                        (getFieldWithAlias field false))
                ticked.
Proof.
  intros op Hclass Hundef run ticked. subst run ticked.
  destruct (Util.isNull v) eqn:Hnull.
  { destruct v; try discriminate Hnull. apply builderSetWhere_null. }
  assert (v <> JNull) as Hv by (intros ->; discriminate Hnull).
  rewrite builderSetWhere_not_null by exact Hv.
  rewrite mapOperatorsToQuery_normalized. fold op.
  pose proof (mapOperatorsToQuery_array_class field op v
                (Claims.paramName hrtime condition field w)
                (normalizeOperator_idem operator) Hclass Hv Hundef) as H.
  cbv zeta in H.
  destruct (Claims.arityOk op v).
  - destruct H as [Hne Hplain]. split.
    + intros w' Hrun.
      destruct (mapOperatorsToQuery _ _ _) as [e|[str params]];
        [|discriminate Hrun].
      apply Hne. congruence.
    + intros Hp. destruct (Hplain Hp) as [[str params] ->].
      eexists. reflexivity.
  - rewrite H. reflexivity.
Qed.

(** *** Collapsing of single-element arrays *)

(** [{$and: [X]}] compiles as [X] does: same builder, same combinator,
    same world. *)
Lemma setSearchCondition_and_single X b condition :
  setSearchCondition (JObj [("$and", JArr [X])]) b condition
  = setSearchCondition X b condition.
Proof. reflexivity. Qed.

(** [{$or: [X]}] compiles as [X] does. *)
Lemma setSearchCondition_or_single X b condition :
  setSearchCondition (JObj [("$or", JArr [X])]) b condition
  = setSearchCondition X b condition.
Proof. reflexivity. Qed.

(** An element of the array of a [$and], [$or] or [$not] may be replaced
    by one that compiles the same, such as its wrapping in a
    single-element [$and] or [$or]: the object compiles the same. *)
Lemma setSearchCondition_collapse_in_array k pre post X W b condition :
  k ∈ ["$and"; "$or"; "$not"] ->
  setSearchCondition W = setSearchCondition X ->
  setSearchCondition (JObj [(k, JArr (pre ++ W :: post))]) b condition
  = setSearchCondition (JObj [(k, JArr (pre ++ X :: post))]) b condition.
Proof.
  intros Hk HW.
  assert (forall k',
             Service.itemsWith setSearchCondition k'
               [(k, JArr (pre ++ W :: post))]
             = Service.itemsWith setSearchCondition k'
                 [(k, JArr (pre ++ X :: post))]) as Hitems.
  { intros k'. cbn [Service.itemsWith].
    destruct (String.eqb k' k); [|reflexivity].
    rewrite !map_app. cbn [map]. rewrite HW. reflexivity. }
  assert (forall k',
             Util.isArrayFull
               (Js.prop k' (JObj [(k, JArr (pre ++ W :: post))]))
             = Util.isArrayFull
                 (Js.prop k' (JObj [(k, JArr (pre ++ X :: post))]))) as Hfull.
  { intros k'. unfold Js.prop. cbn [Js.entries Js.assoc].
    destruct (String.eqb k' k); [|reflexivity].
    destruct pre; reflexivity. }
  rewrite !setSearchCondition_object. unfold Service.setSearchCondition_on.
  cbn [Js.entries map fst Util.hasLength negb length Nat.eqb].
  rewrite !Hfull, !Hitems.
  repeat (apply elem_of_cons in Hk as [->|Hk]);
    [| | |apply elem_of_nil in Hk; destruct Hk].
  all: unfold Js.prop;
    cbn [Js.entries Js.assoc String.eqb Ascii.eqb Bool.eqb default
         Util.isArrayFull].
  all: destruct pre; reflexivity.
Qed.

(** So it is for [{$and: [X]}] and [{$or: [X]}] in place of [X] at any
    index of such an array. *)
Lemma setSearchCondition_collapse_wrapped k pre post X b condition :
  k ∈ ["$and"; "$or"; "$not"] ->
  setSearchCondition (JObj [(k, JArr (pre ++ JObj [("$and", JArr [X])] :: post))])
                     b condition
  = setSearchCondition (JObj [(k, JArr (pre ++ X :: post))]) b condition
  /\ setSearchCondition
       (JObj [(k, JArr (pre ++ JObj [("$or", JArr [X])] :: post))])
       b condition
     = setSearchCondition (JObj [(k, JArr (pre ++ X :: post))]) b condition.
Proof.
  intros Hk.
  split; apply setSearchCondition_collapse_in_array; try exact Hk;
    reflexivity.
Qed.

End Compiler.

(** C3, at the position the code misses: in [{"$or": [{"a": 1}], "foo": 2}]
    the element of the [$or] is compiled on the outer builder, not on the
    builder of the bracket that holds its sibling, so its clause comes
    before the bracket instead of inside it; under a parent [$or] the
    condition then holds of other rows than the one with the element
    written in place. *)
Theorem C3_sole_or_with_siblings_escapes_the_bracket :
  (exists w,
      Service.setSearchCondition Examples.users Examples.clock ∅
        Examples.soleOrWithSibling 0 Service.KAnd Examples.fresh = Ok tt w
      /\ Orm.wheres (Service.expressionMap 0 w)
         = [ (Orm.WAnd, Orm.Sql "`User`.`a` = :andWhere_70");
             (Orm.WAnd,
              Orm.Brackets
                [(Orm.WAnd, Orm.Sql "`User`.`foo` = :andWhere___71")]) ])
  /\ (exists w w',
         Service.setSearchCondition Examples.users Examples.clock ∅
           Examples.soleOrUnderOr 0 Service.KAnd Examples.fresh = Ok tt w
         /\ Service.setSearchCondition Examples.users Examples.clock ∅
              Examples.mergedUnderOr 0 Service.KAnd Examples.fresh = Ok tt w'
         /\ Orm.wheres (Service.expressionMap 0 w)
            = [ (Orm.WAnd,
                 Orm.Brackets
                   [ (Orm.WOr, Orm.Sql "`User`.`b` = :orWhere_70");
                     (Orm.WAnd, Orm.Sql "`User`.`a` = :andWhere_71");
                     (Orm.WOr,
                      Orm.Brackets
                        [(Orm.WAnd,
                          Orm.Sql "`User`.`foo` = :andWhere___72")]) ]) ]
         /\ Orm.wheres (Service.expressionMap 0 w')
            = [ (Orm.WAnd,
                 Orm.Brackets
                   [ (Orm.WOr, Orm.Sql "`User`.`b` = :orWhere_70");
                     (Orm.WOr,
                      Orm.Brackets
                        [ (Orm.WAnd, Orm.Sql "`User`.`a` = :andWhere_71");
                          (Orm.WAnd,
                           Orm.Sql "`User`.`foo` = :andWhere___72") ]) ]) ]
         /\ Orm.holds Examples.rowWithB (Orm.wheres (Service.expressionMap 0 w))
            = false
         /\ Orm.holds Examples.rowWithB (Orm.wheres (Service.expressionMap 0 w'))
            = true).
Proof.
  split.
  - eexists. split; [vm_compute; reflexivity|]. vm_compute. reflexivity.
  - eexists. eexists.
    split; [vm_compute; reflexivity|].
    split; [vm_compute; reflexivity|].
    repeat split; vm_compute; reflexivity.
Qed.

(** With two elements the [$or] of the same object stays inside the
    bracket of its sibling. *)
Lemma or_of_two_with_siblings_stays_in_the_bracket :
  exists w,
    Service.setSearchCondition Examples.users Examples.clock ∅
      (JObj [("$or", JArr [JObj [("a", JNum 1)]; JObj [("b", JNum 3)]]);
             ("foo", JNum 2)])
      0 Service.KAnd Examples.fresh = Ok tt w
    /\ Orm.wheres (Service.expressionMap 0 w)
       = [ (Orm.WAnd,
            Orm.Brackets
              [ (Orm.WAnd,
                 Orm.Brackets
                   [ (Orm.WOr, Orm.Sql "`User`.`a` = :orWhere_70");
                     (Orm.WOr, Orm.Sql "`User`.`b` = :orWhere_71") ]);
                (Orm.WAnd, Orm.Sql "`User`.`foo` = :andWhere___72") ]) ].
Proof. eexists. split; vm_compute; reflexivity. Qed.

(** The claim of C6 fails at a null value: [{"a": {"$in": null}}] compiles,
    to [IS NULL], and raises nothing. *)
Lemma C6_null_value_is_not_rejected :
  Js.isArray JNull = false
  /\ exists w,
       Service.setSearchCondition Examples.users Examples.clock ∅
         (JObj [("a", JObj [("$in", JNull)])]) 0 Service.KAnd Examples.fresh
       = Ok tt w
       /\ Orm.wheres (Service.expressionMap 0 w)
          = [(Orm.WAnd, Orm.Sql "`User`.`a` IS NULL")].
Proof.
  split; [reflexivity|].
  eexists. split; vm_compute; reflexivity.
Qed.

(** C6 at [{"a": {"$in": []}}]: the empty array is rejected. *)
Lemma C6_array_class_operators_witness :
  Service.builderSetWhere Examples.users Examples.clock 0 Service.KAnd "a"
    (JArr []) ∅ "$in" Examples.fresh
  = Throw (Claims.invalidColumnValue "a")
          (Service.set_ticks 1 Examples.fresh).
Proof.
  exact (C6_array_class_operators Examples.users Examples.clock ∅ 0
           Service.KAnd "a" (JArr []) "$in" Examples.fresh eq_refl
           (fun _ H => ltac:(discriminate H))).
Defined.

(** * Field checks, selection, joins and pagination *)

(** A [test] that fails leaves [lastIndex] at 0. *)
Lemma test_false_resets r lastIndex s :
  fst (Regex.test r lastIndex s) = false ->
  snd (Regex.test r lastIndex s) = 0.
Proof.
  unfold Regex.test.
  destruct (_ <? _); [reflexivity|].
  destruct (Regex.search _ _ _); [discriminate|reflexivity].
Qed.

(** On a service whose regular expressions all have [lastIndex] 0, the
    loop of [checkSqlInjection] throws a bad request when a pattern
    matches and leaves every [lastIndex] at 0 when none does. *)
Lemma checkSqlInjection_loop field msg (l : list (nat * Regex.re)) w :
  (forall i, default 0 (Service.lastIndex w !! i) = 0) ->
  let loop :=
    forEach (fun '(i, r) =>
               found ← Service.regexTest i r field;
               if found : bool
               then Service.throwBadRequestException msg
               else mret tt) l in
  if existsb (fun r => Regex.matches r field) (map snd l)
  then exists w', loop w = Throw (BadRequestException msg) w'
  else exists w', loop w = Ok tt w'
                  /\ forall i, default 0 (Service.lastIndex w' !! i) = 0.
Proof.
  cbv zeta.
  set (f := fun '(i, r) =>
              found ← Service.regexTest i r field;
              if found : bool
              then Service.throwBadRequestException msg
              else mret tt).
  revert w. induction l as [|[i r] l IH]; intros w Hzero.
  - cbn. eexists. split; [reflexivity|exact Hzero].
  - assert (forEach f ((i, r) :: l) w
            = match Regex.test r 0 field with
              | (true, li) =>
                  Throw (BadRequestException msg)
                        (Service.set_lastIndex
                           (<[i := li]> (Service.lastIndex w)) w)
              | (false, li) =>
                  forEach f l
                    (Service.set_lastIndex
                       (<[i := li]> (Service.lastIndex w)) w)
              end) as Hstep.
    { cbn [forEach]. unfold f. unfold Service.regexTest, mbind, ST_bind.
      rewrite Hzero. destruct (Regex.test r 0 field) as [[|] li]; reflexivity. }
    rewrite Hstep. cbn [map snd existsb]. unfold Regex.matches at 1.
    pose proof (test_false_resets r 0 field) as Hreset.
    destruct (Regex.test r 0 field) as [found li].
    cbn [fst snd] in *. destruct found; cbn [orb].
    + eexists. reflexivity.
    + rewrite Hreset by reflexivity.
      apply IH. intros j. cbn [Service.lastIndex Service.set_lastIndex].
      destruct (decide (i = j)) as [->|Hij].
      * rewrite lookup_insert_eq. reflexivity.
      * rewrite lookup_insert_ne by exact Hij. apply Hzero.
Qed.

(** [checkSqlInjection] on a service whose regular expressions all have
    [lastIndex] 0: a bad request when a pattern matches the field, the
    field otherwise. *)
Lemma checkSqlInjection_fresh field w :
  (forall i, default 0 (Service.lastIndex w !! i) = 0) ->
  if existsb (fun r => Regex.matches r field) Service.sqlInjectionRegEx
  then exists msg w',
         Service.checkSqlInjection field w = Throw (BadRequestException msg) w'
  else exists w',
         Service.checkSqlInjection field w = Ok field w'
         /\ forall i, default 0 (Service.lastIndex w' !! i) = 0.
Proof.
  intros Hzero. unfold Service.checkSqlInjection.
  pose proof (checkSqlInjection_loop field
                ("SQL injection detected: " +:+ String "034" field
                 +:+ String "034" "")
                (zip (seq 0 (length Service.sqlInjectionRegEx))
                     Service.sqlInjectionRegEx) w Hzero) as H.
  cbv zeta in H.
  change (map snd (zip (seq 0 (length Service.sqlInjectionRegEx))
                       Service.sqlInjectionRegEx))
    with Service.sqlInjectionRegEx in H.
  destruct (existsb _ _).
  - destruct H as [w' H]. eexists _, w'.
    unfold mbind at 1, ST_bind at 1. rewrite H. reflexivity.
  - destruct H as (w' & H & Hz). exists w'.
    unfold mbind at 1, ST_bind at 1. rewrite H. split; [reflexivity|exact Hz].
Qed.

(** The [lastIndex] a detection leaves behind makes the next check start
    in the middle of the field: a shorter field with a quote passes. *)
Lemma checkSqlInjection_after_a_detection :
  exists msg w w',
    Service.checkSqlInjection "User.aaaaaaaaaaaa'" Examples.fresh
    = Throw (BadRequestException msg) w
    /\ Regex.matches (hd (Regex.Lit "") Service.sqlInjectionRegEx) "User.b'"
       = true
    /\ Service.checkSqlInjection "User.b'" w = Ok "User.b'" w'.
Proof.
  eexists _, _, _. split; [vm_compute; reflexivity|].
  split; vm_compute; reflexivity.
Qed.

(** The sort path does check: the same field as a sort field is a bad
    request on a fresh service. *)
Lemma mapSort_rejects_the_field :
  exists msg w,
    Service.mapSort Examples.users [Request.mkSort "x.y'--" "ASC"]
                    Examples.fresh
    = Throw (BadRequestException msg) w.
Proof. eexists _, _. vm_compute. reflexivity. Qed.

(** C2, at the path the code misses: the field ["x.y'--"] of a filter leaf
    resolves to itself and matches an injection pattern, so that
    [checkSqlInjection] would reject it; the compiler interpolates it
    into the SQL fragment and tests no pattern. *)
Theorem C2_filter_leaf_field_is_not_checked :
  Service.getFieldWithAlias Examples.users "x.y'--" false = "x.y'--"
  /\ existsb (fun r => Regex.matches r "x.y'--") Service.sqlInjectionRegEx
     = true
  /\ (exists msg w,
         Service.checkSqlInjection "x.y'--" Examples.fresh
         = Throw (BadRequestException msg) w)
  /\ exists w,
       Service.setSearchCondition Examples.users Examples.clock ∅
         (JObj [("x.y'--", JNum 1)]) 0 Service.KAnd Examples.fresh = Ok tt w
       /\ Orm.wheres (Service.expressionMap 0 w)
          = [(Orm.WAnd, Orm.Sql "x.y'-- = :andWhere______70")]
       /\ Service.lastIndex w = Service.lastIndex Examples.fresh.
Proof.
  split; [vm_compute; reflexivity|].
  split; [vm_compute; reflexivity|].
  split; [eexists _, _; vm_compute; reflexivity|].
  eexists. split; [vm_compute; reflexivity|].
  split; vm_compute; reflexivity.
Qed.

Section Selection.

Context (repo : Service.Repository).

Lemma includes_true x l : Service.includes x l = true <-> x ∈ l.
Proof.
  unfold Service.includes. rewrite existsb_exists. split.
  - intros (y & Hy & E). apply String.eqb_eq in E. subst y.
    apply list_elem_of_In, Hy.
  - intros H. exists x. split; [apply list_elem_of_In, H|apply String.eqb_refl].
Qed.

Lemma elem_of_uniqFrom x seen l :
  x ∈ Service.uniqFrom seen l <-> x ∈ l /\ x ∉ seen.
Proof.
  revert seen. induction l as [|y l IH]; intros seen; cbn [Service.uniqFrom].
  - split; [intros H; inversion H|intros [H _]; inversion H].
  - destruct (Service.includes y seen) eqn:E.
    + apply includes_true in E. rewrite IH, elem_of_cons.
      split; [tauto|]. intros [[->|H] Hs]; [contradiction|tauto].
    + assert (y ∉ seen) as Hy.
      { intros H. apply includes_true in H. congruence. }
      rewrite !elem_of_cons, IH, elem_of_cons.
      split.
      * intros [->|[H Hs]]; [tauto|]. split; [tauto|]. tauto.
      * intros [[->|H] Hs]; [tauto|].
        destruct (decide (x = y)) as [->|Hxy]; [tauto|]. right. tauto.
Qed.

(** A set keeps exactly the elements of the list it is made of. *)
Lemma elem_of_uniq x l : x ∈ Service.uniq l <-> x ∈ l.
Proof.
  unfold Service.uniq. rewrite elem_of_uniqFrom.
  split; [tauto|]. intros H. split; [exact H|]. apply not_elem_of_nil.
Qed.

Lemma append_inj_r (s a b : string) : s +:+ a = s +:+ b -> a = b.
Proof.
  induction s as [|c s IH]; cbn; [tauto|].
  intros H. injection H as H. apply IH, H.
Qed.

Lemma elem_of_getSelect x query options :
  x ∈ Service.getSelect repo query options
  <-> exists col, x = Service.alias repo +:+ "." +:+ col
                  /\ col ∈ Claims.selected repo query options.
Proof.
  unfold Service.getSelect. rewrite elem_of_uniq, list_elem_of_fmap.
  fold (Claims.selected repo query options).
  split; intros (col & H1 & H2); exists col.
  - rewrite elem_of_uniq in H2. split; assumption.
  - split; [assumption|]. rewrite elem_of_uniq. assumption.
Qed.

(** C10: whatever the client asked for and whatever the allow and exclude
    lists, the root select holds every primary column and every persist
    column of the route; and a requested field that is not an allowed
    column (nor a persist or primary column) is left out, [getSelect]
    being a total function that raises nothing. *)
Theorem C10_select_keeps_primary_and_persist_columns query options col :
  let qualified := Service.alias repo +:+ "." +:+ col in
  (col ∈ Service.entityPrimaryColumns repo ->
   qualified ∈ Service.getSelect repo query options)
  /\ (col ∈ default [] (Request.q_persist options) ->
      qualified ∈ Service.getSelect repo query options)
  /\ (col ∈ Request.fields query ->
      col ∉ Service.getAllowedColumns (Service.entityColumns repo)
              (Request.q_exclude options) (Request.q_allow options) ->
      col ∉ default [] (Request.q_persist options) ->
      col ∉ Service.entityPrimaryColumns repo ->
      qualified ∉ Service.getSelect repo query options).
Proof.
  cbv zeta. rewrite !elem_of_getSelect. unfold Claims.selected.
  split; [|split].
  - intros H. exists col. split; [reflexivity|].
    rewrite !elem_of_app. tauto.
  - intros H. exists col. split; [reflexivity|].
    rewrite !elem_of_app. left.
    destruct (Request.q_persist options) as [[|p l]|]; cbn in *;
      [inversion H|exact H|inversion H].
  - intros Hfield Hallowed Hpersist Hprimary (col' & E & H).
    apply append_inj_r, append_inj_r in E. subst col'.
    rewrite !elem_of_app in H. destruct H as [H|[H|H]].
    + apply Hpersist.
      destruct (Service.full (Request.q_persist options));
        [exact H|inversion H].
    + destruct (Request.fields query) as [|f l] eqn:Ef; [inversion Hfield|].
      cbn [Util.hasLength] in H.
      apply list_elem_of_In, filter_In in H as [_ H].
      apply includes_true in H. contradiction.
    + contradiction.
Qed.

End Selection.

(** C10 on the example entity: the client asks for [a] and [secret] and
    the route allows [a] only; the select holds the primary column [id]
    and [a], and not [secret]. *)
Lemma C10_select_keeps_primary_and_persist_columns_witness :
  let query := Parser.set_fields ["a"; "secret"] Examples.nothingParsed in
  let options :=
    Request.mkQueryOptions (Some ["a"]) None None Request.FilterAbsent None []
                           JUndefined JUndefined JUndefined false false in
  "User.id" ∈ Service.getSelect Examples.users query options
  /\ "User.secret" ∉ Service.getSelect Examples.users query options.
Proof.
  cbv zeta. split.
  - apply (proj1 (C10_select_keeps_primary_and_persist_columns
                    Examples.users
                    (Parser.set_fields ["a"; "secret"] Examples.nothingParsed)
                    (Request.mkQueryOptions (Some ["a"]) None None
                       Request.FilterAbsent None [] JUndefined JUndefined
                       JUndefined false false) "id")).
    vm_compute. apply list_elem_of_here.
  - apply (proj2 (proj2 (C10_select_keeps_primary_and_persist_columns
                           Examples.users
                           (Parser.set_fields ["a"; "secret"]
                                              Examples.nothingParsed)
                           (Request.mkQueryOptions (Some ["a"]) None None
                              Request.FilterAbsent None [] JUndefined
                              JUndefined JUndefined false false) "secret"))).
    + vm_compute. apply list_elem_of_further, list_elem_of_here.
    + vm_compute. intros H. apply list_elem_of_In in H. cbn in H. intuition discriminate.
    + vm_compute. intros H. inversion H.
    + vm_compute. intros H. apply list_elem_of_In in H. cbn in H. intuition discriminate.
Defined.

Section Joins.

Context (repo : Service.Repository).





End Joins.


(** It fails as well for [join=constructor], which the route does not
    declare: [joinOptions.constructor] is the function every object
    inherits, no warning is written, and the join step of [createBuilder]
    does not even call [setJoin]. *)
Lemma C9_inherited_name_is_skipped_without_warning :
  Js.assoc "constructor" [("nothing", Examples.plainJoin)] = None
  /\ Service.setJoin Examples.users
       (Request.mkQueryJoin "constructor" None None)
       [("nothing", Examples.plainJoin)] 0 Examples.fresh
     = Ok tt Examples.fresh
  /\ Service.setJoins Examples.users
       (Parser.set_join [Request.mkQueryJoin "constructor" None None]
                        Examples.nothingParsed)
       [("nothing", Examples.plainJoin)] 0 Examples.fresh
     = Ok tt Examples.fresh
  /\ Service.console Examples.fresh = [].
Proof. repeat split; vm_compute; reflexivity. Qed.


(** [ceilDiv total limit] is the number of pages: the least [k] with
    [total <= k * limit]. *)
Lemma ceilDiv_spec total limit :
  (0 < limit)%Z ->
  ((CrudService.ceilDiv total limit - 1) * limit < total
   <= CrudService.ceilDiv total limit * limit)%Z.
Proof.
  intros Hlimit. unfold CrudService.ceilDiv.
  pose proof (Z.div_mod (- total) limit ltac:(lia)) as Hdiv.
  pose proof (Z.mod_pos_bound (- total) limit Hlimit) as Hmod.
  nia.
Qed.

(** * The parser and the request assembler *)

Lemma bind_Ok {S A B} (m : ST S A) (f : A -> ST S B) s b s' :
  (m ≫= f) s = Ok b s' -> exists a s1, m s = Ok a s1 /\ f a s1 = Ok b s'.
Proof.
  unfold mbind, ST_bind. destruct (m s) as [a s1|e s1]; [|discriminate].
  intros H. eauto.
Qed.

Lemma bind_Ok_eq {S A B} (m : ST S A) (f : A -> ST S B) s a s1 :
  m s = Ok a s1 -> (m ≫= f) s = f a s1.
Proof. unfold mbind, ST_bind. intros ->. reflexivity. Qed.

Lemma bind_Throw_eq {S A B} (m : ST S A) (f : A -> ST S B) s e s1 :
  m s = Throw e s1 -> (m ≫= f) s = Throw e s1.
Proof. unfold mbind, ST_bind. intros ->. reflexivity. Qed.







Section Assembler.

Context (options : Parser.RequestQueryBuilderOptions).
Context (JSON_parse : string -> option JValue).
Context (isDateString : string -> bool) (dateText : string -> string).
Context (validateCondition :
           Request.QueryFilter -> string -> Request.CustomOperators
           -> Exn + unit).
Context (validateJoin : Request.QueryJoin -> Exn + unit).
Context (validateSort : string -> option string -> Exn + unit).
Context (validateNumeric : JValue -> string -> Exn + unit).
Context (validateParamOption : Parser.ParamsOptions -> string -> Exn + unit).
Context (validateUUID : JValue -> string -> Exn + unit).
Context (qs_parse : string -> string -> JValue).

Local Abbreviation parseQuery :=
  (Parser.parseQuery options JSON_parse isDateString dateText
                     validateCondition validateJoin validateSort
                     validateNumeric qs_parse).
Local Abbreviation getSearch :=
  (Interceptor.getSearch JSON_parse isDateString dateText validateNumeric
                         validateParamOption validateUUID).
Local Abbreviation getParamsSearch :=
  (Interceptor.getParamsSearch JSON_parse isDateString dateText
                               validateNumeric validateParamOption
                               validateUUID).
Local Abbreviation intercept :=
  (Interceptor.intercept options JSON_parse isDateString dateText
                         validateCondition validateJoin validateSort
                         validateNumeric validateParamOption validateUUID
                         qs_parse).

(** The parser does not touch the log of calls. *)
Lemma onParser_calls {A} (m : ST Parser.RequestQueryParser A) s :
  Interceptor.calls (Claims.final (Interceptor.onParser m s))
  = Interceptor.calls s.
Proof.
  unfold Interceptor.onParser. destruct (m _); reflexivity.
Qed.

Lemma onParser_Ok_calls {A} (m : ST Parser.RequestQueryParser A) s a s' :
  Interceptor.onParser m s = Ok a s' ->
  Interceptor.calls s' = Interceptor.calls s.
Proof.
  intros H. rewrite <- (onParser_calls m s), H. reflexivity.
Qed.

(** [getSearch] is the conditions of the route parameters, then those of
    the route's filter option, then the client's; it calls no function of
    the authorization rule. *)
Lemma getSearch_parts crudOptions action params s search s' :
  getSearch crudOptions action params s = Ok search s' ->
  Interceptor.calls s' = Interceptor.calls s
  /\ exists paramsSearch,
       getParamsSearch crudOptions params s = Ok paramsSearch s'
       /\ search
          = paramsSearch
            ++ match Request.q_filter (Interceptor.query crudOptions) with
               | Request.FilterFunction f =>
                   [Js.or_else
                      (f (Request.search
                            (Parser.parsed (Interceptor.parser s')))
                         (Interceptor.isReadAll action))
                      (JObj [])]
               | filter =>
                   Interceptor.optionsFilter filter
                   ++ Interceptor.clientSearch (Interceptor.parser s')
               end.
Proof.
  unfold Interceptor.getSearch. intros H.
  apply bind_Ok in H as (paramsSearch & s1 & Hparams & H).
  assert (Interceptor.calls s1 = Interceptor.calls s) as Hcalls.
  { revert Hparams. unfold Interceptor.getParamsSearch.
    destruct (Js.truthy params); [|intros [= _ ->]; reflexivity].
    intros Hp. apply bind_Ok in Hp as ([] & s2 & Hp & Hrest).
    apply onParser_Ok_calls in Hp.
    cbv [mbind ST_bind gets mret ST_ret] in Hrest.
    injection Hrest as _ <-. exact Hp. }
  cbv [mbind ST_bind gets] in H.
  destruct (Request.q_filter (Interceptor.query crudOptions));
    cbv [mret ST_ret] in H; injection H as <- <-;
    (split; [exact Hcalls|]); exists paramsSearch; split;
    try exact Hparams; reflexivity.
Qed.

(** [getAuth] always returns: the results of the [or] and [filter]
    functions of the rule, the latter only when the former gave nothing,
    and the calls it made. *)
Lemma getAuth_returns crudOptions req s :
  exists a s',
    Interceptor.getAuth crudOptions req s = Ok a s'
    /\ Interceptor.a_or a = Claims.authOr crudOptions req
    /\ Interceptor.a_filter a
       = (if Js.truthy (Claims.authOr crudOptions req) then JUndefined
          else Claims.authFilter crudOptions req)
    /\ Interceptor.calls s'
       = Interceptor.calls s ++ Claims.authCalls crudOptions req.
Proof.
  unfold Interceptor.getAuth, Claims.authOr, Claims.authFilter,
    Claims.authCalls, Claims.authOr, Claims.userOrRequest.
  destruct (Interceptor.auth crudOptions) as [a|].
  2:{ eexists _, _. split; [reflexivity|]. cbn.
      rewrite app_nil_r. repeat split; reflexivity. }
  destruct a as [property filter or persist cto groups].
  cbn [Interceptor.property Interceptor.auth_filter Interceptor.auth_or
       Interceptor.auth_persist Interceptor.auth_classTransformOptions
       Interceptor.auth_groups].
  set (u := match property with
            | Some p => if String.eqb p "" then req else Js.prop p req
            | None => req
            end).
  assert ((if match property with
              | Some p => negb (String.eqb p "")
              | None => false
              end
           then Js.prop (default "" property) req else req) = u) as ->.
  { subst u. destruct property as [p|]; [|reflexivity].
    cbn. destruct (String.eqb p ""); reflexivity. }
  destruct or as [or|]; destruct filter as [filter|];
    destruct persist as [persist|]; destruct cto as [cto|];
    destruct groups as [groups|];
    cbv [mbind ST_bind Interceptor.call mret ST_ret Interceptor.onParser
         Parser.setAuthPersist Parser.setClassTransformOptions
         Parser.updParsed modify Interceptor.parser Interceptor.calls];
    try destruct (Js.truthy (or u));
    cbv [negb mbind ST_bind Interceptor.call mret ST_ret Interceptor.onParser
         Parser.setAuthPersist Parser.setClassTransformOptions
         Parser.updParsed modify Interceptor.parser Interceptor.calls];
    eexists _, _; (split; [reflexivity|]);
    cbn [Interceptor.a_or Interceptor.a_filter Interceptor.calls Js.truthy];
    rewrite <- ?app_assoc, ?app_nil_r; repeat split; reflexivity.
Qed.

(** C1, as amended: for a request the interceptor processes with
    controller options, the search assigned onto the parsed request is
    [{$or: [authOr, {$and: search}]}] when the rule's [or] function
    returned a condition, and [{$and: [authFilter, ...search]}] otherwise,
    where [search] is what [getSearch] returned: the conditions of the
    route parameters, of the route's filter option and of the client.  The
    [$and] under the [$or] holds no element for the filter of the rule;
    the log of calls is exactly the calls [getAuth] makes, and holds no
    call of the filter function when [or] returned a condition. *)
Theorem C1_final_search ctrlOptions crudOptions action req r s :
  Util.isNil ctrlOptions = false ->
  intercept ctrlOptions crudOptions action req None = Ok (Some r) s ->
  exists s1 search s2,
    Interceptor.onParser
      (parseQuery (Js.prop "query" req)
                  (default ∅ (Interceptor.customOperators crudOptions)))
      (Interceptor.mkState Parser.create []) = Ok tt s1
    /\ getSearch crudOptions action (Js.prop "params" req) s1 = Ok search s2
    /\ Request.search (Interceptor.cr_parsed r)
       = Claims.finalSearch (Claims.authOr crudOptions req)
                            (Claims.authFilter crudOptions req) search
    /\ Interceptor.calls s = Claims.authCalls crudOptions req
    /\ (Js.truthy (Claims.authOr crudOptions req) = true ->
        Interceptor.CallFilter ∉ Interceptor.calls s).
Proof.
  intros Hctrl. unfold Interceptor.intercept.
  destruct (Interceptor.assemble _ _ _ _ _ _ _ _ _ _ _ _ _ _ _ _)
    as [r' s'|e s'] eqn:Hrun; [|destruct e; discriminate].
  intros [= <- <-]. revert Hrun. unfold Interceptor.assemble.
  rewrite Hctrl. cbn [negb]. intros H.
  apply bind_Ok in H as ([] & s1 & Hparse & H).
  apply bind_Ok in H as (auth & s5 & H & Hend).
  apply bind_Ok in H as (search & s2 & Hsearch & H).
  apply bind_Ok in H as (a & s3 & Hauth & H).
  apply bind_Ok in H as ([] & s4 & Hset & H).
  cbv [mret ST_ret] in H. injection H as <- <-.
  cbv [mbind ST_bind gets mret ST_ret] in Hend. injection Hend as <- <-.
  destruct (getAuth_returns crudOptions req s2)
    as (a' & s3' & Hauth' & Hor & Hfilter & Hcalls).
  rewrite Hauth in Hauth'. injection Hauth' as <- <-.
  pose proof (onParser_Ok_calls _ _ _ _ Hparse) as Hc1.
  destruct (getSearch_parts _ _ _ _ _ _ Hsearch) as [Hc2 _].
  pose proof (onParser_Ok_calls _ _ _ _ Hset) as Hc4.
  assert (Interceptor.calls s4 = Claims.authCalls crudOptions req) as Hlog.
  { rewrite Hc4, Hcalls, Hc2, Hc1. reflexivity. }
  exists s1, search, s2.
  split; [exact Hparse|]. split; [exact Hsearch|].
  split; [|split; [exact Hlog|]].
  - revert Hset. unfold Interceptor.onParser, Parser.updParsed, modify.
    intros [= <-]. cbn. unfold Claims.finalSearch.
    rewrite Hor, Hfilter.
    destruct (Js.truthy (Claims.authOr crudOptions req)); reflexivity.
  - intros Htruthy. rewrite Hlog. unfold Claims.authCalls.
    rewrite Htruthy.
    destruct (Interceptor.auth crudOptions) as [au|]; [|apply not_elem_of_nil].
    rewrite !elem_of_app.
    destruct (Claims.isFunction (Interceptor.auth_or au));
      destruct (Claims.isFunction (Interceptor.auth_filter au));
      destruct (Claims.isFunction (Interceptor.auth_persist au));
      destruct (Claims.isFunction (Interceptor.auth_classTransformOptions au));
      destruct (Claims.isFunction (Interceptor.auth_groups au));
      cbv iota; rewrite ?elem_of_nil;
      intros H; decompose [or] H; try contradiction;
      match goal with
      | E : _ ∈ [_] |- _ =>
          apply list_elem_of_In in E; destruct E as [E|[]]; discriminate E
      end.
Qed.

End Assembler.

(** The claim of C1 fails in the [or] case: the rule has an [or] and a
    [filter] function, [or] returns a condition, and the [$and] under the
    [$or] holds the conditions of [getSearch] only, with no element for
    the filter of the rule, whatever that element would be. *)
Lemma C1_or_case_has_no_auth_filter_element :
  exists r s,
    Examples.intercept (JObj [])
      (Examples.crudOptionsWith (Some Examples.authOrAndFilter))
      Interceptor.ReadAll Examples.request None = Ok (Some r) s
    /\ Request.search (Interceptor.cr_parsed r)
       = JObj [("$or", JArr [JObj [("public", JBool true)];
                             JObj [("$and", JArr [JObj []])]])]
    /\ forall authFilter,
         Request.search (Interceptor.cr_parsed r)
         <> JObj [("$or",
                   JArr [JObj [("public", JBool true)];
                         JObj [("$and",
                                JArr (authFilter :: [] ++ [JObj []] ++ []))]])].
Proof.
  eexists _, _. split; [vm_compute; reflexivity|].
  split; [vm_compute; reflexivity|].
  intros authFilter. vm_compute. intros H. discriminate H.
Qed.

(** C1 on that request: the [or] of the rule, then the [$and] of what
    [getSearch] returned; the filter function was not called. *)
Lemma C1_final_search_witness :
  exists r s,
    Examples.intercept (JObj [])
      (Examples.crudOptionsWith (Some Examples.authOrAndFilter))
      Interceptor.ReadAll Examples.request None = Ok (Some r) s
    /\ Request.search (Interceptor.cr_parsed r)
       = JObj [("$or", JArr [JObj [("public", JBool true)];
                             JObj [("$and", JArr [JObj []])]])]
    /\ Interceptor.CallFilter ∉ Interceptor.calls s.
Proof.
  destruct (Examples.intercept (JObj [])
              (Examples.crudOptionsWith (Some Examples.authOrAndFilter))
              Interceptor.ReadAll Examples.request None)
    as [[r|] s|e s] eqn:Hrun; try (vm_compute in Hrun; discriminate Hrun).
  exists r, s. split; [reflexivity|].
  destruct (C1_final_search Examples.parserOptions Examples.parseJson
              Examples.noDate id Examples.accept Examples.accept1
              Examples.accept2 Examples.accept2 Examples.accept2
              Examples.accept2 Examples.noQs (JObj [])
              (Examples.crudOptionsWith (Some Examples.authOrAndFilter))
              Interceptor.ReadAll Examples.request r s eq_refl Hrun)
    as (s1 & search & s2 & Hparse & Hsearch & Hfinal & _ & Hcalls).
  split; [|apply Hcalls; reflexivity].
  rewrite Hfinal.
  vm_compute in Hparse. injection Hparse as <-.
  vm_compute in Hsearch. injection Hsearch as <- <-.
  reflexivity.
Defined.

Section SearchParameter.

Context (options : Parser.RequestQueryBuilderOptions).
Context (JSON_parse : string -> option JValue).
Context (isDateString : string -> bool) (dateText : string -> string).
Context (validateCondition :
           Request.QueryFilter -> string -> Request.CustomOperators
           -> Exn + unit).
Context (validateJoin : Request.QueryJoin -> Exn + unit).
Context (validateSort : string -> option string -> Exn + unit).
Context (validateNumeric : JValue -> string -> Exn + unit).
Context (qs_parse : string -> string -> JValue).

Local Abbreviation parseQuery :=
  (Parser.parseQuery options JSON_parse isDateString dateText
                     validateCondition validateJoin validateSort
                     validateNumeric qs_parse).

(** [parseSearchQueryParam] on a value that is there: the parsed object,
    or the exception. *)
Lemma parseSearchQueryParam_present d :
  Util.isNil d = false ->
  Parser.parseSearchQueryParam JSON_parse d
  = match JSON_parse (Js.toStr d) with
    | Some data =>
        if Util.isObject data then inr data else inl Claims.invalidSearch
    | None => inl Claims.invalidSearch
    end.
Proof.
  intros Hd. unfold Parser.parseSearchQueryParam. rewrite Hd.
  destruct (JSON_parse _) as [data|]; [|reflexivity].
  destruct (Util.isObject data); reflexivity.
Qed.


End SearchParameter.


(** Without the search parameter the same filter is parsed. *)
Lemma parseQuery_filter_without_search :
  Request.filter
    (Parser.parsed
       (Claims.final
          (Examples.parseQuery (JObj [("filter", JStr "a||eq||7")]) ∅
                               Parser.create)))
  = [Request.mkFilter "a" "eq" (JNum 7)].
Proof. vm_compute. reflexivity. Qed.

(** * Further properties of the code *)

Lemma append_cons c (a b : string) : String c a +:+ b = String c (a +:+ b).
Proof. reflexivity. Qed.

Lemma append_nil_l (b : string) : "" +:+ b = b.
Proof. reflexivity. Qed.

Lemma append_nil_r (s : string) : s +:+ "" = s.
Proof.
  induction s as [|c s IH]; [reflexivity|]. rewrite append_cons, IH. reflexivity.
Qed.

Lemma append_assoc (a b c : string) : (a +:+ b) +:+ c = a +:+ (b +:+ c).
Proof.
  induction a as [|x a IH]; [reflexivity|].
  rewrite !append_cons, IH. reflexivity.
Qed.

Lemma split_go_nonempty sep skip cur s : Js.split_go sep skip cur s <> [].
Proof.
  revert skip cur. induction s as [|c s IH]; intros skip cur; cbn [Js.split_go].
  - discriminate.
  - destruct skip; [|apply IH].
    destruct (String.prefix sep (String c s)); [discriminate|apply IH].
Qed.

Lemma join_cons sep x l :
  l <> [] -> Js.join sep (x :: l) = x +:+ sep +:+ Js.join sep l.
Proof. destruct l; [congruence|reflexivity]. Qed.

Lemma split_go_dot_step cur c s :
  Js.split_go "." 0 cur (String c s)
  = if Ascii.eqb c "." then cur :: Js.split_go "." 0 "" s
    else Js.split_go "." 0 (cur +:+ String c "") s.
Proof.
  cbn [Js.split_go String.prefix].
  destruct (ascii_dec "." c) as [<-|Hc].
  - destruct s; reflexivity.
  - destruct (Ascii.eqb c ".") eqn:E; [|reflexivity].
    apply Ascii.eqb_eq in E. congruence.
Qed.

(** Joining the segments of a field gives the field back. *)
Lemma join_split_go cur s :
  Js.join "." (Js.split_go "." 0 cur s) = cur +:+ s.
Proof.
  revert cur. induction s as [|c s IH]; intros cur.
  - cbn. rewrite append_nil_r. reflexivity.
  - rewrite split_go_dot_step.
    destruct (Ascii.eqb c ".") eqn:E.
    + apply Ascii.eqb_eq in E. subst c.
      rewrite join_cons by apply split_go_nonempty.
      rewrite IH. reflexivity.
    + rewrite IH, append_assoc. reflexivity.
Qed.

Lemma join_split s : Js.join "." (Js.split "." s) = s.
Proof. apply join_split_go. Qed.

Lemma dotFree_app a b :
  Props.dotFree (a +:+ b) = Props.dotFree a && Props.dotFree b.
Proof.
  unfold Props.dotFree. induction a as [|c a IH]; [reflexivity|].
  rewrite append_cons. cbn. rewrite IH. apply andb_assoc.
Qed.

Lemma split_go_segments cur s :
  Props.dotFree cur = true ->
  Forall (fun x => Props.dotFree x = true) (Js.split_go "." 0 cur s).
Proof.
  revert cur. induction s as [|c s IH]; intros cur Hcur.
  - cbn. repeat constructor. exact Hcur.
  - rewrite split_go_dot_step. destruct (Ascii.eqb c ".") eqn:E.
    + constructor; [exact Hcur|]. apply IH. reflexivity.
    + apply IH. rewrite dotFree_app, Hcur. unfold Props.dotFree. cbn.
      rewrite E. reflexivity.
Qed.

Lemma split_segments s :
  Forall (fun x => Props.dotFree x = true) (Js.split "." s).
Proof. apply split_go_segments. reflexivity. Qed.

Lemma split_go_dotFree cur s :
  Props.dotFree s = true -> Js.split_go "." 0 cur s = [cur +:+ s].
Proof.
  revert cur. induction s as [|c s IH]; intros cur Hs.
  - cbn. rewrite append_nil_r. reflexivity.
  - rewrite split_go_dot_step. unfold Props.dotFree in Hs. cbn in Hs.
    apply andb_true_iff in Hs as [Hc Hs]. apply negb_true_iff in Hc.
    rewrite Hc, IH by exact Hs. rewrite append_assoc. reflexivity.
Qed.

Lemma split_dotFree s : Props.dotFree s = true -> Js.split "." s = [s].
Proof. apply split_go_dotFree. Qed.

Lemma split_go_app cur a rest :
  Props.dotFree a = true ->
  Js.split_go "." 0 cur (a +:+ "." +:+ rest)
  = (cur +:+ a) :: Js.split_go "." 0 "" rest.
Proof.
  revert cur. induction a as [|c a IH]; intros cur Ha.
  - rewrite append_nil_l, append_cons, split_go_dot_step. cbn [Ascii.eqb Bool.eqb].
    rewrite append_nil_r. reflexivity.
  - rewrite append_cons, split_go_dot_step. unfold Props.dotFree in Ha. cbn in Ha.
    apply andb_true_iff in Ha as [Hc Ha]. apply negb_true_iff in Hc.
    rewrite Hc, IH by exact Ha. rewrite append_assoc. reflexivity.
Qed.

(** Splitting the join of segments without a dot gives the segments. *)
Lemma split_join segs :
  segs <> [] -> Forall (fun x => Props.dotFree x = true) segs ->
  Js.split "." (Js.join "." segs) = segs.
Proof.
  induction segs as [|a segs IH]; [congruence|]. intros _ H.
  apply Forall_cons in H as [Ha H].
  destruct segs as [|b segs].
  - cbn [Js.join]. apply split_dotFree, Ha.
  - rewrite join_cons by discriminate. unfold Js.split.
    rewrite split_go_app by exact Ha. rewrite append_nil_l. f_equal.
    apply IH; [discriminate|exact H].
Qed.

(** * Field names *)

Lemma join_app sep l1 l2 :
  l1 <> [] -> l2 <> [] ->
  Js.join sep (l1 ++ l2) = Js.join sep l1 +:+ sep +:+ Js.join sep l2.
Proof.
  intros H1 H2. induction l1 as [|a l1 IH]; [congruence|].
  destruct l1 as [|b l1].
  - cbn [app]. rewrite join_cons by exact H2. reflexivity.
  - change ((a :: b :: l1) ++ l2) with (a :: (b :: l1) ++ l2).
    rewrite join_cons by discriminate. rewrite IH by discriminate.
    rewrite (join_cons sep a (b :: l1)) by discriminate.
    rewrite !append_assoc. reflexivity.
Qed.

Section Fields.

Context (repo : Service.Repository).

Local Abbreviation getFieldWithAlias := (Service.getFieldWithAlias repo).

(** What [onInitMapEntityColumns] leaves in [entityColumnsHash] for a
    key: the database path of the last column with that key. *)
Lemma entityColumnsHash_lookup (l : list Service.ColumnMetadata)
    (h : gmap string string) field d :
  (forall c, c ∈ l -> Props.columnKey c = field ->
             Service.databasePath c = d) ->
  (exists c, c ∈ l /\ Props.columnKey c = field) \/ h !! field = Some d ->
  foldl (fun h prop =>
           if Service.embeddedMetadata prop
           then <[Service.propertyPath prop := Service.databasePath prop]> h
           else <[Service.propertyName prop := Service.databasePath prop]> h)
        h l !! field = Some d.
Proof.
  revert h. induction l as [|c l IH]; intros h Hall Hex.
  - destruct Hex as [(c & Hc & _)|Hh]; [inversion Hc|exact Hh].
  - cbn [foldl]. apply IH.
    + intros c' Hc'. apply Hall. right. exact Hc'.
    + destruct (decide (Props.columnKey c = field)) as [Hk|Hk].
      * right. unfold Props.columnKey in Hk.
        pose proof (Hall c ltac:(left) ltac:(exact Hk)) as Hd.
        destruct (Service.embeddedMetadata c); subst field;
          rewrite lookup_insert_eq; congruence.
      * destruct Hex as [(c' & Hc' & Hk')|Hh].
        -- apply elem_of_cons in Hc' as [->|Hc']; [contradiction|].
           left. exists c'. split; assumption.
        -- right. unfold Props.columnKey in Hk.
           destruct (Service.embeddedMetadata c);
             rewrite lookup_insert_ne by exact Hk; exact Hh.
Qed.

(** X1: a field of one segment that is a column of the entity: quoted alias
    and quoted database path in a condition, alias and property in a sort.
    *)
Theorem getFieldWithAlias_of_a_column c :
  c ∈ Service.columns (Service.metadata repo) ->
  Props.dotFree (Props.columnKey c) = true ->
  (forall c', c' ∈ Service.columns (Service.metadata repo) ->
              Props.columnKey c' = Props.columnKey c ->
              Service.databasePath c' = Service.databasePath c) ->
  let q := Props.identifierQuote repo in
  getFieldWithAlias (Props.columnKey c) false
  = q +:+ Service.alias repo +:+ q +:+ "." +:+ q
    +:+ Service.databasePath c +:+ q
  /\ getFieldWithAlias (Props.columnKey c) true
     = Service.alias repo +:+ "." +:+ Props.columnKey c.
Proof.
  intros Hc Hdot Hsame q. unfold Service.getFieldWithAlias.
  rewrite split_dotFree by exact Hdot. cbn [length].
  split; [|reflexivity].
  unfold Service.entityColumnsHash.
  rewrite (entityColumnsHash_lookup _ _ (Props.columnKey c)
             (Service.databasePath c)).
  - fold q. destruct (String.eqb _ _) eqn:E; [|reflexivity].
    apply String.eqb_eq in E. rewrite E. reflexivity.
  - intros c' Hc' Hk. apply Hsame; assumption.
  - left. exists c. split; [exact Hc|reflexivity].
Qed.

(** X2: a field of two segments or more: the result is the text of the last
    two segments of the field, whatever the entity and the flag. *)
Theorem getFieldWithAlias_of_a_path field sort :
  2 <= length (Js.split "." field) ->
  Js.split "." (getFieldWithAlias field sort)
  = drop (length (Js.split "." field) - 2) (Js.split "." field)
  /\ length (Js.split "." (getFieldWithAlias field sort)) = 2
  /\ exists pre, field = pre +:+ getFieldWithAlias field sort.
Proof.
  intros Hlen.
  assert (Js.split "." (getFieldWithAlias field sort)
          = drop (length (Js.split "." field) - 2) (Js.split "." field)
          /\ exists pre, field = pre +:+ getFieldWithAlias field sort)
    as [Hsplit Hsuffix].
  { unfold Service.getFieldWithAlias.
    pose proof (split_segments field) as Hsegs.
    pose proof (join_split field) as Hjoin.
    destruct (Js.split "." field) as [|a [|b [|c l]]] eqn:E;
      cbn [length] in Hlen |- *; try lia.
    - rewrite E. split; [reflexivity|]. exists "". reflexivity.
    - set (cols := a :: b :: c :: l) in *.
      assert (drop (S (S (S (length l))) - 2) cols <> []) as Hne.
      { intros H. apply (f_equal length) in H. rewrite length_drop in H.
        subst cols. cbn [length] in H. lia. }
      split.
      + apply split_join; [exact Hne|]. apply Forall_drop, Hsegs.
      + exists (Js.join "." (take (S (S (S (length l))) - 2) cols) +:+ ".").
        rewrite append_assoc, <- join_app, take_drop; [congruence| |exact Hne].
        subst cols. replace (S (S (S (length l))) - 2) with (S (length l)) by lia.
        discriminate. }
  split; [exact Hsplit|]. split; [|exact Hsuffix].
  rewrite Hsplit, length_drop. lia.
Qed.

End Fields.

(** X1 on the example service. *)
Lemma getFieldWithAlias_of_a_column_witness :
  Service.getFieldWithAlias Examples.users "status" false = "`User`.`status`"
  /\ Service.getFieldWithAlias Examples.users "status" true = "User.status".
Proof.
  apply (getFieldWithAlias_of_a_column Examples.users
           (Examples.column "status" false)).
  - vm_compute. do 4 apply list_elem_of_further. apply list_elem_of_here.
  - reflexivity.
  - intros c' Hc' Hk. apply list_elem_of_In in Hc'. vm_compute in Hc'.
    decompose [or] Hc'; subst; try discriminate Hk; try reflexivity;
      contradiction.
Defined.

(** X2 on the example service. *)
Lemma getFieldWithAlias_of_a_path_witness :
  Js.split "." (Service.getFieldWithAlias Examples.users "a.company.name" false)
  = ["company"; "name"].
Proof.
  exact (proj1 (getFieldWithAlias_of_a_path Examples.users "a.company.name"
                  false ltac:(vm_compute; lia))).
Defined.

(** * Operators *)

Section Operators.

Context (repo : Service.Repository) (hrtime : nat -> Z * Z).
Context (customOperators : Request.CustomOperators).

Local Abbreviation setSearchCondition :=
  (Service.setSearchCondition repo hrtime customOperators).
Local Abbreviation builderSetWhere := (Service.builderSetWhere repo hrtime).
Local Abbreviation mapOperatorsToQuery := (Service.mapOperatorsToQuery repo).
Local Abbreviation getFieldWithAlias := (Service.getFieldWithAlias repo).

Ltac each_operator H :=
  apply includes_elem_of in H;
  repeat (apply elem_of_cons in H as [H|H]; [rewrite H|]);
  try (apply elem_of_nil in H; destruct H).

(** An operator that is neither built in nor custom. *)
Lemma mapOperatorsToQuery_default field operator v param :
  Service.includes (Service.normalizeOperator operator)
                   Claims.builtinOperators = false ->
  customOperators !! Service.normalizeOperator operator = None ->
  mapOperatorsToQuery (Request.mkFilter field operator v) param
                      customOperators
  = inr (getFieldWithAlias field false +:+ " = :" +:+ param,
         {[ param := v ]}).
Proof.
  intros Hb Hc. unfold Service.mapOperatorsToQuery.
  cbn [Request.operator Request.field Request.value].
  unfold Service.switch. rewrite assoc_none by exact Hb.
  cbn [default]. rewrite Hc. reflexivity.
Qed.

(** X3: an operator that is neither built in nor a custom operator of the
    route is compiled as an equality. *)
Theorem mapOperatorsToQuery_unknown_operator field operator v param :
  Service.includes (Service.normalizeOperator operator)
                   Claims.builtinOperators = false ->
  customOperators !! Service.normalizeOperator operator = None ->
  mapOperatorsToQuery (Request.mkFilter field operator v) param
                      customOperators
  = inr (getFieldWithAlias field false +:+ " = :" +:+ param,
         {[ param := v ]}).
Proof. exact (mapOperatorsToQuery_default field operator v param). Qed.

(** A built-in operator is never looked up among the custom operators:
    a custom operator of the same name is not used. *)
Theorem mapOperatorsToQuery_builtin_first field operator v param :
  Service.includes (Service.normalizeOperator operator)
                   Claims.builtinOperators = true ->
  mapOperatorsToQuery (Request.mkFilter field operator v) param
                      customOperators
  = mapOperatorsToQuery (Request.mkFilter field operator v) param ∅.
Proof.
  intros Hb.
  rewrite (mapOperatorsToQuery_normalized repo customOperators).
  rewrite (mapOperatorsToQuery_normalized repo ∅).
  each_operator Hb; reflexivity.
Qed.

(** X4: the built-in operators of a single value.  A test for null binds
    no parameter and a comparison binds the value as it is; neither fails,
    whatever the value.  An operator of the [LIKE] family binds the
    pattern it makes of the text of the value, a [%] after it, before it
    or around it; it fails, with a [TypeError], exactly when the value has
    no text: an object with a [toString] of its own, or an array that
    holds one. *)
Theorem mapOperatorsToQuery_scalar_operator field operator v param :
  let compiled :=
    mapOperatorsToQuery (Request.mkFilter field operator v) param
                        customOperators in
  (Service.includes (Service.normalizeOperator operator) Props.nullOperators
   = true ->
   exists str, compiled = inr (str, ∅))
  /\ (Service.includes (Service.normalizeOperator operator)
                       Props.comparisonOperators = true ->
      exists str, compiled = inr (str, {[ param := v ]}))
  /\ (forall pattern,
         Props.likePattern (Service.normalizeOperator operator)
         = Some pattern ->
         if Js.convertible v
         then exists str,
             compiled = inr (str, {[ param := JStr (pattern (Js.toStr v)) ]})
         else compiled
              = inl (TypeError "Cannot convert object to primitive value")).
Proof.
  cbv zeta.
  rewrite (mapOperatorsToQuery_normalized repo customOperators).
  split; [|split].
  - intros Hs. each_operator Hs; eexists; reflexivity.
  - intros Hs. each_operator Hs; eexists; reflexivity.
  - intros pattern. unfold Props.likePattern.
    destruct (Service.includes _ ["$starts"; "$startsL"]) eqn:H1;
      [|destruct (Service.includes _ ["$ends"; "$endsL"]) eqn:H2;
        [|destruct (Service.includes _ ["$cont"; "$excl"; "$contL"; "$exclL"])
            eqn:H3; [|discriminate]]];
      intros [= <-].
    + each_operator H1;
        unfold Service.mapOperatorsToQuery, Service.switch, Js.template;
        cbn [Js.assoc String.eqb Ascii.eqb Bool.eqb default from_option id
             Request.operator Request.value Service.normalizeOperator
             String.prefix];
        destruct (Js.convertible v); first [eexists; reflexivity|reflexivity].
    + each_operator H2;
        unfold Service.mapOperatorsToQuery, Service.switch, Js.template;
        cbn [Js.assoc String.eqb Ascii.eqb Bool.eqb default from_option id
             Request.operator Request.value Service.normalizeOperator
             String.prefix];
        destruct (Js.convertible v); first [eexists; reflexivity|reflexivity].
    + each_operator H3;
        unfold Service.mapOperatorsToQuery, Service.switch, Js.template;
        cbn [Js.assoc String.eqb Ascii.eqb Bool.eqb default from_option id
             Request.operator Request.value Service.normalizeOperator
             String.prefix];
        destruct (Js.convertible v); first [eexists; reflexivity|reflexivity].
Qed.

End Operators.

Section Leaves.

Context (repo : Service.Repository) (hrtime : nat -> Z * Z).
Context (customOperators : Request.CustomOperators).

Local Abbreviation setSearchCondition :=
  (Service.setSearchCondition repo hrtime customOperators).
Local Abbreviation builderSetWhere := (Service.builderSetWhere repo hrtime).

(** A leaf [{field: {operator: value}}] whose operator is not [$or] is
    one call of [builderSetWhere]. *)
Lemma setSearchCondition_leaf field operator v b condition :
  operator <> "$or" ->
  setSearchCondition (JObj [(field, JObj [(operator, v)])]) b condition
  = builderSetWhere b condition field v customOperators operator.
Proof.
  intros Hop.
  rewrite setSearchCondition_single_field by reflexivity.
  unfold Service.setSearchField. cbn [Util.isObject negb].
  cbn [Service.setSearchFieldObjectCondition map].
  unfold Service.setSearchFieldObjectCondition_on.
  cbn [map fst length Nat.eqb hd andb].
  apply String.eqb_neq in Hop. rewrite Hop. reflexivity.
Qed.

(** [builderSetWhere] reads the operator up to its [$] prefix. *)
Lemma builderSetWhere_normalized b condition field v operator w :
  builderSetWhere b condition field v customOperators operator w
  = builderSetWhere b condition field v customOperators
                    (Service.normalizeOperator operator) w.
Proof.
  destruct (Util.isNull v) eqn:Hnull.
  - destruct v; try discriminate Hnull.
    rewrite !builderSetWhere_null. reflexivity.
  - assert (v <> JNull) as Hv by (intros ->; discriminate Hnull).
    rewrite !builderSetWhere_not_null by exact Hv.
    rewrite mapOperatorsToQuery_normalized. reflexivity.
Qed.

(** X5: the [$] in front of an operator is optional: a leaf compiles the
    same with and without it. The operator [or] is the exception, since
    [$or] is a combinator. *)
Theorem operator_prefix_is_optional field operator v b condition w :
  String.prefix "$" operator = false ->
  operator <> "or" ->
  setSearchCondition (JObj [(field, JObj [(operator, v)])]) b condition w
  = setSearchCondition (JObj [(field, JObj [("$" +:+ operator, v)])])
                       b condition w.
Proof.
  intros Hprefix Hor.
  rewrite !setSearchCondition_leaf.
  - rewrite builderSetWhere_normalized. unfold Service.normalizeOperator.
    rewrite Hprefix. reflexivity.
  - intros H. apply Hor. injection H as H. exact H.
  - intros ->. discriminate Hprefix.
Qed.

(** X6: a filter that the parser produced compiles, through
    [convertFilterToSearch], as the one condition it stands for: the field,
    the operator and the value go to [builderSetWhere] as they are, the
    value being [true] for the operators [isnull] and [notnull]. *)
Theorem convertFilterToSearch_compiles_as_the_filter filter b condition w :
  Request.operator filter <> "$or" ->
  setSearchCondition (Parser.convertFilterToSearch (Some filter)) b condition w
  = builderSetWhere b condition (Request.field filter)
                    (Props.searchValue filter) customOperators
                    (Request.operator filter) w.
Proof.
  intros Hop. unfold Parser.convertFilterToSearch.
  rewrite setSearchCondition_leaf by exact Hop. reflexivity.
Qed.

End Leaves.

(** * Columns *)

Lemma NoDup_uniqFrom seen l :
  NoDup (Service.uniqFrom seen l)
  /\ forall x, x ∈ Service.uniqFrom seen l -> x ∉ seen.
Proof.
  revert seen. induction l as [|y l IH]; intros seen; cbn [Service.uniqFrom].
  - split; [constructor|]. intros x H. inversion H.
  - destruct (Service.includes y seen) eqn:E; [apply IH|].
    destruct (IH (y :: seen)) as [Hnd Hout].
    assert (y ∉ seen) as Hy.
    { intros H. apply includes_true in H. congruence. }
    split.
    + constructor; [|exact Hnd]. intros H. apply (Hout y H). left.
    + intros x Hx. apply elem_of_cons in Hx as [->|H]; [exact Hy|].
      intros Hs. apply (Hout x H). right. exact Hs.
Qed.

Lemma NoDup_uniq l : NoDup (Service.uniq l).
Proof. apply NoDup_uniqFrom. Qed.

(** The first occurrences are kept in their order: a list without
    repetition is left as it is. *)
Lemma uniqFrom_NoDup seen l :
  NoDup l -> (forall x, x ∈ l -> x ∉ seen) -> Service.uniqFrom seen l = l.
Proof.
  revert seen. induction l as [|y l IH]; intros seen Hnd Hout; [reflexivity|].
  cbn [Service.uniqFrom]. apply NoDup_cons in Hnd as [Hy Hnd].
  destruct (Service.includes y seen) eqn:E.
  - apply includes_true in E. exfalso. apply (Hout y); [left|exact E].
  - f_equal. apply IH; [exact Hnd|].
    intros x Hx Hs. apply elem_of_cons in Hs as [->|Hs]; [contradiction|].
    apply (Hout x); [right; exact Hx|exact Hs].
Qed.

(** X7: [getAllowedColumns]: a column is allowed when it is not excluded
    and, if there is a list of allowed columns, is on it; an empty list
    counts as none. An excluded column is not allowed even when it is on the
    list of allowed columns. *)
Theorem getAllowedColumns_spec columns exclude allow x :
  x ∈ Service.getAllowedColumns columns exclude allow
  <-> x ∈ columns
      /\ (x ∉ default [] exclude)
      /\ (default [] allow = [] \/ x ∈ default [] allow).
Proof.
  assert (Service.getAllowedColumns columns exclude allow
          = List.filter
              (fun column =>
                 negb (Service.includes column (default [] exclude))
                 && match default [] allow with
                    | [] => true
                    | l => Service.includes column l
                    end) columns) as ->.
  { unfold Service.getAllowedColumns.
    destruct exclude as [[|e exclude]|]; destruct allow as [[|a allow]|];
      cbn [Service.full negb andb default from_option id];
      first [ reflexivity
            | symmetry; apply forallb_filter_id, forallb_forall;
              intros ? _; reflexivity
            | apply filter_ext; intros ?; rewrite ?andb_true_r; reflexivity ]. }
  rewrite list_elem_of_In, filter_In, <- list_elem_of_In.
  rewrite andb_true_iff, negb_true_iff, <- not_true_iff_false, includes_true.
  destruct (default [] allow) as [|a l] eqn:E.
  - intuition auto.
  - rewrite includes_true. intuition discriminate.
Qed.

Section Select.

Context (repo : Service.Repository).

Lemma map_prefix_NoDup (p : string) l :
  NoDup l -> NoDup (map (fun col => p +:+ "." +:+ col) l).
Proof.
  intros H.
  assert (Inj (=) (=) (fun col : string => p +:+ "." +:+ col)) as Hinj.
  { intros a b E. apply append_inj_r, append_inj_r in E. exact E. }
  apply (NoDup_fmap_2 _ _ H).
Qed.

(** X8: the select list names no column twice, and names the persisted
    columns first, then the requested or allowed ones, then the primary
    ones, each once, under the alias of the entity. *)
Theorem getSelect_has_no_duplicates query options :
  NoDup (Service.getSelect repo query options)
  /\ Service.getSelect repo query options
     = map (fun col => Service.alias repo +:+ "." +:+ col)
           (Service.uniq (Claims.selected repo query options)).
Proof.
  assert (Service.getSelect repo query options
          = map (fun col => Service.alias repo +:+ "." +:+ col)
                (Service.uniq (Claims.selected repo query options))) as E.
  { unfold Service.getSelect. fold (Claims.selected repo query options).
    unfold Service.uniq at 1. apply uniqFrom_NoDup.
    - apply map_prefix_NoDup, NoDup_uniq.
    - intros x _. apply not_elem_of_nil. }
  split; [|exact E]. rewrite E. apply map_prefix_NoDup, NoDup_uniq.
Qed.

End Select.

(** * Sort fields *)

(** A match somewhere in the text is found. *)
Lemma search_finds r pos pre s :
  Regex.rests r s <> [] ->
  Regex.search r pos (pre ++ s) <> None.
Proof.
  revert pos. induction pre as [|c pre IH]; intros pos Hs.
  - cbn [app]. destruct s as [|c s]; cbn [Regex.search];
      destruct (Regex.rests r _); congruence.
  - cbn [app Regex.search].
    destruct (Regex.rests r (c :: pre ++ s)); [|discriminate].
    apply IH, Hs.
Qed.

Lemma matches_finds r pre s :
  Regex.rests r (String.list_ascii_of_string s) <> [] ->
  Regex.matches r (pre +:+ s) = true.
Proof.
  intros Hs. unfold Regex.matches, Regex.test.
  cbn [Nat.ltb Nat.leb drop].
  assert (String.list_ascii_of_string (pre +:+ s)
          = String.list_ascii_of_string pre ++ String.list_ascii_of_string s)
    as ->.
  { induction pre as [|c pre IH]; [reflexivity|].
    rewrite append_cons. cbn. rewrite IH. reflexivity. }
  pose proof (search_finds r 0 (String.list_ascii_of_string pre) _ Hs) as H.
  destruct (Regex.search _ _ _); [reflexivity|congruence].
Qed.

(** A field with a quote or a hash in it matches the first pattern. *)
Lemma quote_matchesInjection pre c post :
  c = "'"%char \/ c = "#"%char ->
  Props.matchesInjection (pre +:+ String c post) = true.
Proof.
  intros Hc. unfold Props.matchesInjection.
  cbn [Service.sqlInjectionRegEx existsb].
  apply orb_true_iff. left. apply matches_finds.
  destruct Hc as [-> | ->]; cbn; discriminate.
Qed.

Section Sort.

Context (repo : Service.Repository).

Local Abbreviation getFieldWithAlias := (Service.getFieldWithAlias repo).

(** [checkSqlInjection] on a fresh service: the bad request with its
    message when a pattern matches, the field otherwise, the service being
    fresh again. *)
Lemma checkSqlInjection_on_fresh field w :
  Props.fresh w ->
  if Props.matchesInjection field
  then exists w',
         Service.checkSqlInjection field w
         = Throw (Props.injectionDetected field) w'
  else exists w',
         Service.checkSqlInjection field w = Ok field w' /\ Props.fresh w'.
Proof.
  intros Hzero. unfold Service.checkSqlInjection.
  pose proof (checkSqlInjection_loop field
                ("SQL injection detected: " +:+ String "034" field
                 +:+ String "034" "")
                (zip (seq 0 (length Service.sqlInjectionRegEx))
                     Service.sqlInjectionRegEx) w Hzero) as H.
  cbv zeta in H.
  change (map snd (zip (seq 0 (length Service.sqlInjectionRegEx))
                       Service.sqlInjectionRegEx))
    with Service.sqlInjectionRegEx in H.
  fold (Props.matchesInjection field) in H.
  destruct (Props.matchesInjection field).
  - destruct H as [w' H]. exists w'.
    unfold mbind at 1, ST_bind at 1. rewrite H. reflexivity.
  - destruct H as (w' & H & Hz). exists w'.
    unfold mbind at 1, ST_bind at 1. rewrite H. split; [reflexivity|exact Hz].
Qed.

(** The loop of [mapSort], from the parameters gathered so far. *)
Lemma mapSort_from (acc : Service.M (list (string * string))) sort w :
  foldl (fun (acc : Service.M (list (string * string))) s =>
           params ← acc;
           let field := getFieldWithAlias (Request.sortField s) true in
           checkedFiled ← Service.checkSqlInjection field;
           mret (Js.assocSet checkedFiled (Request.order s) params))
        acc sort w
  = match acc w with
    | Ok params w1 =>
        foldl (fun (acc : Service.M (list (string * string))) s =>
                 params ← acc;
                 let field := getFieldWithAlias (Request.sortField s) true in
                 checkedFiled ← Service.checkSqlInjection field;
                 mret (Js.assocSet checkedFiled (Request.order s) params))
              (mret params) sort w1
    | Throw e w1 => Throw e w1
    end.
Proof.
  set (step := fun (acc : Service.M (list (string * string))) s =>
                 params ← acc;
                 let field := getFieldWithAlias (Request.sortField s) true in
                 checkedFiled ← Service.checkSqlInjection field;
                 mret (Js.assocSet checkedFiled (Request.order s) params)).
  revert acc w. induction sort as [|s sort IH]; intros acc w.
  - cbn [foldl]. destruct (acc w); reflexivity.
  - cbn [foldl]. rewrite IH.
    assert (step acc s w
            = match acc w with
              | Ok params w1 => step (mret params) s w1
              | Throw e w1 => Throw e w1
              end) as ->.
    { unfold step, mbind at 1 3, ST_bind at 1 3.
      destruct (acc w); reflexivity. }
    destruct (acc w) as [params w1|e w1]; [|reflexivity].
    rewrite (IH (step (mret params) s) w1). reflexivity.
Qed.

Lemma mapSort_on_fresh sort params w :
  Props.fresh w ->
  let run :=
    foldl (fun (acc : Service.M (list (string * string))) s =>
             params ← acc;
             let field := getFieldWithAlias (Request.sortField s) true in
             checkedFiled ← Service.checkSqlInjection field;
             mret (Js.assocSet checkedFiled (Request.order s) params))
          (mret params) sort w in
  if existsb (fun s => Props.matchesInjection
                         (getFieldWithAlias (Request.sortField s) true)) sort
  then exists field w',
         run = Throw (Props.injectionDetected field) w'
         /\ Props.matchesInjection field = true
         /\ exists s, s ∈ sort
                      /\ field = getFieldWithAlias (Request.sortField s) true
  else exists w',
         run = Ok (foldl (fun params s =>
                            Js.assocSet
                              (getFieldWithAlias (Request.sortField s) true)
                              (Request.order s) params) params sort) w'
         /\ Props.fresh w'.
Proof.
  cbv zeta.
  set (step := fun (acc : Service.M (list (string * string))) s =>
                 params ← acc;
                 let field := getFieldWithAlias (Request.sortField s) true in
                 checkedFiled ← Service.checkSqlInjection field;
                 mret (Js.assocSet checkedFiled (Request.order s) params)).
  revert params w.
  induction sort as [|s sort IH]; intros params w Hfresh.
  - cbn. eexists. split; [reflexivity|exact Hfresh].
  - cbn [foldl existsb]. unfold step at 1. fold step. rewrite mapSort_from.
    fold step.
    assert (step (mret params) s w
            = match Service.checkSqlInjection
                      (getFieldWithAlias (Request.sortField s) true) w with
              | Ok f w1 => Ok (Js.assocSet f (Request.order s) params) w1
              | Throw e w1 => Throw e w1
              end) as ->.
    { unfold step. cbv [mbind ST_bind mret ST_ret].
      destruct (Service.checkSqlInjection _ w); reflexivity. }
    pose proof (checkSqlInjection_on_fresh
                  (getFieldWithAlias (Request.sortField s) true) w Hfresh) as H.
    destruct (Props.matchesInjection _) eqn:E.
    + destruct H as [w' ->]. cbn [orb].
      eexists _, w'. split; [reflexivity|]. split; [exact E|].
      exists s. split; [left|reflexivity].
    + destruct H as (w' & -> & Hfresh'). cbn [orb].
      specialize (IH (Js.assocSet
                        (getFieldWithAlias (Request.sortField s) true)
                        (Request.order s) params) w' Hfresh').
      destruct (existsb _ sort).
      * destruct IH as (field & w'' & Hrun & Hm & s' & Hs' & Hf).
        exists field, w''. split; [exact Hrun|]. split; [exact Hm|].
        exists s'. split; [right; exact Hs'|exact Hf].
      * exact IH.
Qed.

(** X9: on a fresh service [getSort] maps the client's sort, or the route's
    when the client sent none. Every field is tested under its alias: one
    that matches a pattern of [sqlInjectionRegEx] is a bad request; when
    none does the order-by object holds each field under its alias, and the
    service is fresh again. *)
Theorem getSort_checks_every_field query options w :
  Props.fresh w ->
  let sort := Props.effectiveSort query options in
  if existsb (fun s => Props.matchesInjection
                         (getFieldWithAlias (Request.sortField s) true)) sort
  then exists field w',
         Service.getSort repo query options w
         = Throw (Props.injectionDetected field) w'
         /\ Props.matchesInjection field = true
         /\ exists s, s ∈ sort
                      /\ field = getFieldWithAlias (Request.sortField s) true
  else exists w',
         Service.getSort repo query options w = Ok (Props.orderBy repo sort) w'
         /\ Props.fresh w'.
Proof.
  intros Hfresh sort.
  assert (Service.getSort repo query options = Service.mapSort repo sort) as ->.
  { unfold Service.getSort, sort, Props.effectiveSort.
    destruct (Request.sort query); [|reflexivity].
    destruct (Request.q_sort options); reflexivity. }
  apply (mapSort_on_fresh sort [] w Hfresh).
Qed.

(** X10: a sort field with a quote or a hash in the part that is kept is
    rejected. *)
Theorem checkSqlInjection_rejects_a_quote pre c post w :
  Props.fresh w ->
  c = "'"%char \/ c = "#"%char ->
  exists w',
    Service.checkSqlInjection (pre +:+ String c post) w
    = Throw (Props.injectionDetected (pre +:+ String c post)) w'.
Proof.
  intros Hfresh Hc.
  pose proof (checkSqlInjection_on_fresh (pre +:+ String c post) w Hfresh) as H.
  rewrite quote_matchesInjection in H by exact Hc. exact H.
Qed.

End Sort.

(** * What compiling a condition leaves alone *)

Lemma respects_ret {S A} (T : S -> S -> Prop) `{!Reflexive T} (a : A) :
  Props.respects T (mret a : ST S A).
Proof. intros s. reflexivity. Qed.

Lemma respects_throw {S A} (T : S -> S -> Prop) `{!Reflexive T} e :
  Props.respects T (throw e : ST S A).
Proof. intros s. reflexivity. Qed.

Lemma respects_lift {S A} (T : S -> S -> Prop) `{!Reflexive T} (r : Exn + A) :
  Props.respects T (lift r : ST S A).
Proof. intros s. destruct r; reflexivity. Qed.

Lemma respects_gets {S A} (T : S -> S -> Prop) `{!Reflexive T} (f : S -> A) :
  Props.respects T (gets f).
Proof. intros s. reflexivity. Qed.

Lemma respects_bind {S A B} (T : S -> S -> Prop) `{!Transitive T}
    (m : ST S A) (f : A -> ST S B) :
  Props.respects T m -> (forall a, Props.respects T (f a)) ->
  Props.respects T (m ≫= f).
Proof.
  intros Hm Hf s. specialize (Hm s). unfold mbind, ST_bind.
  destruct (m s) as [a s1|e s1]; [|exact Hm].
  etransitivity; [exact Hm|apply Hf].
Qed.

Lemma respects_forEach {S A} (T : S -> S -> Prop) `{!Reflexive T}
    `{!Transitive T} (f : A -> ST S unit) l :
  (forall x, x ∈ l -> Props.respects T (f x)) ->
  Props.respects T (forEach f l).
Proof.
  induction l as [|x l IH]; intros H; cbn [forEach].
  - apply respects_ret; assumption.
  - apply respects_bind; [assumption|apply H; left|].
    intros _. apply IH. intros y Hy. apply H. right. exact Hy.
Qed.

Lemma respects_included {S A} (T T' : S -> S -> Prop) (m : ST S A) :
  (forall s s', T s s' -> T' s s') ->
  Props.respects T m -> Props.respects T' m.
Proof. intros H Hm s. apply H, Hm. Qed.

#[local] Instance addsWheres_refl : Reflexive Props.addsWheres.
Proof. intros m. exists []. destruct m. cbn. rewrite app_nil_r. reflexivity. Qed.

#[local] Instance addsWheres_trans : Transitive Props.addsWheres.
Proof.
  intros m1 m2 m3 [ws ->] [ws' ->]. exists (ws ++ ws').
  destruct m1. cbn. rewrite app_assoc. reflexivity.
Qed.

#[local] Instance evolves_refl R `{!Reflexive R} : Reflexive (Props.evolves R).
Proof. intros w b m H. exists m. split; [exact H|reflexivity]. Qed.

#[local] Instance evolves_trans R `{!Transitive R} :
  Transitive (Props.evolves R).
Proof.
  intros w1 w2 w3 H12 H23 b m H.
  destruct (H12 b m H) as (m2 & H2 & R12).
  destruct (H23 b m2 H2) as (m3 & H3 & R23).
  exists m3. split; [exact H3|]. etransitivity; eassumption.
Qed.

#[local] Instance compiled_refl : Reflexive Props.compiled.
Proof.
  intros w. repeat split; try reflexivity; try lia.
  intros k H. exact H.
Qed.

#[local] Instance compiled_trans : Transitive Props.compiled.
Proof.
  intros w1 w2 w3 (B1 & P1 & H1 & L1 & C1 & T1) (B2 & P2 & H2 & L2 & C2 & T2).
  split; [etransitivity; eassumption|].
  split; [intros k H; apply P2, P1, H|].
  repeat split; try congruence. lia.
Qed.

(** Changing one builder by a related one relates the worlds. *)
Lemma evolves_alter R `{!Reflexive R} f b w :
  (forall m, R m (f m)) ->
  Props.evolves R w (Service.set_builders (alter f b (Service.builders w)) w).
Proof.
  intros Hf b' m H. cbn [Service.builders Service.set_builders].
  destruct (decide (b = b')) as [->|Hb].
  - exists (f m). split; [|apply Hf].
    rewrite list_lookup_alter, H. rewrite decide_True by reflexivity.
    reflexivity.
  - exists m. split; [|reflexivity].
    rewrite list_lookup_alter_ne by exact Hb. exact H.
Qed.

Lemma pushWhere_compiled b c : Props.respects Props.compiled (Service.pushWhere b c).
Proof.
  intros w. unfold Service.pushWhere, Service.updateBuilder, modify.
  cbn [Claims.final].
  split; [|repeat split; try reflexivity; try (intros k H; exact H); cbn; lia].
  apply evolves_alter; [apply _|]. intros m. exists [c]. reflexivity.
Qed.

Lemma setParameters_compiled ps :
  Props.respects Props.compiled (Service.setParameters ps).
Proof.
  intros w. unfold Service.setParameters, modify. cbn [Claims.final].
  split; [intros b m H; exists m; split; [exact H|reflexivity]|]. split; [|repeat split; try reflexivity; cbn; lia].
  intros k H. cbn. apply lookup_union_is_Some. right. exact H.
Qed.

Lemma createQueryBuilder_compiled b :
  Props.respects Props.compiled (Service.createQueryBuilder b).
Proof.
  intros w. unfold Service.createQueryBuilder. cbn [Claims.final].
  split; [|repeat split; try reflexivity; try (intros k H; exact H); cbn; lia].
  intros b' m H. exists m. split; [|reflexivity]. cbn.
  apply lookup_app_l_Some, H.
Qed.

Section Frame.

Context (repo : Service.Repository) (hrtime : nat -> Z * Z).
Context (customOperators : Request.CustomOperators).

Local Abbreviation setSearchCondition :=
  (Service.setSearchCondition repo hrtime customOperators).
Local Abbreviation builderSetWhere := (Service.builderSetWhere repo hrtime).
Local Abbreviation builderAddBrackets := Service.builderAddBrackets.
Local Abbreviation setSearchFieldObjectCondition :=
  (Service.setSearchFieldObjectCondition repo hrtime customOperators).

Ltac steps :=
  repeat first
    [ apply respects_bind; [apply _| |intros ?]
    | apply respects_ret; apply _
    | apply respects_lift; apply _
    | apply respects_throw; apply _
    | apply respects_gets; apply _
    | apply pushWhere_compiled
    | apply setParameters_compiled
    | apply createQueryBuilder_compiled ].

Lemma builderSetWhere_compiled b condition field v operator :
  Props.respects Props.compiled
    (builderSetWhere b condition field v customOperators operator).
Proof.
  unfold Service.builderSetWhere.
  apply respects_bind; [apply _| |intros time].
  - intros w. unfold Service.process_hrtime. cbn [Claims.final].
    split; [intros b' m H; exists m; split; [exact H|reflexivity]|].
    repeat split; try reflexivity; try (intros k H; exact H); cbn; lia.
  - destruct (Service.isAnd condition);
      unfold Service.setAndWhere, Service.setOrWhere;
      (apply respects_bind; [apply _|apply respects_lift; apply _|]);
      intros [str params]; unfold Service.andWhere, Service.orWhere; steps.
Qed.

Lemma builderAddBrackets_compiled b condition brackets negated :
  (forall qb, Props.respects Props.compiled (brackets qb)) ->
  Props.respects Props.compiled
    (builderAddBrackets b condition brackets negated).
Proof.
  intros H. unfold Service.builderAddBrackets.
  destruct negated; [steps; apply H|].
  destruct (Service.isAnd condition);
    unfold Service.andWhereBrackets, Service.orWhereBrackets,
      Service.runBrackets;
    steps; apply H.
Qed.

Lemma setSearchFieldObjectCondition_on_compiled operators b condition field :
  (forall o, o ∈ operators ->
             forall b condition field,
               Props.respects Props.compiled (snd o b condition field)) ->
  Props.respects Props.compiled
    (Service.setSearchFieldObjectCondition_on repo hrtime customOperators
       operators b condition field).
Proof.
  intros H. unfold Service.setSearchFieldObjectCondition_on.
  destruct (_ && _).
  - destruct operators as [|[[operator value] self] operators]; [steps|].
    apply builderSetWhere_compiled.
  - apply builderAddBrackets_compiled. intros qb.
    apply respects_forEach; try apply _.
    intros [[operator value] self] Ho.
    destruct (negb _); [apply builderSetWhere_compiled|].
    destruct (Util.objKeys value); [|steps].
    destruct (_ =? _); [apply (H _ Ho)|].
    apply builderAddBrackets_compiled. intros qb2. apply (H _ Ho).
Qed.

Lemma list_sum_elem {A} (f : A -> nat) x l :
  x ∈ l -> f x <= list_sum (map f l).
Proof.
  induction 1 as [x l|x y l H IH]; cbn [map];
    change (list_sum (?a :: ?r)) with (a + list_sum r); lia.
Qed.

Lemma jsize_item v items : v ∈ items -> Props.jsize v < Props.jsize (JArr items).
Proof.
  intros H. cbn [Props.jsize].
  pose proof (list_sum_elem Props.jsize v items H). lia.
Qed.

Lemma jsize_field k v kvs :
  (k, v) ∈ kvs -> Props.jsize v < Props.jsize (JObj kvs).
Proof.
  intros H. cbn [Props.jsize].
  pose proof (list_sum_elem (fun '(_, v) => Props.jsize v) (k, v) kvs H) as Hle.
  cbn beta iota in Hle. lia.
Qed.

Lemma setSearchFieldObjectCondition_compiled object :
  forall b condition field,
    Props.respects Props.compiled
      (setSearchFieldObjectCondition object b condition field).
Proof.
  remember (Props.jsize object) as n eqn:Hn.
  revert object Hn. induction n as [n IH] using lt_wf_ind.
  intros object -> b condition field.
  destruct object as [| | | | | |items|kvs];
    cbn [Service.setSearchFieldObjectCondition]; try (apply respects_ret; apply _).
  - apply setSearchFieldObjectCondition_on_compiled.
    intros o Ho. inversion Ho.
  - apply setSearchFieldObjectCondition_on_compiled.
    intros [o self] Ho. apply elem_of_zip_r in Ho.
    apply list_elem_of_fmap in Ho as (v & -> & Hv).
    intros b' condition' field'. cbn [snd].
    apply (IH (Props.jsize v)); [apply jsize_item, Hv|reflexivity].
  - apply setSearchFieldObjectCondition_on_compiled.
    intros o Ho. apply list_elem_of_fmap in Ho as ([k v] & -> & Hkv).
    intros b' condition' field'. cbn [snd].
    apply (IH (Props.jsize v)); [apply (jsize_field k), Hkv|reflexivity].
Qed.

Lemma setSearchField_compiled b condition field v :
  Props.respects Props.compiled
    (Service.setSearchField repo hrtime customOperators b condition field v).
Proof.
  unfold Service.setSearchField.
  destruct (negb _);
    [apply builderSetWhere_compiled|apply setSearchFieldObjectCondition_compiled].
Qed.

Lemma setSearchCondition_on_compiled search itemsOf b condition :
  (forall k item, item ∈ itemsOf k ->
                  forall b condition,
                    Props.respects Props.compiled (item b condition)) ->
  Props.respects Props.compiled
    (Service.setSearchCondition_on repo hrtime customOperators search itemsOf
       b condition).
Proof.
  intros H. unfold Service.setSearchCondition_on.
  assert (forall k b condition,
             Props.respects Props.compiled
               (hd (fun _ _ => mret tt) (itemsOf k) b condition)) as Hfirst.
  { intros k b' condition'. specialize (H k).
    destruct (itemsOf k) as [|item l]; cbn [hd]; [steps|].
    apply H. left. }
  assert (forall k key qb,
             Props.respects Props.compiled
               (forEach (fun item : Service.Compiled => item qb key)
                        (itemsOf k))) as Hall.
  { intros k key qb. apply respects_forEach; try apply _.
    intros item Hitem. apply (H k item Hitem). }
  repeat match goal with
         | |- Props.respects _ (if ?c then _ else _) => destruct c
         end;
    try (apply respects_ret; apply _);
    try apply Hfirst;
    try (apply builderAddBrackets_compiled; intros qb; apply Hall).
  - apply builderAddBrackets_compiled. intros qb.
    apply respects_forEach; try apply _. intros [field value] _.
    repeat match goal with
           | |- Props.respects _ (if ?c then _ else _) => destruct c
           end;
      [apply setSearchField_compiled|apply Hfirst|].
    apply builderAddBrackets_compiled. intros qb2. apply Hall.
  - destruct (Js.entries search) as [|[field value] l]; [steps|].
    apply setSearchField_compiled.
  - apply builderAddBrackets_compiled. intros qb.
    apply respects_forEach; try apply _. intros [field value] _.
    apply setSearchField_compiled.
Qed.

Lemma elem_of_itemsWith {C} (f : JValue -> C) k kvs x :
  x ∈ Service.itemsWith f k kvs ->
  exists k' items item,
    (k', JArr items) ∈ kvs /\ item ∈ items /\ x = f item.
Proof.
  induction kvs as [|[k' v] kvs IH]; cbn [Service.itemsWith]; intros H.
  - inversion H.
  - destruct (String.eqb k k').
    + destruct v as [| | | | | |items|]; try (inversion H; fail).
      apply list_elem_of_fmap in H as (item & -> & Hitem).
      exists k', items, item. split; [left|]. split; [exact Hitem|reflexivity].
    + destruct (IH H) as (k'' & items & item & Hin & Hitem & ->).
      exists k'', items, item. split; [right; exact Hin|].
      split; [exact Hitem|reflexivity].
Qed.

(** Compiling a search only adds where-clauses. *)
Lemma setSearchCondition_compiled search b condition w :
  Props.compiled w (Claims.final (setSearchCondition search b condition w)).
Proof.
  revert b condition w.
  remember (Props.jsize search) as n eqn:Hn.
  revert search Hn. induction n as [n IH] using lt_wf_ind.
  intros search -> b condition.
  change (Props.respects Props.compiled (setSearchCondition search b condition)).
  destruct search as [| | | | | |items|kvs];
    cbn [Service.setSearchCondition]; try (apply respects_ret; apply _).
  - apply setSearchCondition_on_compiled. intros k item H. inversion H.
  - apply setSearchCondition_on_compiled. intros k x H.
    apply elem_of_itemsWith in H as (k' & items & item & Hin & Hitem & ->).
    intros b' condition' w'.
    apply (IH (Props.jsize item)); [|reflexivity].
    pose proof (jsize_field _ _ _ Hin). pose proof (jsize_item _ _ Hitem). lia.
Qed.

(** X11: compiling a search condition, whether it returns or throws, only
    adds where-clauses at the end of the builders there are: the select
    list, the joins, the order, the limit and offset, the cache and the
    deleted-rows flag of every builder stay as they are; it writes nothing
    to the console, leaves the relation cache and the regular expressions
    alone, and unbinds no parameter. *)
Theorem setSearchCondition_only_adds_wheres search b condition w :
  Props.compiled w (Claims.final (setSearchCondition search b condition w)).
Proof. exact (setSearchCondition_compiled search b condition w). Qed.

End Frame.

(** * Joins *)

#[local] Instance addsJoins_refl : Reflexive Props.addsJoins.
Proof.
  intros m. exists [], []. destruct m. cbn. rewrite !app_nil_r. reflexivity.
Qed.

#[local] Instance addsJoins_trans : Transitive Props.addsJoins.
Proof.
  intros m1 m2 m3 (js & ss & ->) (js' & ss' & ->).
  exists (js ++ js'), (ss ++ ss').
  destruct m1. cbn. rewrite !app_assoc. reflexivity.
Qed.

#[local] Instance keepsParameters_refl : Reflexive Props.keepsParameters.
Proof. intros w k H. exact H. Qed.

#[local] Instance keepsParameters_trans : Transitive Props.keepsParameters.
Proof. intros w1 w2 w3 H12 H23 k H. apply H23, H12, H. Qed.

#[local] Instance joined_refl : Reflexive Props.joined.
Proof. intros w. repeat split; reflexivity. Qed.

#[local] Instance joined_trans : Transitive Props.joined.
Proof.
  intros w1 w2 w3 (B1 & P1 & L1 & T1 & C1) (B2 & P2 & L2 & T2 & C2).
  split; [etransitivity; eassumption|].
  split; [etransitivity; eassumption|].
  repeat split; try congruence. etransitivity; eassumption.
Qed.

Lemma evolves_same R `{!Reflexive R} w w' :
  Service.builders w' = Service.builders w -> Props.evolves R w w'.
Proof. intros E b m H. exists m. rewrite E. split; [exact H|reflexivity]. Qed.

Lemma joined_same w w' :
  Service.builders w' = Service.builders w ->
  (forall k, is_Some (Service.parameters w !! k) ->
             is_Some (Service.parameters w' !! k)) ->
  Service.lastIndex w' = Service.lastIndex w ->
  Service.ticks w' = Service.ticks w ->
  Service.console w `prefix_of` Service.console w' ->
  Props.joined w w'.
Proof.
  intros B P L T C. split; [apply evolves_same; [apply _|exact B]|].
  repeat split; assumption.
Qed.

Section JoinFrame.

Context (repo : Service.Repository).

Local Abbreviation getRelationMetadata := (Service.getRelationMetadata repo).
Local Abbreviation setJoin := (Service.setJoin repo).

(** [getRelationMetadata] writes to the relation cache only. *)
Lemma getRelationMetadata_world field options w :
  exists h,
    Claims.final (getRelationMetadata field options w)
    = Service.set_entityRelationsHash h w.
Proof.
  unfold Service.getRelationMetadata.
  unfold mbind at 1, ST_bind at 1, gets at 1.
  match goal with
  | |- context [match ?x with Some _ => _ | None => mret None end] =>
      destruct x
  end.
  - cbv [mbind ST_bind modify mret ST_ret].
    destruct (Service.present _); cbn; eexists; reflexivity.
  - exists (Service.entityRelationsHash w). destruct w. reflexivity.
Qed.

Lemma getRelationMetadata_joined field options :
  Props.respects Props.joined (getRelationMetadata field options).
Proof.
  intros w. destruct (getRelationMetadata_world field options w) as [h ->].
  apply joined_same; try reflexivity. intros k H. exact H.
Qed.

Lemma updateBuilder_joins b j :
  Props.respects Props.joined
    (Service.updateBuilder b
       (fun m => Orm.set_joins (Orm.joins m ++ [j]) m)).
Proof.
  intros w. unfold Service.updateBuilder, modify. cbn [Claims.final].
  split; [|repeat split; try reflexivity; intros k H; exact H].
  apply evolves_alter; [apply _|]. intros m. exists [j], [].
  destruct m. cbn. rewrite app_nil_r. reflexivity.
Qed.

Lemma addSelect_joined b select :
  Props.respects Props.joined (Service.addSelect b select).
Proof.
  intros w. unfold Service.addSelect, Service.updateBuilder, modify.
  cbn [Claims.final].
  split; [|repeat split; try reflexivity; intros k H; exact H].
  apply evolves_alter; [apply _|]. intros m. exists [], select.
  destruct m. cbn. rewrite app_nil_r. reflexivity.
Qed.

Lemma setParameters_joined ps :
  Props.respects Props.joined (Service.setParameters ps).
Proof.
  intros w. unfold Service.setParameters, modify. cbn [Claims.final].
  apply joined_same; try reflexivity.
  intros k H. cbn. apply lookup_union_is_Some. right. exact H.
Qed.

Lemma console_warn_joined msg :
  Props.respects Props.joined (Service.console_warn msg).
Proof.
  intros w. unfold Service.console_warn, modify. cbn [Claims.final].
  apply joined_same; try reflexivity; [intros k H; exact H|].
  cbn. apply prefix_app_r. reflexivity.
Qed.

Ltac jsteps :=
  repeat first
    [ apply respects_bind; [apply _| |intros ?]
    | apply respects_ret; apply _
    | apply respects_lift; apply _
    | apply respects_gets; apply _
    | apply updateBuilder_joins
    | apply addSelect_joined
    | apply setParameters_joined
    | apply console_warn_joined
    | apply getRelationMetadata_joined ].

Lemma setJoin_joined cond joinOptions b :
  Props.respects Props.joined (setJoin cond joinOptions b).
Proof.
  unfold Service.setJoin.
  destruct (Service.joinOption _ _) as [options|]; [|jsteps].
  apply respects_bind; [apply _|apply getRelationMetadata_joined|].
  intros [allowedRelation|]; [|jsteps].
  apply respects_bind; [apply _| |intros _].
  - destruct (Request.on cond); unfold Service.addJoin; jsteps;
      try (destruct (Service.convertArrayToQuery _); jsteps);
      destruct (Service.ar_path allowedRelation); jsteps;
      apply respects_throw; apply _.
  - destruct (negb _); jsteps.
Qed.

(** Setting the joins only adds joins and selected columns. *)
Lemma setJoins_joined parsed joinOptions b w :
  Props.joined w
    (Claims.final (Service.setJoins repo parsed joinOptions b w)).
Proof.
  revert w. change (Props.respects Props.joined
                      (Service.setJoins repo parsed joinOptions b)).
  unfold Service.setJoins.
  destruct (Util.hasLength _); [|jsteps].
  apply respects_bind; [apply _| |intros eagerJoins].
  - match goal with
    | |- Props.respects _ (foldl ?step _ ?l) =>
        assert (forall l (acc : Service.M (list string)),
                   Props.respects Props.joined acc ->
                   Props.respects Props.joined (foldl step acc l)) as Hfold
    end.
    { intros l. induction l as [|[allowedJoin option] l IH]; intros acc Hacc;
        cbn [foldl]; [exact Hacc|].
      apply IH.
      apply respects_bind; [apply _|exact Hacc|]. intros eagerJoins.
      destruct (Request.eager option); jsteps. apply setJoin_joined. }
    apply Hfold. jsteps.
  - apply respects_forEach; try apply _. intros j _.
    destruct (negb _); [apply setJoin_joined|jsteps].
Qed.

(** X12: setting the joins of a request, whether it returns or throws, only
    adds joins and selected columns at the end of the builders there are:
    the where-clauses, the order, the limit and offset, the cache and the
    deleted-rows flag stay as they are, no parameter is unbound, and the
    console only grows. *)
Theorem setJoins_only_adds_joins parsed joinOptions b w :
  Props.joined w
    (Claims.final (Service.setJoins repo parsed joinOptions b w)).
Proof. exact (setJoins_joined parsed joinOptions b w). Qed.

End JoinFrame.

Section Relations.

Context (repo : Service.Repository).

Local Abbreviation getRelationMetadata := (Service.getRelationMetadata repo).
Local Abbreviation setJoin := (Service.setJoin repo).

(** X13: a relation of the entity itself, not resolved before: its name is
    the field, its path the field under the alias of the entity, its columns
    those of the related entity, of which the allowed ones are kept; it is
    saved in the cache under the field and under its alias. *)
Theorem getRelationMetadata_of_a_relation field options found related w :
  Service.entityRelationsHash w !! field = None ->
  Props.dotFree field = true ->
  Service.findRelation field (Service.relations (Service.metadata repo))
  = Some found ->
  Service.inverseEntityMetadata repo found = Some related ->
  getRelationMetadata field options w
  = Ok (Some (Props.relationOf repo field options related))
       (Service.set_entityRelationsHash
          (Props.cached field options
             (Props.relationOf repo field options related)
             (Service.entityRelationsHash w)) w).
Proof.
  intros Hhash Hdot Hfound Hrelated. unfold Service.getRelationMetadata.
  unfold mbind at 1, ST_bind at 1, gets at 1.
  rewrite Hhash, split_dotFree by exact Hdot.
  cbn [length Nat.eqb hd]. rewrite Hfound, Hrelated.
  cbn [Service.present negb andb String.eqb].
  unfold Service.getEntityColumns.
  cbv [mbind ST_bind modify mret ST_ret].
  cbn [Service.ar_alias Service.ar_nested Service.ar_name Service.ar_path
       Service.ar_columns Service.ar_primaryColumns].
  rewrite andb_false_r.
  unfold Props.cached, Props.relationOf.
  destruct (Service.present (Request.alias options)); reflexivity.
Qed.

(** A relation that was resolved is served from the cache: asking again
    with the same option gives the same relation and changes nothing. *)
Theorem getRelationMetadata_again field options relation w w' :
  getRelationMetadata field options w = Ok (Some relation) w' ->
  getRelationMetadata field options w' = Ok (Some relation) w'.
Proof.
  unfold Service.getRelationMetadata.
  unfold mbind at 1, ST_bind at 1, gets at 1.
  match goal with
  | |- context [match ?x with Some _ => _ | None => mret None end] =>
      destruct x as [a|]
  end; [|intros H; discriminate H].
  set (toSave := Service.mkAllowedRelation _ _ _ _ _ _ _).
  intros H.
  assert (w' = Service.set_entityRelationsHash
                 (Props.cached field options toSave
                    (Service.entityRelationsHash w)) w
          /\ relation = toSave) as [-> ->].
  { revert H. cbv [mbind ST_bind modify mret ST_ret]. unfold Props.cached.
    destruct (Service.present (Request.alias options));
      cbn; intros [= <- <-]; split; reflexivity. }
  clear H.
  assert (Props.cached field options toSave (Service.entityRelationsHash w)
          !! field = Some toSave) as Hfield.
  { unfold Props.cached. destruct (Service.present _).
    - destruct (decide (default "" (Request.alias options) = field)) as [->|Hn].
      + apply lookup_insert_eq.
      + rewrite lookup_insert_ne by exact Hn. apply lookup_insert_eq.
    - apply lookup_insert_eq. }
  unfold mbind at 1, ST_bind at 1, gets at 1.
  cbn [Service.entityRelationsHash Service.set_entityRelationsHash].
  rewrite Hfield.
  cbv [mbind ST_bind modify mret ST_ret].
  cbn [Service.entityRelationsHash Service.set_entityRelationsHash
       Service.builders Service.parameters Service.lastIndex Service.ticks
       Service.console].
  subst toSave.
  cbn [Service.ar_alias Service.ar_nested Service.ar_name Service.ar_path
       Service.ar_columns Service.ar_primaryColumns].
  set (toSave := Service.mkAllowedRelation _ _ _ _ _ _ _) in *.
  rewrite (insert_id _ field toSave) by exact Hfield.
  unfold Props.cached in *.
  destruct (Service.present (Request.alias options)); [|reflexivity].
  rewrite (insert_id _ (default "" (Request.alias options)) toSave)
    by apply lookup_insert_eq.
  reflexivity.
Qed.

End Relations.

Section JoinOfARelation.

Context (repo : Service.Repository).

Local Abbreviation getRelationMetadata := (Service.getRelationMetadata repo).
Local Abbreviation setJoin := (Service.setJoin repo).

(** X14: the join of a relation that resolves, for a field that is
    declared or reads as declared: one join is added to the builder, an
    inner join when the option says [required] and a left join otherwise,
    on the path of the relation and under its alias, with the condition of
    [on] if any, whose parameters are bound; nothing is written to the
    console.  When the relation has a path, the columns selected of the
    relation are then added to the select list, unless the option says
    [select: false].  When it has none, as a nested relation has whose
    parent was not joined before, the builder throws a [TypeError] on the
    join it was given, and no column is selected. *)
Theorem setJoin_adds_the_join cond joinOptions options relation condition
    b m w w1 :
  Service.joinOption (Request.joinField cond) joinOptions = Some options ->
  getRelationMetadata (Request.joinField cond) options w
  = Ok (Some relation) w1 ->
  Props.joinCondition repo (Request.on cond) = inr condition ->
  Service.builders w !! b = Some m ->
  let joined :=
    Orm.set_joins
      (Orm.joins m
       ++ [Orm.mkJoin
             (if Request.required options then Orm.innerJoin
              else Orm.leftJoin)
             (Service.ar_path relation)
             (Props.joinAlias options relation)
             (fst <$> condition)]) m in
  exists w',
    Service.parameters w'
    = match condition with
      | Some (_, params) => params ∪ Service.parameters w
      | None => Service.parameters w
      end
    /\ Service.console w' = Service.console w
    /\ match Service.ar_path relation with
       | Some _ =>
           setJoin cond joinOptions b w = Ok tt w'
           /\ Service.builders w' !! b
              = Some (Orm.set_selects
                        (Orm.selects m
                         ++ Props.joinSelect cond options relation) joined)
       | None =>
           setJoin cond joinOptions b w
           = Throw (TypeError
                      "Cannot read properties of undefined (reading 'substr')")
                   w'
           /\ Service.builders w' !! b = Some joined
       end.
Proof.
  intros Hoptions Hrelation Hcondition Hb. cbv zeta.
  change Service.Ref with nat in *.
  destruct (getRelationMetadata_world repo (Request.joinField cond) options w)
    as [h Hw1].
  rewrite Hrelation in Hw1. cbn [Claims.final] in Hw1. subst w1.
  unfold Service.setJoin. rewrite Hoptions.
  erewrite bind_Ok_eq by exact Hrelation.
  fold (Props.joinAlias options relation).
  set (type := if Request.required options then Orm.innerJoin
               else Orm.leftJoin).
  set (w1 := Service.set_entityRelationsHash h w).
  set (failure := TypeError
                    "Cannot read properties of undefined (reading 'substr')").
  (* the join *)
  assert (exists w2,
             (match Request.on cond with
              | Some on =>
                  conds ← lift (Service.mapi_go
                                  (fun condition i =>
                                     Service.mapOperatorsToQuery repo condition
                                       ("andCondition" +:+ pretty i) ∅) 0 on);
                  Service.addJoin b type (Service.ar_path relation)
                    (Props.joinAlias options relation)
                    (Some (Service.convertArrayToQuery conds))
              | None =>
                  Service.addJoin b type (Service.ar_path relation)
                    (Props.joinAlias options relation) None
              end) w1
             = match Service.ar_path relation with
               | Some _ => Ok tt w2
               | None => Throw failure w2
               end
             /\ Service.builders w2
                = alter (fun m =>
                           Orm.set_joins
                             (Orm.joins m
                              ++ [Orm.mkJoin type (Service.ar_path relation)
                                    (Props.joinAlias options relation)
                                    (fst <$> condition)]) m)
                        b (Service.builders w)
             /\ Service.parameters w2
                = match condition with
                  | Some (_, params) => params ∪ Service.parameters w
                  | None => Service.parameters w
                  end
             /\ Service.console w2 = Service.console w) as (w2 & Hjoin & B2 & P2 & C2).
  { unfold Props.joinCondition in Hcondition.
    destruct (Request.on cond) as [on|].
    - destruct (Service.mapi_go _ 0 on) as [e|conds];
        [discriminate Hcondition|].
      injection Hcondition as <-.
      destruct (Service.ar_path relation);
        (eexists; split; [reflexivity|repeat split; reflexivity]).
    - injection Hcondition as <-.
      destruct (Service.ar_path relation);
        (eexists; split; [reflexivity|repeat split; reflexivity]). }
  destruct (Service.ar_path relation) as [path|] eqn:Hpath.
  - erewrite bind_Ok_eq by exact Hjoin.
    unfold Props.joinSelect.
    destruct (bool_decide (Request.selectOpt options = Some false));
      cbn [negb].
    + exists w2. split; [exact P2|]. split; [exact C2|].
      split; [reflexivity|].
      rewrite B2, list_lookup_alter, Hb.
      rewrite decide_True by reflexivity.
      cbn [fmap option_fmap option_map]. rewrite app_nil_r.
      destruct m. reflexivity.
    + eexists. split; [|split; [|split; [reflexivity|]]].
      * exact P2.
      * exact C2.
      * cbn [Service.builders Service.set_builders].
        rewrite B2, !list_lookup_alter, Hb.
        rewrite !decide_True by reflexivity. reflexivity.
  - exists w2. split; [exact P2|]. split; [exact C2|]. split.
    + erewrite bind_Throw_eq by exact Hjoin. reflexivity.
    + rewrite B2, list_lookup_alter, Hb.
      rewrite decide_True by reflexivity. reflexivity.
Qed.

End JoinOfARelation.

(** * The builder of a request *)

#[local] Instance keepsSettings_refl : Reflexive Props.keepsSettings.
Proof. intros m. repeat split; reflexivity. Qed.

#[local] Instance keepsSettings_trans : Transitive Props.keepsSettings.
Proof.
  intros m1 m2 m3 (D1 & C1 & O1 & T1 & S1 & P1) (D2 & C2 & O2 & T2 & S2 & P2).
  repeat split; try congruence. etransitivity; eassumption.
Qed.

Lemma addsWheres_keepsSettings m m' :
  Props.addsWheres m m' -> Props.keepsSettings m m'.
Proof. intros [ws ->]. repeat split; reflexivity. Qed.

Lemma addsJoins_keepsSettings m m' :
  Props.addsJoins m m' -> Props.keepsSettings m m'.
Proof.
  intros (js & ss & ->). repeat split; try reflexivity.
  cbn. apply prefix_app_r. reflexivity.
Qed.

Lemma evolves_included (R R' : Orm.ExpressionMap -> Orm.ExpressionMap -> Prop)
    w w' :
  (forall m m', R m m' -> R' m m') ->
  Props.evolves R w w' -> Props.evolves R' w w'.
Proof.
  intros HR H b m Hb. destruct (H b m Hb) as (m' & Hb' & Hm).
  exists m'. split; [exact Hb'|apply HR, Hm].
Qed.

Lemma updateBuilder_at (b : nat) f w w' m (u : unit) :
  Service.updateBuilder b f w = Ok u w' ->
  Service.builders w !! b = Some m ->
  Service.builders w' !! b = Some (f m).
Proof.
  change Service.Ref with nat in *.
  unfold Service.updateBuilder, modify. intros [= _ <-] Hb. cbn.
  rewrite list_lookup_alter, Hb. rewrite decide_True by reflexivity.
  reflexivity.
Qed.

Section Builder.

Context (repo : Service.Repository) (hrtime : nat -> Z * Z).

(** Mapping a sort leaves the builders alone. *)
Lemma getSort_builders query options w :
  Service.builders (Claims.final (Service.getSort repo query options w))
  = Service.builders w.
Proof.
  assert (forall field,
             Props.respects (fun w w' => Service.builders w' = Service.builders w)
               (Service.checkSqlInjection field)) as Hcheck.
  { intros field. unfold Service.checkSqlInjection.
    assert (Reflexive (fun w w' : Service.World =>
                         Service.builders w' = Service.builders w))
      by (intros ?; reflexivity).
    assert (Transitive (fun w w' : Service.World =>
                          Service.builders w' = Service.builders w))
      by (intros ? ? ? H1 H2; congruence).
    apply respects_bind; [assumption| |intros _; apply respects_ret; assumption].
    apply respects_forEach; try assumption. intros [i r] _.
    apply respects_bind; [assumption| |].
    - intros w0. unfold Service.regexTest.
      destruct (Regex.test _ _ _). reflexivity.
    - intros [|]; [apply respects_throw|apply respects_ret]; assumption. }
  assert (forall sort,
             Props.respects (fun w w' => Service.builders w' = Service.builders w)
               (Service.mapSort repo sort)) as Hmap.
  { intros sort. unfold Service.mapSort.
    assert (Reflexive (fun w w' : Service.World =>
                         Service.builders w' = Service.builders w)) as Hr
      by (intros ?; reflexivity).
    assert (Transitive (fun w w' : Service.World =>
                          Service.builders w' = Service.builders w)) as Ht
      by (intros ? ? ? H1 H2; congruence).
    match goal with
    | |- Props.respects _ (foldl ?step _ _) =>
        assert (forall l (acc : Service.M (list (string * string))),
                   Props.respects
                     (fun w w' => Service.builders w' = Service.builders w) acc ->
                   Props.respects
                     (fun w w' => Service.builders w' = Service.builders w)
                     (foldl step acc l)) as Hfold
    end.
    { intros l. induction l as [|s l IH]; intros acc Hacc; cbn [foldl];
        [exact Hacc|].
      apply IH. apply respects_bind; [exact Ht|exact Hacc|]. intros params.
      apply respects_bind; [exact Ht|apply Hcheck|]. intros f.
      apply respects_ret. exact Hr. }
    apply Hfold. apply respects_ret. exact Hr. }
  unfold Service.getSort.
  destruct (Util.hasLength _); [apply Hmap|].
  destruct (Util.hasLength _); [apply Hmap|reflexivity].
Qed.

(** The settings of the builder [createBuilder] returns. *)
Lemma createBuilder_built parsed options many withDeleted w b w' :
  Service.createBuilder repo hrtime parsed options many withDeleted w
  = Ok b w' ->
  let query := Request.o_query options in
  let m := Service.expressionMap b w' in
  b = length (Service.builders w)
  /\ (exists joinedColumns,
         Orm.selects m = Service.getSelect repo parsed query ++ joinedColumns)
  /\ Orm.withDeleted m
     = Service.entityHasDeleteColumn repo && Request.q_softDelete query
       && (match Request.includeDeleted parsed with
           | JNum 1 => true
           | _ => false
           end || withDeleted)
  /\ Orm.cache m
     = (if Js.truthy (Request.q_cache query)
           && negb match Request.cache parsed with
                   | JNum 0 => true
                   | _ => false
                   end
        then Some (Request.q_cache query) else None)
  /\ Orm.take m
     = (if many then CrudService.getTake parsed query else None)
  /\ Orm.skip m
     = (if many
        then CrudService.getSkip parsed (CrudService.getTake parsed query)
        else None).
Proof.
  intros H query m. subst m. unfold Service.createBuilder in H.
  fold query in H.
  apply bind_Ok in H as (b0 & w0 & Hcreate & H).
  unfold Service.repo_createQueryBuilder in Hcreate.
  injection Hcreate as <- <-.
  set (b0 := length (Service.builders w)) in *.
  set (w0 := Service.set_builders _ w) in H.
  assert (Service.builders w0 !! b0 = Some Orm.emptyExpressionMap) as Hb0.
  { subst w0 b0. cbn. apply list_lookup_middle. reflexivity. }
  apply bind_Ok in H as ([] & w1 & Hselect & H).
  pose proof (updateBuilder_at _ _ _ _ _ _ Hselect Hb0) as Hb1.
  apply bind_Ok in H as ([] & w2 & Hdeleted & H).
  set (deleted := Service.entityHasDeleteColumn repo
                  && Request.q_softDelete query
                  && (match Request.includeDeleted parsed with
                      | JNum 1 => true
                      | _ => false
                      end || withDeleted)).
  assert (exists m2,
             Service.builders w2 !! b0 = Some m2
             /\ Orm.selects m2 = Service.getSelect repo parsed query
             /\ Orm.withDeleted m2 = deleted
             /\ Orm.cache m2 = None /\ Orm.take m2 = None
             /\ Orm.skip m2 = None) as (m2 & Hb2 & S2 & D2 & C2 & T2 & K2).
  { subst deleted. revert Hdeleted.
    destruct (Service.entityHasDeleteColumn repo && Request.q_softDelete query);
      cbn [andb].
    - destruct (_ || withDeleted).
      + intros Hd. pose proof (updateBuilder_at _ _ _ _ _ _ Hd Hb1) as Hb2.
        eexists. split; [exact Hb2|]. repeat split; reflexivity.
      + intros [= <-]. eexists. split; [exact Hb1|]. repeat split; reflexivity.
    - intros [= <-]. eexists. split; [exact Hb1|]. repeat split; reflexivity. }
  apply bind_Ok in H as ([] & w3 & Hsearch & H).
  pose proof (setSearchCondition_compiled repo hrtime
                (default ∅ (Request.o_customOperators options))
                (Request.search parsed) b0 Service.KAnd w2) as Hcompiled.
  rewrite Hsearch in Hcompiled. cbn [Claims.final] in Hcompiled.
  destruct Hcompiled as [Hcompiled _].
  apply (evolves_included _ Props.keepsSettings) in Hcompiled;
    [|apply addsWheres_keepsSettings].
  apply bind_Ok in H as ([] & w4 & Hjoins & H).
  pose proof (setJoins_joined repo parsed
                (default [] (Request.q_join query)) b0 w3) as Hjoined.
  rewrite Hjoins in Hjoined. cbn [Claims.final] in Hjoined.
  destruct Hjoined as [Hjoined _].
  apply (evolves_included _ Props.keepsSettings) in Hjoined;
    [|apply addsJoins_keepsSettings].
  destruct (Hcompiled _ _ Hb2) as (m3 & Hb3 & K3).
  destruct (Hjoined _ _ Hb3) as (m4 & Hb4 & K4).
  assert (Props.keepsSettings m2 m4) as (D4 & C4 & _ & T4 & S4 & P4)
    by (etransitivity; eassumption).
  clear K3 K4 Hcompiled Hjoined Hb3 m3.
  apply bind_Ok in H as ([] & w5 & Hmany & H).
  assert (exists m5,
             Service.builders w5 !! b0 = Some m5
             /\ Orm.selects m5 = Orm.selects m4
             /\ Orm.withDeleted m5 = Orm.withDeleted m4
             /\ Orm.cache m5 = Orm.cache m4
             /\ Orm.take m5
                = (if many then CrudService.getTake parsed query else None)
             /\ Orm.skip m5
                = (if many
                   then CrudService.getSkip parsed
                          (CrudService.getTake parsed query)
                   else None)) as (m5 & Hb5 & S5 & D5 & C5 & T5 & K5).
  { destruct many.
    - apply bind_Ok in Hmany as (sort & w4' & Hsort & Hmany).
      pose proof (getSort_builders parsed query w4) as Hsame.
      rewrite Hsort in Hsame. cbn [Claims.final] in Hsame.
      rewrite <- Hsame in Hb4.
      apply bind_Ok in Hmany as ([] & w4a & Horder & Hmany).
      pose proof (updateBuilder_at _ _ _ _ _ _ Horder Hb4) as Hba.
      apply bind_Ok in Hmany as ([] & w4b & Htake & Hskip).
      pose proof (updateBuilder_at _ _ _ _ _ _ Htake Hba) as Hbb.
      pose proof (updateBuilder_at _ _ _ _ _ _ Hskip Hbb) as Hbc.
      eexists. split; [exact Hbc|]. repeat split; reflexivity.
    - injection Hmany as <-. exists m4. split; [exact Hb4|].
      repeat split; try reflexivity; congruence. }
  apply bind_Ok in H as ([] & w6 & Hcache & H).
  injection H as <- <-.
  assert (exists m6,
             Service.builders w6 !! b0 = Some m6
             /\ Orm.selects m6 = Orm.selects m5
             /\ Orm.withDeleted m6 = Orm.withDeleted m5
             /\ Orm.take m6 = Orm.take m5
             /\ Orm.skip m6 = Orm.skip m5
             /\ Orm.cache m6
                = (if Js.truthy (Request.q_cache query)
                      && negb match Request.cache parsed with
                              | JNum 0 => true
                              | _ => false
                              end
                   then Some (Request.q_cache query) else None))
    as (m6 & Hb6 & S6 & D6 & T6 & K6 & C6).
  { revert Hcache. destruct (Js.truthy (Request.q_cache query) && _).
    - intros Hc. pose proof (updateBuilder_at _ _ _ _ _ _ Hc Hb5) as Hb6.
      eexists. split; [exact Hb6|]. repeat split; reflexivity.
    - intros [= <-]. exists m5. split; [exact Hb5|].
      repeat split; try reflexivity; congruence. }
  unfold Service.expressionMap. change Service.Ref with nat.
  rewrite Hb6. cbn [from_option id].
  split; [reflexivity|].
  split.
  { destruct P4 as [more P4]. exists more. rewrite S6, S5, P4, S2.
    reflexivity. }
  repeat split; congruence.
Qed.

(** X15: the builder [createBuilder] returns is a new one. Its select list
    starts with the columns of [getSelect]. It reads the deleted rows only
    when the entity has a delete-date column, the route enables soft
    deletion, and the client asks with [includeDeleted=1] or the caller with
    [withDeleted]. It caches only when the route has a cache and the client
    did not send [cache=0]. Its limit and offset are those of [getTake] and
    [getSkip] for a list, and none otherwise. Neither the search condition
    nor the joins change any of these. *)
Theorem createBuilder_settings parsed options many withDeleted w b w' :
  Service.createBuilder repo hrtime parsed options many withDeleted w
  = Ok b w' ->
  let query := Request.o_query options in
  let m := Service.expressionMap b w' in
  b = length (Service.builders w)
  /\ (exists joinedColumns,
         Orm.selects m = Service.getSelect repo parsed query ++ joinedColumns)
  /\ Orm.withDeleted m
     = Service.entityHasDeleteColumn repo && Request.q_softDelete query
       && (match Request.includeDeleted parsed with
           | JNum 1 => true
           | _ => false
           end || withDeleted)
  /\ Orm.cache m
     = (if Js.truthy (Request.q_cache query)
           && negb match Request.cache parsed with
                   | JNum 0 => true
                   | _ => false
                   end
        then Some (Request.q_cache query) else None)
  /\ Orm.take m
     = (if many then CrudService.getTake parsed query else None)
  /\ Orm.skip m
     = (if many
        then CrudService.getSkip parsed (CrudService.getTake parsed query)
        else None).
Proof. exact (createBuilder_built parsed options many withDeleted w b w'). Qed.

End Builder.

(** * The result paginator *)

Section Pagination.

Context (repo : Service.Repository) (hrtime : nat -> Z * Z).
Context (rowsMatching : Orm.ExpressionMap -> gmap string JValue -> list JValue).

(** C8: when pagination is active, [getMany], once its builder is built,
    returns the paged envelope.  The rows are those of the query of the
    builder, whose limit and offset are those of [getTake] and [getSkip]:
    [count] is the number of rows returned and [total] the number of rows
    matching, whatever the limit and the offset.  The effective limit is
    the limit of the builder, and the total when it has none:
    [pageCount] is [ceil(total / limit)] and [page] is the page of the
    offset, which is the page asked for when the request has a page and a
    limit. *)
Theorem C8_paged_envelope parsed options w b w1 :
  CrudService.decidePagination parsed options = true ->
  Service.createBuilder repo hrtime parsed options true false w = Ok b w1 ->
  let take := CrudService.getTake parsed (Request.o_query options) in
  let skip := CrudService.getSkip parsed take in
  let rows :=
    rowsMatching (Service.expressionMap b w1) (Service.parameters w1) in
  let limit := Service.numberOr take (Z.of_nat (length rows)) in
  exists r,
    Service.getMany repo hrtime rowsMatching parsed options w
    = Ok (Service.Paged r) w1
    /\ CrudService.data r = Service.pageOf take skip rows
    /\ CrudService.count r = Z.of_nat (length (CrudService.data r))
    /\ CrudService.total r = Z.of_nat (length rows)
    /\ (limit <> 0%Z ->
        CrudService.pageCount r
        = CrudService.ceilDiv (CrudService.total r) limit
        /\ CrudService.page r = (Service.numberOr skip 0 / limit + 1)%Z)
    /\ ((0 < limit)%Z ->
        ((CrudService.pageCount r - 1) * limit < CrudService.total r
         <= CrudService.pageCount r * limit)%Z)
    /\ (forall t p,
           take = Some t -> t <> 0%Z ->
           CrudService.asNumber (Request.page parsed) = Some p ->
           p <> 0%Z ->
           CrudService.page r = p).
Proof.
  intros Hpaged Hbuilt. cbv zeta.
  pose proof (createBuilder_built repo hrtime _ _ _ _ _ _ _ Hbuilt)
    as (_ & _ & _ & _ & Htake & Hskip).
  unfold Service.getMany. rewrite (bind_Ok_eq _ _ _ _ _ Hbuilt).
  unfold Service.doGetMany. rewrite Hpaged.
  unfold mbind, ST_bind, Service.builder_getManyAndCount, gets.
  cbn [mret ST_ret]. rewrite Htake, Hskip.
  set (take := CrudService.getTake parsed (Request.o_query options)).
  set (skip := CrudService.getSkip parsed take).
  set (rows := rowsMatching _ _).
  eexists. split; [reflexivity|].
  cbn [CrudService.data CrudService.count CrudService.total
       CrudService.page CrudService.pageCount CrudService.createPageInfo].
  split; [reflexivity|]. split; [reflexivity|]. split; [reflexivity|].
  split; [intros _; split; reflexivity|].
  split; [intros Hlimit; apply ceilDiv_spec; exact Hlimit|].
  intros t p Ht Hnz Hp Hpnz. subst skip. rewrite Ht.
  unfold CrudService.getSkip. rewrite Hp.
  destruct (p =? 0)%Z eqn:Ep; [apply Z.eqb_eq in Ep; contradiction|].
  destruct (t =? 0)%Z eqn:Et; [apply Z.eqb_eq in Et; contradiction|].
  cbn [negb andb]. unfold Service.numberOr at 2. rewrite Et.
  unfold Service.numberOr.
  destruct (t * (p - 1) =? 0)%Z eqn:E.
  - apply Z.eqb_eq in E. rewrite Z.div_0_l by exact Hnz. nia.
  - rewrite Z.mul_comm, Z.div_mul by exact Hnz. lia.
Qed.

End Pagination.

(** C8 on the scenario of the spec: with [limit=10], [page=2] and 25
    matching rows, the envelope reports 10 rows of 25, page 2 of 3. *)
Lemma C8_paged_envelope_witness :
  exists r,
    Service.getMany Examples.users Examples.clock Examples.rows25
      Examples.page2 Examples.noOptions Examples.fresh
    = Ok (Service.Paged r) Examples.page2Built
    /\ CrudService.count r = 10%Z
    /\ CrudService.total r = 25%Z
    /\ CrudService.page r = 2%Z
    /\ CrudService.pageCount r = 3%Z.
Proof.
  assert (Service.createBuilder Examples.users Examples.clock Examples.page2
            Examples.noOptions true false Examples.fresh
          = Ok 1 Examples.page2Built) as Hbuilt by (vm_compute; reflexivity).
  destruct (C8_paged_envelope Examples.users Examples.clock Examples.rows25
              Examples.page2 Examples.noOptions Examples.fresh 1
              Examples.page2Built eq_refl Hbuilt)
    as (r & Hrun & Hdata & Hcount & Htotal & Hpages & _ & Hpage).
  exists r. split; [exact Hrun|].
  destruct Hpages as [Hpages _]; [discriminate|].
  rewrite Hpages, Hcount, Htotal, Hdata.
  split; [reflexivity|]. split; [reflexivity|].
  split; [|reflexivity].
  apply (Hpage 10%Z 2%Z); [reflexivity|discriminate|reflexivity|discriminate].
Defined.

(** The rows of that page. *)
Lemma getMany_page_2_of_25 :
  exists r w,
    Service.getMany Examples.users Examples.clock Examples.rows25
      Examples.page2 Examples.noOptions Examples.fresh
    = Ok (Service.Paged r) w
    /\ CrudService.count r = 10%Z
    /\ CrudService.total r = 25%Z
    /\ CrudService.page r = 2%Z
    /\ CrudService.pageCount r = 3%Z
    /\ CrudService.data r
       = map (fun i => JObj [("id", JNum (Z.of_nat i))]) (seq 11 10).
Proof. eexists _, _. repeat split; vm_compute; reflexivity. Qed.

(** Pagination is active without a limit when the route always paginates:
    the effective limit is the total, and the one page holds every row. *)
Lemma getMany_always_paginated :
  exists r w,
    Service.getMany Examples.users Examples.clock Examples.rows25
      Examples.nothingParsed
      (Request.mkRequestOptions
         (Request.mkQueryOptions None None None Request.FilterAbsent None []
                                 JUndefined JUndefined JUndefined true false)
         None)
      Examples.fresh
    = Ok (Service.Paged r) w
    /\ CrudService.count r = 25%Z
    /\ CrudService.total r = 25%Z
    /\ CrudService.page r = 1%Z
    /\ CrudService.pageCount r = 1%Z.
Proof. eexists _, _. repeat split; vm_compute; reflexivity. Qed.

(** * The parser *)

(** Assigning a property and reading one. *)
Lemma assoc_None_iff {A} k (l : list (string * A)) :
  Js.assoc k l = None <-> k ∉ map fst l.
Proof.
  induction l as [|[k0 v0] l IH]; cbn.
  - split; [intros _; apply not_elem_of_nil|reflexivity].
  - rewrite not_elem_of_cons. destruct (String.eqb k k0) eqn:E.
    + apply String.eqb_eq in E. split; [discriminate|intros [? _]; done].
    + apply String.eqb_neq in E. rewrite IH. tauto.
Qed.

Lemma assoc_app {A} k (l1 l2 : list (string * A)) :
  Js.assoc k (l1 ++ l2)
  = match Js.assoc k l1 with
    | Some v => Some v
    | None => Js.assoc k l2
    end.
Proof.
  induction l1 as [|[k0 v0] l1 IH]; cbn; [reflexivity|].
  destruct (String.eqb k k0); [reflexivity|exact IH].
Qed.

Lemma assoc_assocReplace {A} k k' (v : A) l :
  Js.assoc k' l <> None ->
  Js.assoc k (Js.assocReplace k' v l)
  = if String.eqb k k' then Some v else Js.assoc k l.
Proof.
  induction l as [|[k0 v0] l IH]; cbn; [congruence|].
  destruct (String.eqb k' k0) eqn:E0; cbn.
  - intros _. apply String.eqb_eq in E0. subst k0.
    destruct (String.eqb k k'); reflexivity.
  - intros H. rewrite (IH H). destruct (String.eqb k k0) eqn:E1;
      [|reflexivity].
    apply String.eqb_eq in E1. subst k0.
    rewrite String.eqb_sym, E0. reflexivity.
Qed.

Lemma assoc_assocInsert {A} n k k' (v : A) l :
  Js.assoc k' l = None ->
  Js.assoc k (Js.assocInsert n k' v l)
  = if String.eqb k k' then Some v else Js.assoc k l.
Proof.
  induction l as [|[k0 v0] l IH]; cbn [Js.assocInsert Js.assoc]; [reflexivity|].
  destruct (String.eqb k' k0) eqn:E0; [discriminate|]. intros H.
  destruct (Js.arrayIndex k0) as [n'|]; [destruct (n' <? n)%Z|];
    cbn [Js.assoc]; try reflexivity.
  rewrite (IH H). destruct (String.eqb k k0) eqn:E1; [|reflexivity].
  apply String.eqb_eq in E1. subst k0.
  rewrite String.eqb_sym, E0. reflexivity.
Qed.

Lemma assoc_assocSet {A} k k' (v : A) l :
  Js.assoc k (Js.assocSet k' v l)
  = if String.eqb k k' then Some v else Js.assoc k l.
Proof.
  unfold Js.assocSet. destruct (Js.assoc k' l) as [v'|] eqn:Hk'.
  - apply assoc_assocReplace. congruence.
  - destruct (Js.arrayIndex k') as [n|].
    + apply assoc_assocInsert, Hk'.
    + rewrite assoc_app. cbn [Js.assoc].
      destruct (String.eqb k k') eqn:E.
      * apply String.eqb_eq in E. subst k'. rewrite Hk'. reflexivity.
      * destruct (Js.assoc k l); reflexivity.
Qed.

Lemma assocReplace_keys {A} k (v : A) l :
  map fst (Js.assocReplace k v l) = map fst l.
Proof.
  induction l as [|[k0 v0] l IH]; cbn; [reflexivity|].
  destruct (String.eqb k k0) eqn:E; cbn.
  - apply String.eqb_eq in E. subst k0. reflexivity.
  - rewrite IH. reflexivity.
Qed.

Lemma assocInsert_keys {A} n k (v : A) l :
  map fst (Js.assocInsert n k v l) ≡ₚ k :: map fst l.
Proof.
  induction l as [|[k0 v0] l IH]; cbn [Js.assocInsert map fst];
    [reflexivity|].
  destruct (Js.arrayIndex k0) as [n'|]; [destruct (n' <? n)%Z|];
    cbn [map fst]; try reflexivity.
  rewrite IH. apply Permutation_swap.
Qed.

(** Assigning a property keeps the keys of an object distinct. *)
Lemma assocSet_NoDup {A} k (v : A) l :
  NoDup (map fst l) -> NoDup (map fst (Js.assocSet k v l)).
Proof.
  intros Hl. unfold Js.assocSet. destruct (Js.assoc k l) as [v'|] eqn:Hk.
  - rewrite assocReplace_keys. exact Hl.
  - apply assoc_None_iff in Hk. destruct (Js.arrayIndex k) as [n|].
    + rewrite assocInsert_keys. apply NoDup_cons. done.
    + rewrite map_app. cbn [map fst].
      rewrite Permutation_app_comm. apply NoDup_cons. done.
Qed.

Lemma assocSet_not_nil {A} k (v : A) l : Js.assocSet k v l <> [].
Proof.
  intros H. pose proof (assoc_assocSet k k v l) as Hk.
  rewrite H, String.eqb_refl in Hk. discriminate Hk.
Qed.

Lemma assocSet_nil {A} k (v : A) : Js.assocSet k v [] = [(k, v)].
Proof.
  unfold Js.assocSet. cbn [Js.assoc].
  destruct (Js.arrayIndex k); reflexivity.
Qed.

Lemma assocSet_head {A} k (v v' : A) l :
  Js.assocSet k v ((k, v') :: l) = (k, v) :: l.
Proof.
  unfold Js.assocSet. cbn [Js.assoc Js.assocReplace].
  rewrite String.eqb_refl. reflexivity.
Qed.

Lemma assocReplace_twice {A} k (v1 v2 : A) l :
  Js.assocReplace k v2 (Js.assocReplace k v1 l) = Js.assocReplace k v2 l.
Proof.
  induction l as [|[k' v'] l IH]; cbn [Js.assocReplace]; [reflexivity|].
  destruct (String.eqb k k') eqn:E; cbn [Js.assocReplace].
  - rewrite String.eqb_refl. reflexivity.
  - rewrite E, IH. reflexivity.
Qed.

Lemma assocReplace_assocInsert {A} n k (v1 v2 : A) l :
  Js.assoc k l = None ->
  Js.assocReplace k v2 (Js.assocInsert n k v1 l) = Js.assocInsert n k v2 l.
Proof.
  induction l as [|[k' v'] l IH]; cbn [Js.assocInsert Js.assoc].
  - intros _. cbn. rewrite String.eqb_refl. reflexivity.
  - destruct (String.eqb k k') eqn:E; [discriminate|]. intros H.
    destruct (Js.arrayIndex k') as [n'|]; [destruct (n' <? n)%Z|];
      cbn [Js.assocReplace]; rewrite ?String.eqb_refl, ?E; try reflexivity.
    rewrite (IH H). reflexivity.
Qed.

Lemma assocReplace_app {A} k (v1 v2 : A) l :
  Js.assoc k l = None ->
  Js.assocReplace k v2 (l ++ [(k, v1)]) = l ++ [(k, v2)].
Proof.
  induction l as [|[k' v'] l IH]; cbn [Js.assocReplace Js.assoc app].
  - intros _. rewrite String.eqb_refl. reflexivity.
  - destruct (String.eqb k k') eqn:E; [discriminate|]. intros H.
    rewrite (IH H). reflexivity.
Qed.

Lemma assocSet_twice {A} k (v1 v2 : A) l :
  Js.assocSet k v2 (Js.assocSet k v1 l) = Js.assocSet k v2 l.
Proof.
  unfold Js.assocSet at 1.
  rewrite assoc_assocSet, String.eqb_refl.
  unfold Js.assocSet. destruct (Js.assoc k l) as [v'|] eqn:Hk.
  - apply assocReplace_twice.
  - destruct (Js.arrayIndex k) as [n|].
    + apply assocReplace_assocInsert, Hk.
    + apply assocReplace_app, Hk.
Qed.

Lemma filter_noHoles l :
  forallb (fun x => negb (Util.isUndefined x)) l = true ->
  List.filter (fun v => negb (Util.isUndefined v)) l = l.
Proof. apply forallb_filter_id. Qed.

Lemma filter_replicate_undefined n :
  List.filter (fun v => negb (Util.isUndefined v)) (replicate n JUndefined) = [].
Proof. induction n as [|n IH]; [reflexivity|exact IH]. Qed.

(** The index of an indexed key is a natural number. *)
Lemma span_Forall (p : ascii -> bool) l :
  Forall (fun c => p c = true) (fst (Parser.span p l)).
Proof.
  induction l as [|c l IH]; cbn; [constructor|].
  destruct (p c) eqn:Hc; [|constructor].
  destruct (Parser.span p l) as [a r]. cbn in *. constructor; assumption.
Qed.

Lemma digitsValue_nonneg ds :
  Forall (fun c => Parser.isDigit c = true) ds -> (0 <= Js.digitsValue ds)%Z.
Proof.
  unfold Js.digitsValue.
  assert (forall acc, (0 <= acc)%Z ->
            Forall (fun c => Parser.isDigit c = true) ds ->
            (0 <= foldl (fun n c =>
                           (10 * n + (Z.of_nat (Ascii.nat_of_ascii c) - 48))%Z)
                        acc ds)%Z) as H.
  { induction ds as [|c ds IH]; intros acc Hacc Hds; [exact Hacc|].
    apply Forall_cons in Hds as [Hc Hds]. cbn [foldl]. apply IH; [|exact Hds].
    unfold Parser.isDigit in Hc. apply andb_true_iff in Hc as [Hlo _].
    apply Nat.leb_le in Hlo. lia. }
  apply H. lia.
Qed.

Lemma matchIndexed_nonneg key base i :
  Parser.matchIndexed key = Some (base, i) -> (0 <= i)%Z.
Proof.
  unfold Parser.matchIndexed.
  destruct (Parser.span _ (String.list_ascii_of_string key)) as [b rest].
  destruct b as [|b0 b]; [discriminate|].
  destruct rest as [|open rest']; [discriminate|].
  pose proof (span_Forall Parser.isDigit rest') as Hdigits.
  destruct (Parser.span Parser.isDigit rest') as [digits close].
  cbn [fst] in Hdigits.
  destruct digits as [|d digits]; [discriminate|].
  destruct close as [|c [|c' close]]; try discriminate.
  destruct (_ && _); [|discriminate].
  intros [= _ <-]. apply digitsValue_nonneg, Hdigits.
Qed.

(** X16: the values of two indexed keys of the same base are gathered in
    the order of their indices, not of their arrival, and the holes
    between them are dropped.  A number from 2^32 - 1 on is no index of an
    array: the value of such a key is dropped. *)
Theorem normalizeIndexedParams_by_index k1 k2 base i j v1 v2 :
  Parser.matchIndexed k1 = Some (base, i) ->
  Parser.matchIndexed k2 = Some (base, j) ->
  base <> "__proto__" ->
  (i < j)%Z ->
  Util.isUndefined v1 = false -> Util.isUndefined v2 = false ->
  let gathered :=
    JObj [(base,
           JArr (if (j <? 2 ^ 32 - 1)%Z then [v1; v2]
                 else if (i <? 2 ^ 32 - 1)%Z then [v1] else []))] in
  Parser.normalizeIndexedParams (JObj [(k1, v1); (k2, v2)]) = gathered
  /\ Parser.normalizeIndexedParams (JObj [(k2, v2); (k1, v1)]) = gathered.
Proof.
  intros H1 H2 Hbase Hij Hv1 Hv2. cbv zeta.
  pose proof (matchIndexed_nonneg _ _ _ H1) as Hi.
  apply String.eqb_neq in Hbase.
  unfold Parser.normalizeIndexedParams.
  cbn [Js.entries foldl]. rewrite H1, H2, Hbase.
  cbn [Js.assoc]. rewrite !assocSet_nil. cbn [Js.assoc].
  rewrite String.eqb_refl, !assocSet_head. cbn [map].
  assert (forall n v,
             Parser.setIndex [] n v
             = if (n <? 2 ^ 32 - 1)%Z
               then replicate (Z.to_nat n) JUndefined ++ [v] else [])
    as Hnil.
  { intros n v. unfold Parser.setIndex. cbn [length app].
    assert ((Z.to_nat n <? 0) = false) as -> by (apply Nat.ltb_ge; lia).
    rewrite Nat.sub_0_r. reflexivity. }
  rewrite !Hnil.
  destruct (j <? 2 ^ 32 - 1)%Z eqn:Hj.
  - pose proof Hj as Hj'. apply Z.ltb_lt in Hj'.
    destruct (i <? 2 ^ 32 - 1)%Z eqn:Hi'; [|apply Z.ltb_ge in Hi'; lia].
    unfold Parser.setIndex. rewrite Hi', Hj.
    rewrite !length_app, !length_replicate. cbn [length].
    assert ((Z.to_nat i <? Z.to_nat j + 1) = true) as ->
        by (apply Nat.ltb_lt; lia).
    assert ((Z.to_nat j <? Z.to_nat i + 1) = false) as ->
        by (apply Nat.ltb_ge; lia).
    split; do 3 f_equal.
    + rewrite !List.filter_app, !filter_replicate_undefined.
      cbn [List.filter]. rewrite Hv1, Hv2. reflexivity.
    + replace (Z.to_nat j)
        with (Z.to_nat i + S (Z.to_nat j - Z.to_nat i - 1)) at 1 by lia.
      rewrite replicate_add, <- app_assoc.
      rewrite insert_app_r_alt by (rewrite length_replicate; lia).
      rewrite length_replicate, Nat.sub_diag. cbn [replicate app].
      change (<[0:=v1]> (JUndefined :: ?l)) with (v1 :: l).
      rewrite !List.filter_app, !filter_replicate_undefined.
      cbn [List.filter].
      rewrite List.filter_app, filter_replicate_undefined.
      cbn [List.filter]. rewrite Hv1, Hv2. reflexivity.
  - unfold Parser.setIndex. rewrite Hj.
    destruct (i <? 2 ^ 32 - 1)%Z eqn:Hi'.
    + cbn [length].
      assert ((Z.to_nat i <? 0) = false) as -> by (apply Nat.ltb_ge; lia).
      split; do 3 f_equal;
        rewrite ?Nat.sub_0_r, ?app_nil_l, !List.filter_app,
          !filter_replicate_undefined; cbn [List.filter app];
        rewrite Hv1; reflexivity.
    + split; reflexivity.
Qed.

Section Values.

Context (options : Parser.RequestQueryBuilderOptions).
Context (JSON_parse : string -> option JValue).
Context (isDateString : string -> bool) (dateText : string -> string).
Context (validateCondition :
           Request.QueryFilter -> string -> Request.CustomOperators
           -> Exn + unit).

Local Abbreviation parseValue :=
  (Parser.parseValue JSON_parse isDateString dateText).
Local Abbreviation conditionParser :=
  (Parser.conditionParser options JSON_parse isDateString dateText
                          validateCondition).

(** [parseValue] makes no array and no object of a value that is none:
    what [JSON.parse] reads as one is left as the text it was. *)
Lemma parseValue_scalar val :
  Props.scalar val = true -> Props.scalar (parseValue val) = true.
Proof.
  intros Hval. unfold Parser.parseValue.
  destruct (JSON_parse _) as [parsed|].
  - destruct (negb (Util.isDate parsed) && Util.isObject parsed) eqn:E;
      [exact Hval|].
    destruct parsed; try reflexivity; try discriminate E.
    destruct val; try exact Hval; try reflexivity.
    destruct (String.eqb _ _); reflexivity.
  - destruct (isDateString _); [reflexivity|exact Hval].
Qed.

(** X17: the value of a condition read from the query string is a scalar or
    an array of scalars, never an object: a client cannot pass an operator
    object or a nested condition as the value of a filter. *)
Theorem conditionParser_value_is_flat cond customOperators data filter :
  conditionParser cond customOperators data = inr filter ->
  Props.flat (Request.value filter) = true.
Proof.
  unfold Parser.conditionParser. destruct (_ && _); [discriminate|].
  destruct (validateCondition _ _ _); [discriminate|].
  cbn. intros [= <-]. cbn [Request.value].
  destruct (from_option _ false _).
  - destruct (Js.split (Parser.delimStr options) _) as [|x l] eqn:E;
      [exfalso; exact (split_go_nonempty _ _ _ _ E)|].
    cbn [map Parser.parseValues Props.flat]. rewrite forallb_forall.
    intros v Hv. change (In v (map parseValue (map JStr (x :: l)))) in Hv.
    apply in_map_iff in Hv as (y & <- & Hy).
    apply in_map_iff in Hy as (z & <- & Hz).
    apply parseValue_scalar. reflexivity.
  - cbn [Parser.parseValues].
    pose proof (parseValue_scalar (JStr match Js.split (Parser.delim options) data !! 2 with
                                   | Some v => if String.eqb v "" then "" else v
                                   | None => ""
                                   end) eq_refl) as H.
    destruct (parseValue _); try reflexivity; discriminate H.
Qed.

End Values.

Lemma mapE_inr {A B} (f : A -> Exn + B) l ys :
  Parser.mapE f l = inr ys -> Forall2 (fun x y => f x = inr y) l ys.
Proof.
  revert ys. induction l as [|x l IH]; intros ys; cbn [Parser.mapE].
  - intros [= <-]. constructor.
  - destruct (f x) as [e|y] eqn:E; [discriminate|]. cbn.
    destruct (Parser.mapE f l) as [e|ys'] eqn:E'; [discriminate|]. cbn.
    intros [= <-]. constructor; [exact E|]. apply IH. reflexivity.
Qed.

Section Params.

Context (JSON_parse : string -> option JValue).
Context (isDateString : string -> bool) (dateText : string -> string).
Context (validateNumeric : JValue -> string -> Exn + unit).
Context (validateParamOption : Parser.ParamsOptions -> string -> Exn + unit).
Context (validateUUID : JValue -> string -> Exn + unit).

Local Abbreviation parseParams :=
  (Parser.parseParams JSON_parse isDateString dateText validateNumeric
                      validateParamOption validateUUID).
Local Abbreviation paramParser :=
  (Parser.paramParser JSON_parse isDateString dateText validateNumeric
                      validateParamOption validateUUID).

(** X18: the filters [parseParams] makes of the route parameters: one for
    each parameter that has an enabled option, in the order of the
    parameters, each an equality on the field of the option. *)
Theorem parseParams_filters params options this this' :
  Util.isObject params = true ->
  Js.entries params <> [] ->
  parseParams params options this = Ok tt this' ->
  Forall (fun filter =>
            Request.operator filter = "$eq"
            /\ exists name option,
                 name ∈ map fst (Js.entries params)
                 /\ Js.assoc name options = Some option
                 /\ Parser.po_disabled option = false
                 /\ Request.field filter = Parser.po_field option)
         (Request.paramsFilter (Parser.parsed this')).
Proof.
  intros Hobject Hkeys. unfold Parser.parseParams. rewrite Hobject.
  destruct (map fst (Js.entries params)) as [|n ns] eqn:Hnames.
  { destruct (Js.entries params); [congruence|discriminate Hnames]. }
  cbn [Util.hasLength]. intros H.
  apply bind_Ok in H as ([] & s1 & Hset & H).
  apply bind_Ok in H as (this1 & s2 & Hget & H).
  apply bind_Ok in H as (filters & s3 & Hfilters & H).
  unfold Parser.setParams, modify in Hset. injection Hset as <-.
  unfold gets in Hget. injection Hget as <- <-.
  unfold lift in Hfilters.
  destruct (Parser.mapE _ _) as [e|fs] eqn:Hmap; [discriminate Hfilters|].
  injection Hfilters as <- <-.
  unfold Parser.updParsed, modify in H. injection H as <-.
  cbn [Parser.parsed Request.paramsFilter Parser.set_paramsFilter].
  apply mapE_inr in Hmap.
  set (all := n :: ns) in *.
  assert (forall x, x ∈ all -> x ∈ all) as Hsub by auto.
  revert Hsub Hmap. generalize all at 1 3. intros names Hsub Hmap.
  induction Hmap as [|name f names fs Hf Hmap IH]; cbn [omap];
    [constructor|].
  assert (Forall (fun filter =>
            Request.operator filter = "$eq"
            /\ exists name option,
                 name ∈ all
                 /\ Js.assoc name options = Some option
                 /\ Parser.po_disabled option = false
                 /\ Request.field filter = Parser.po_field option)
            (omap id fs)) as Hrest.
  { apply IH. intros x Hx. apply Hsub. right. exact Hx. }
  destruct f as [filter|]; cbn [id]; [|exact Hrest].
  constructor; [|exact Hrest].
  revert Hf. unfold Parser.paramParser. cbn [Parser._paramsOptions].
  destruct (validateParamOption _ _); [discriminate|]. cbn.
  destruct (Js.assoc name options) as [option|] eqn:Hoption; [|discriminate].
  destruct (Parser.po_disabled option) eqn:Hdisabled; [discriminate|].
  intros Hf.
  assert (exists value,
             filter = Request.mkFilter (Parser.po_field option) "$eq" value)
    as [value ->].
  { revert Hf. destruct (String.eqb _ "number").
    - destruct (validateNumeric _ _); [discriminate|]. cbn.
      intros [= <-]. eexists. reflexivity.
    - destruct (String.eqb _ "uuid").
      + destruct (validateUUID _ _); [discriminate|]. cbn.
        intros [= <-]. eexists. reflexivity.
      + cbn. intros [= <-]. eexists. reflexivity. }
  split; [reflexivity|]. exists name, option.
  split; [apply Hsub; left|]. repeat split; assumption.
Qed.

End Params.

Section Extra.

Context (JSON_parse : string -> option JValue).
Context (isDateString : string -> bool) (dateText : string -> string).

Local Abbreviation parseDotChainToObject :=
  (Parser.parseDotChainToObject JSON_parse isDateString dateText).

(** X19: two keys that start with the same segment do not merge: what the
    second builds replaces what the first built under that segment. *)
Theorem parseDotChainToObject_replaces data1 key1 data2 key2 result :
  hd "" (Js.split "." key1) = hd "" (Js.split "." key2) ->
  parseDotChainToObject data2 key2 (parseDotChainToObject data1 key1 result)
  = parseDotChainToObject data2 key2 result.
Proof.
  intros Hkey. unfold Parser.parseDotChainToObject.
  rewrite Hkey. apply assocSet_twice.
Qed.

End Extra.

Section Conditions.

Context (options : Parser.RequestQueryBuilderOptions).
Context (JSON_parse : string -> option JValue).
Context (isDateString : string -> bool) (dateText : string -> string).
Context (validateCondition :
           Request.QueryFilter -> string -> Request.CustomOperators
           -> Exn + unit).

Local Abbreviation conditionParser :=
  (Parser.conditionParser options JSON_parse isDateString dateText
                          validateCondition).

(** X20: a condition without a value, or with an empty one, is rejected
    before it is validated, unless its operator is one that takes no value.
    *)
Theorem conditionParser_needs_a_value cond customOperators data :
  JSON_parse "" = None -> isDateString "" = false ->
  default "" (Js.split (Parser.delim options) data !! 2) = "" ->
  Service.includes
    (default "undefined" (Js.split (Parser.delim options) data !! 1))
    Props.emptyValueOperators = false ->
  conditionParser cond customOperators data
  = inl (RequestQueryException ("Invalid " +:+ cond +:+ " value")).
Proof.
  intros Hjson Hdate Hvalue Hoperator. unfold Parser.conditionParser.
  assert (match Js.split (Parser.delim options) data !! 2 with
          | Some v => if String.eqb v "" then "" else v
          | None => ""
          end = "") as ->.
  { destruct (Js.split (Parser.delim options) data !! 2) as [v|];
      [|reflexivity].
    cbn in Hvalue. subst v. reflexivity. }
  assert (from_option
            (fun operator =>
               existsb (String.eqb operator)
                       ["isnull"; "notnull"; "$isnull"; "$notnull"])
            false (Js.split (Parser.delim options) data !! 1) = false) as ->.
  { destruct (Js.split (Parser.delim options) data !! 1) as [op|];
      [exact Hoperator|reflexivity]. }
  assert (Parser.parseValue JSON_parse isDateString dateText (JStr "")
          = JStr "") as Hparse.
  { unfold Parser.parseValue. cbn [Js.toStr]. rewrite Hjson, Hdate.
    reflexivity. }
  assert (Js.split (Parser.delimStr options) "" = [""]) as -> by reflexivity.
  destruct (from_option _ false _);
    cbn [map Parser.parseValues]; rewrite Hparse; reflexivity.
Qed.

End Conditions.

Section BadSearch.

Context (options : Parser.RequestQueryBuilderOptions).
Context (JSON_parse : string -> option JValue).
Context (isDateString : string -> bool) (dateText : string -> string).
Context (validateCondition :
           Request.QueryFilter -> string -> Request.CustomOperators
           -> Exn + unit).
Context (validateJoin : Request.QueryJoin -> Exn + unit).
Context (validateSort : string -> option string -> Exn + unit).
Context (validateNumeric : JValue -> string -> Exn + unit).
Context (validateParamOption : Parser.ParamsOptions -> string -> Exn + unit).
Context (validateUUID : JValue -> string -> Exn + unit).
Context (qs_parse : string -> string -> JValue).

Local Abbreviation intercept :=
  (Interceptor.intercept options JSON_parse isDateString dateText
                         validateCondition validateJoin validateSort
                         validateNumeric validateParamOption validateUUID
                         qs_parse).

(** X21: the interceptor never lets a [RequestQueryException] out: what the
    parser throws reaches the caller as a bad request with the same message.
    So a search parameter that is not the JSON text of an object is answered
    with the bad request [Invalid search param. JSON expected], whatever the
    route, and no function of the authorization rule is called. *)
Theorem intercept_bad_search_is_a_bad_request ctrlOptions crudOptions action
    req name d :
  Util.isObject (Js.prop "query" req) = true ->
  List.filter
    (fun p => existsb (String.eqb p) (Parser.paramNamesMap options "search"))
    (map fst (Js.entries (Parser.normalizeIndexedParams (Js.prop "query" req))))
    !! 0 = Some name ->
  Js.prop name (Parser.normalizeIndexedParams (Js.prop "query" req)) = d ->
  Util.isNil d = false ->
  from_option Util.isObject false (JSON_parse (Js.toStr d)) = false ->
  exists s,
    intercept ctrlOptions crudOptions action req None
    = Throw (BadRequestException "Invalid search param. JSON expected") s
    /\ Interceptor.calls s = [].
Proof.
  intros Hquery Hname Hvalue Hd Hjson.
  unfold Interceptor.intercept, Interceptor.assemble,
    Interceptor.parseQuery.
  unfold mbind at 1, ST_bind at 1, Interceptor.onParser at 1.
  cbn [Interceptor.parser Interceptor.calls].
  unfold Parser.parseQuery. rewrite Hquery.
  destruct (map fst (Js.entries
                       (Parser.normalizeIndexedParams (Js.prop "query" req))))
    as [|p ps] eqn:Hnames; [discriminate Hname|].
  cbn [Util.hasLength].
  erewrite bind_Ok_eq by reflexivity.
  erewrite bind_Ok_eq by reflexivity.
  unfold Parser.getParamNames, id. cbn [Parser._paramNames Parser._query].
  rewrite Hname. cbn [default from_option id]. rewrite Hvalue.
  rewrite parseSearchQueryParam_present by exact Hd.
  assert (match JSON_parse (Js.toStr d) with
          | Some data =>
              if Util.isObject data then inr data else inl Claims.invalidSearch
          | None => inl Claims.invalidSearch
          end = inl Claims.invalidSearch) as ->.
  { destruct (JSON_parse (Js.toStr d)) as [data|]; [|reflexivity].
    cbn in Hjson. rewrite Hjson. reflexivity. }
  eexists. split; reflexivity.
Qed.

End BadSearch.

(** * The parameters of join conditions *)

Section JoinParameters.

Context (repo : Service.Repository).

Ltac each_builtin H :=
  apply includes_elem_of in H;
  repeat (apply elem_of_cons in H as [H|H]; [rewrite H|]);
  try (apply elem_of_nil in H; destruct H).

(** Without custom operators, the parameters a condition binds are named
    by the parameter name it is given: that name, or that name followed by
    0 or 1. *)
Lemma mapOperatorsToQuery_parameter_names cond param str params k :
  Service.mapOperatorsToQuery repo cond param ∅ = inr (str, params) ->
  is_Some (params !! k) ->
  k = param \/ k = param +:+ "0" \/ k = param +:+ "1".
Proof.
  destruct cond as [field operator v].
  rewrite (mapOperatorsToQuery_normalized repo ∅).
  destruct (Service.includes (Service.normalizeOperator operator)
                             Claims.builtinOperators) eqn:Hb.
  - each_builtin Hb;
      try (intros [= <- <-]; intros [x Hx];
           first [ rewrite lookup_empty in Hx; discriminate Hx
                 | apply lookup_singleton_Some in Hx as [<- _]; left;
                   reflexivity ]);
      try (unfold Service.mapOperatorsToQuery, Service.switch, Js.template;
           cbn; destruct (Js.convertible v); cbn; [|discriminate];
           intros [= <- <-] [x Hx];
           apply lookup_singleton_Some in Hx as [<- _]; left; reflexivity).
    + (* $in *)
      unfold Service.mapOperatorsToQuery, Service.switch; cbn.
      destruct (Service.checkFilterIsArray _ _); cbn; [discriminate|].
      intros [= <- <-] [x Hx].
      apply lookup_singleton_Some in Hx as [<- _]. left. reflexivity.
    + unfold Service.mapOperatorsToQuery, Service.switch; cbn.
      destruct (Service.checkFilterIsArray _ _); cbn; [discriminate|].
      intros [= <- <-] [x Hx].
      apply lookup_singleton_Some in Hx as [<- _]. left. reflexivity.
    + (* $between *)
      unfold Service.mapOperatorsToQuery, Service.switch; cbn.
      destruct v; try discriminate;
        (destruct (Service.checkFilterIsArray _ _); cbn; [discriminate|]);
        intros [= <- <-] [x Hx];
        apply lookup_insert_Some in Hx as [[<- _]|[_ Hx]];
        try (right; left; reflexivity);
        apply lookup_singleton_Some in Hx as [<- _]; right; right;
        reflexivity.
    + unfold Service.mapOperatorsToQuery, Service.switch; cbn.
      destruct (Service.checkFilterIsArray _ _); cbn; [discriminate|].
      intros [= <- <-] [x Hx].
      apply lookup_singleton_Some in Hx as [<- _]. left. reflexivity.
    + unfold Service.mapOperatorsToQuery, Service.switch; cbn.
      destruct (Service.checkFilterIsArray _ _); cbn; [discriminate|].
      intros [= <- <-] [x Hx].
      apply lookup_singleton_Some in Hx as [<- _]. left. reflexivity.
    + unfold Service.mapOperatorsToQuery, Service.switch; cbn.
      destruct (Service.checkFilterIsArray _ _); cbn; [discriminate|].
      destruct (Service.getColumnType _ _); cbn; [discriminate|].
      intros [= <- <-] [x Hx].
      apply lookup_singleton_Some in Hx as [<- _]. left. reflexivity.
    + unfold Service.mapOperatorsToQuery, Service.switch; cbn.
      destruct (Service.checkFilterIsArray _ _); cbn; [discriminate|].
      destruct (Service.getColumnType _ _); cbn; [discriminate|].
      intros [= <- <-] [x Hx].
      apply lookup_singleton_Some in Hx as [<- _]. left. reflexivity.
  - rewrite mapOperatorsToQuery_default.
    + intros [= <- <-] [x Hx].
      apply lookup_singleton_Some in Hx as [<- _]. left. reflexivity.
    + rewrite normalizeOperator_idem. exact Hb.
    + apply lookup_empty.
Qed.

Lemma mapi_go_inr {A B} (f : A -> nat -> Exn + B) i l ys :
  Service.mapi_go f i l = inr ys ->
  forall j y, ys !! j = Some y ->
              exists x, l !! j = Some x /\ f x (i + j) = inr y.
Proof.
  revert i ys. induction l as [|x l IH]; intros i ys; cbn [Service.mapi_go].
  - intros [= <-] j y H. discriminate H.
  - destruct (f x i) as [e|y0] eqn:E; [discriminate|]. cbn.
    destruct (Service.mapi_go f (S i) l) as [e|ys'] eqn:E'; [discriminate|].
    cbn. intros [= <-] j y H. destruct j as [|j].
    + injection H as <-. exists x. rewrite Nat.add_0_r. split; [reflexivity|exact E].
    + destruct (IH _ _ E' j y H) as (x' & Hx' & Hf).
      exists x'. split; [exact Hx'|].
      replace (i + S j) with (S i + j) by lia. exact Hf.
Qed.

Lemma convertArrayToQuery_parameters
    (data : list (string * gmap string JValue)) (init : gmap string JValue) k :
  is_Some (foldl (fun params item => snd item ∪ params) init data !! k) ->
  is_Some (init !! k)
  \/ exists j item, data !! j = Some item /\ is_Some (snd item !! k).
Proof.
  revert init. induction data as [|item data IH]; intros init; cbn [foldl].
  - intros H. left. exact H.
  - intros H. destruct (IH _ H) as [H'|(j & item' & Hj & Hk)].
    + apply lookup_union_is_Some in H' as [H'|H']; [|left; exact H'].
      right. exists 0, item. split; [reflexivity|exact H'].
    + right. exists (S j), item'. split; [exact Hj|exact Hk].
Qed.

(** X22: the parameters the conditions of a join bind are named by the
    position of the condition in the join, [andCondition0], [andCondition1],
    ... (followed by 0 and 1 for the two bounds of [$between]), whatever the
    relation joined: the conditions of two joins of a request bind the same
    names. *)
Theorem joinCondition_parameters_by_position on str params k :
  Props.joinCondition repo (Some on) = inr (Some (str, params)) ->
  is_Some (params !! k) ->
  exists i,
    i < length on
    /\ (k = "andCondition" +:+ pretty i
        \/ k = ("andCondition" +:+ pretty i) +:+ "0"
        \/ k = ("andCondition" +:+ pretty i) +:+ "1").
Proof.
  unfold Props.joinCondition.
  destruct (Service.mapi_go _ 0 on) as [e|conds] eqn:Hconds; [discriminate|].
  cbn. intros [= <- <-] Hk.
  apply convertArrayToQuery_parameters in Hk
    as [Hk|(j & [str' params'] & Hj & Hk)].
  - rewrite lookup_empty in Hk. destruct Hk as [x Hx]. discriminate Hx.
  - destruct (mapi_go_inr _ _ _ _ Hconds j _ Hj) as (filter & Hfilter & Hmap).
    exists j. split; [apply lookup_lt_Some in Hfilter; exact Hfilter|].
    cbn [Nat.add] in Hmap.
    exact (mapOperatorsToQuery_parameter_names _ _ _ _ _ Hmap Hk).
Qed.

End JoinParameters.

(** X22 on an example: two joins, each with one condition: both conditions
    are written with [:andCondition0]. *)
Lemma joinCondition_parameters_by_position_witness :
  Props.joinCondition Examples.users
    (Some [Request.mkFilter "company.name" "$eq" (JStr "acme")])
  = inr (Some ("company.name = :andCondition0",
               {[ "andCondition0" := JStr "acme" ]}))
  /\ Props.joinCondition Examples.users
       (Some [Request.mkFilter "projects.status" "$eq" (JStr "open")])
     = inr (Some ("projects.status = :andCondition0",
                  {[ "andCondition0" := JStr "open" ]}))
  /\ exists i,
       i < 1
       /\ ("andCondition0" = "andCondition" +:+ pretty i
           \/ "andCondition0" = ("andCondition" +:+ pretty i) +:+ "0"
           \/ "andCondition0" = ("andCondition" +:+ pretty i) +:+ "1").
Proof.
  split; [vm_compute; reflexivity|]. split; [vm_compute; reflexivity|].
  apply (joinCondition_parameters_by_position Examples.users
           [Request.mkFilter "company.name" "$eq" (JStr "acme")]
           "company.name = :andCondition0" {[ "andCondition0" := JStr "acme" ]}
           "andCondition0").
  - vm_compute. reflexivity.
  - vm_compute. eexists. reflexivity.
Defined.

(** * The further properties on the examples *)

(** X3 on an example: an operator the service does not know, [like], is an
    equality. *)
Lemma mapOperatorsToQuery_unknown_operator_witness :
  Service.mapOperatorsToQuery Examples.users
    (Request.mkFilter "a" "like" (JStr "x")) "p" ∅
  = inr ("`User`.`a` = :p", {[ "p" := JStr "x" ]}).
Proof.
  exact (mapOperatorsToQuery_unknown_operator Examples.users ∅ "a" "like"
           (JStr "x") "p" eq_refl eq_refl).
Defined.

(** A custom operator named [$eq] is not used. *)
Lemma mapOperatorsToQuery_builtin_first_witness :
  Service.mapOperatorsToQuery Examples.users
    (Request.mkFilter "a" "eq" (JNum 1)) "p"
    {[ "$eq" := Request.mkCustomOperator false (fun _ _ => Some "1 = 1") None ]}
  = inr ("`User`.`a` = :p", {[ "p" := JNum 1 ]}).
Proof.
  exact (mapOperatorsToQuery_builtin_first Examples.users
           {[ "$eq" := Request.mkCustomOperator false
                         (fun _ _ => Some "1 = 1") None ]}
           "a" "eq" (JNum 1) "p" eq_refl).
Defined.

(** X4 on an example: [$cont] binds the pattern of the text of a number,
    and fails on [{"toString": 1}]; [$gte] binds that value as it is. *)
Lemma mapOperatorsToQuery_scalar_operator_witness :
  (exists str,
      Service.mapOperatorsToQuery Examples.users
        (Request.mkFilter "a" "cont" (JNum 7)) "p" ∅
      = inr (str, {[ "p" := JStr "%7%" ]}))
  /\ Service.mapOperatorsToQuery Examples.users
       (Request.mkFilter "a" "cont" (JObj [("toString", JNum 1)])) "p" ∅
     = inl (TypeError "Cannot convert object to primitive value")
  /\ (exists str,
         Service.mapOperatorsToQuery Examples.users
           (Request.mkFilter "a" "gte" (JObj [("toString", JNum 1)])) "p" ∅
         = inr (str, {[ "p" := JObj [("toString", JNum 1)] ]})).
Proof.
  split; [|split].
  - exact (proj2 (proj2 (mapOperatorsToQuery_scalar_operator Examples.users ∅
                           "a" "cont" (JNum 7) "p"))
                 (fun text => "%" +:+ text +:+ "%") eq_refl).
  - exact (proj2 (proj2 (mapOperatorsToQuery_scalar_operator Examples.users ∅
                           "a" "cont" (JObj [("toString", JNum 1)]) "p"))
                 (fun text => "%" +:+ text +:+ "%") eq_refl).
  - exact (proj1 (proj2 (mapOperatorsToQuery_scalar_operator Examples.users ∅
                           "a" "gte" (JObj [("toString", JNum 1)]) "p"))
                 eq_refl).
Defined.

(** X5 on an example: [{"a": {"gt": 1}}] and [{"a": {"$gt": 1}}]. *)
Lemma operator_prefix_is_optional_witness :
  Service.setSearchCondition Examples.users Examples.clock ∅
    (JObj [("a", JObj [("gt", JNum 1)])]) 0 Service.KAnd Examples.fresh
  = Service.setSearchCondition Examples.users Examples.clock ∅
      (JObj [("a", JObj [("$gt", JNum 1)])]) 0 Service.KAnd Examples.fresh.
Proof.
  exact (operator_prefix_is_optional Examples.users Examples.clock ∅ "a" "gt"
           (JNum 1) 0 Service.KAnd Examples.fresh eq_refl
           (fun H => ltac:(discriminate H))).
Defined.

(** X6 on an example: the filter [a||isnull] compiles as the condition [a IS
    NULL]. *)
Lemma convertFilterToSearch_compiles_as_the_filter_witness :
  Service.setSearchCondition Examples.users Examples.clock ∅
    (Parser.convertFilterToSearch (Some (Request.mkFilter "a" "isnull" (JStr ""))))
    0 Service.KAnd Examples.fresh
  = Service.builderSetWhere Examples.users Examples.clock 0 Service.KAnd "a"
      (JBool true) ∅ "isnull" Examples.fresh.
Proof.
  exact (convertFilterToSearch_compiles_as_the_filter Examples.users
           Examples.clock ∅ (Request.mkFilter "a" "isnull" (JStr "")) 0
           Service.KAnd Examples.fresh (fun H => ltac:(discriminate H))).
Defined.

(** The example service is fresh. *)
Lemma fresh_is_fresh : Props.fresh Examples.fresh.
Proof. intros i. reflexivity. Qed.

(** X9 on an example: [sort=a,ASC&sort=b,DESC]. *)
Lemma getSort_checks_every_field_witness :
  exists w',
    Service.getSort Examples.users
      (Parser.set_sort [Request.mkSort "a" "ASC"; Request.mkSort "b" "DESC"]
                       Examples.nothingParsed)
      Examples.noQueryOptions Examples.fresh
    = Ok [("User.a", "ASC"); ("User.b", "DESC")] w'
    /\ Props.fresh w'.
Proof.
  exact (getSort_checks_every_field Examples.users
           (Parser.set_sort
              [Request.mkSort "a" "ASC"; Request.mkSort "b" "DESC"]
              Examples.nothingParsed)
           Examples.noQueryOptions Examples.fresh fresh_is_fresh).
Defined.

(** X10 on an example: the sort field [name'] of the entity. *)
Lemma checkSqlInjection_rejects_a_quote_witness :
  exists w',
    Service.checkSqlInjection "User.name'" Examples.fresh
    = Throw (Props.injectionDetected "User.name'") w'.
Proof.
  exact (checkSqlInjection_rejects_a_quote "User.name" "'" "" Examples.fresh
           fresh_is_fresh (or_introl eq_refl)).
Defined.

(** X13 on an example: the relation [company] of the example entity. *)
Lemma getRelationMetadata_of_a_relation_witness :
  Service.getRelationMetadata Examples.users "company" Examples.plainJoin
    Examples.fresh
  = Ok (Some (Service.mkAllowedRelation None false "company"
                (Some "User.company") ["id"; "name"] ["id"] ["id"; "name"]))
       (Service.set_entityRelationsHash
          {[ "company" := Service.mkAllowedRelation None false "company"
                            (Some "User.company") ["id"; "name"] ["id"]
                            ["id"; "name"] ]}
          Examples.fresh).
Proof.
  exact (getRelationMetadata_of_a_relation Examples.users "company"
           Examples.plainJoin (Service.mkRelation "company" "Company")
           (Service.mkEntity "Company"
              [Examples.column "id" true; Examples.column "name" false] [])
           Examples.fresh eq_refl eq_refl eq_refl eq_refl).
Defined.

(** The relation [company], asked for twice. *)
Lemma getRelationMetadata_again_witness :
  exists relation w',
    Service.getRelationMetadata Examples.users "company" Examples.plainJoin
      Examples.fresh = Ok (Some relation) w'
    /\ Service.getRelationMetadata Examples.users "company" Examples.plainJoin
         w' = Ok (Some relation) w'.
Proof.
  eexists _, _. split; [vm_compute; reflexivity|].
  apply (getRelationMetadata_again Examples.users "company" Examples.plainJoin
           _ Examples.fresh).
  vm_compute. reflexivity.
Defined.

(** X14 on the example entity: the relation [company] is joined and
    selected; the nested relation [company.users], whose parent was not
    joined, is handed to the builder without a path, which throws. *)
Lemma setJoin_adds_the_join_witness :
  (exists w',
      Service.setJoin Examples.users (Request.mkQueryJoin "company" None None)
        [("company", Examples.plainJoin)] 0 Examples.fresh = Ok tt w'
      /\ Service.builders w' !! 0
         = Some (Orm.mkExpressionMap ["company.id"; "company.name"] []
                   [Orm.mkJoin Orm.leftJoin (Some "User.company") "company"
                               None]
                   [] None None None false))
  /\ (exists w',
         Service.setJoin Examples.staff
           (Request.mkQueryJoin "company.users" None None)
           [("company.users", Examples.plainJoin)] 0 Examples.fresh
         = Throw (TypeError
                    "Cannot read properties of undefined (reading 'substr')")
                 w'
         /\ Service.builders w' !! 0
            = Some (Orm.mkExpressionMap [] []
                      [Orm.mkJoin Orm.leftJoin None "users" None]
                      [] None None None false)).
Proof.
  split.
  - destruct (setJoin_adds_the_join Examples.users
                (Request.mkQueryJoin "company" None None)
                [("company", Examples.plainJoin)] Examples.plainJoin
                (Service.mkAllowedRelation None false "company"
                   (Some "User.company") ["id"; "name"] ["id"] ["id"; "name"])
                None 0 Orm.emptyExpressionMap Examples.fresh
                (Service.set_entityRelationsHash
                   {[ "company" := Service.mkAllowedRelation None false
                                     "company" (Some "User.company")
                                     ["id"; "name"] ["id"] ["id"; "name"] ]}
                   Examples.fresh)
                eq_refl eq_refl eq_refl eq_refl)
      as (w' & _ & _ & Hrun & Hbuilder).
    exists w'. split; [exact Hrun|exact Hbuilder].
  - destruct (setJoin_adds_the_join Examples.staff
                (Request.mkQueryJoin "company.users" None None)
                [("company.users", Examples.plainJoin)] Examples.plainJoin
                (Service.mkAllowedRelation None true "users" None
                   ["id"] ["id"] ["id"])
                None 0 Orm.emptyExpressionMap Examples.fresh
                (Service.set_entityRelationsHash
                   {[ "company.users" := Service.mkAllowedRelation None true
                                           "users" None ["id"] ["id"] ["id"] ]}
                   Examples.fresh)
                eq_refl eq_refl eq_refl eq_refl)
      as (w' & _ & _ & Hrun & Hbuilder).
    exists w'. split; [exact Hrun|exact Hbuilder].
Defined.

(** X15 on an example: the builder of [limit=10&page=2]. *)
Lemma createBuilder_settings_witness :
  Orm.take (Service.expressionMap 1 Examples.page2Built) = Some 10%Z
  /\ Orm.skip (Service.expressionMap 1 Examples.page2Built) = Some 10%Z
  /\ Orm.withDeleted (Service.expressionMap 1 Examples.page2Built) = false.
Proof.
  destruct (createBuilder_settings Examples.users Examples.clock
              Examples.page2 Examples.noOptions true false Examples.fresh 1
              Examples.page2Built eq_refl)
    as (_ & _ & Hdeleted & _ & Htake & Hskip).
  split; [exact Htake|]. split; [exact Hskip|exact Hdeleted].
Defined.

(** X16 on an example: [filter[1]=b&filter[0]=a], and
    [filter[0]=a&filter[4294967295]=b]. *)
Lemma normalizeIndexedParams_by_index_witness :
  Parser.normalizeIndexedParams
    (JObj [("filter[1]", JStr "b"); ("filter[0]", JStr "a")])
  = JObj [("filter", JArr [JStr "a"; JStr "b"])]
  /\ Parser.normalizeIndexedParams
       (JObj [("filter[0]", JStr "a"); ("filter[4294967295]", JStr "b")])
     = JObj [("filter", JArr [JStr "a"])].
Proof.
  split.
  - exact (proj2 (normalizeIndexedParams_by_index "filter[0]" "filter[1]"
                    "filter" 0 1 (JStr "a") (JStr "b") eq_refl eq_refl
                    ltac:(discriminate) ltac:(lia) eq_refl eq_refl)).
  - exact (proj1 (normalizeIndexedParams_by_index "filter[0]"
                    "filter[4294967295]" "filter" 0 4294967295 (JStr "a")
                    (JStr "b") eq_refl eq_refl ltac:(discriminate)
                    ltac:(lia) eq_refl eq_refl)).
Defined.

(** X17 on an example: [filter=a||in||7,x]. *)
Lemma conditionParser_value_is_flat_witness :
  Parser.conditionParser Examples.parserOptions Examples.parseJson
    Examples.noDate id Examples.accept "filter" ∅ "a||in||7,x"
  = inr (Request.mkFilter "a" "in" (JArr [JNum 7; JStr "x"]))
  /\ Props.flat (JArr [JNum 7; JStr "x"]) = true.
Proof.
  split; [reflexivity|].
  exact (conditionParser_value_is_flat Examples.parserOptions Examples.parseJson
           Examples.noDate id Examples.accept "filter" ∅ "a||in||7,x"
           (Request.mkFilter "a" "in" (JArr [JNum 7; JStr "x"])) eq_refl).
Defined.

(** X18 on an example: the route parameter [id], a number. *)
Lemma parseParams_filters_witness :
  Forall (fun filter =>
            Request.operator filter = "$eq"
            /\ exists name option,
                 name ∈ ["id"]
                 /\ Js.assoc name [("id", Parser.mkParamOption "id" "number" false)]
                    = Some option
                 /\ Parser.po_disabled option = false
                 /\ Request.field filter = Parser.po_field option)
         [Request.mkFilter "id" "$eq" (JNum 7)].
Proof.
  exact (parseParams_filters Examples.parseJson Examples.noDate id
           Examples.accept2 Examples.accept2 Examples.accept2
           (JObj [("id", JStr "7")])
           [("id", Parser.mkParamOption "id" "number" false)]
           Parser.create
           (Parser.mkParser
              (Parser.set_paramsFilter [Request.mkFilter "id" "$eq" (JNum 7)]
                 Examples.nothingParsed)
              (JObj [("id", JStr "7")]) JUndefined []
              [("id", Parser.mkParamOption "id" "number" false)])
           eq_refl ltac:(discriminate) eq_refl).
Defined.

(** X19 on an example: [extra.a.b=1] then [extra.a.c=2]: only [c] is left
    under [a]. *)
Lemma parseDotChainToObject_replaces_witness :
  Parser.parseDotChainToObject Examples.parseJson Examples.noDate id
    (JStr "2") "a.c"
    (Parser.parseDotChainToObject Examples.parseJson Examples.noDate id
       (JStr "10") "a.b" [])
  = [("a", JObj [("c", JNum 2)])].
Proof.
  exact (parseDotChainToObject_replaces Examples.parseJson Examples.noDate id
           (JStr "10") "a.b" (JStr "2") "a.c" [] eq_refl).
Defined.

(** X20 on an example: [filter=a||eq]. *)
Lemma conditionParser_needs_a_value_witness :
  Parser.conditionParser Examples.parserOptions Examples.parseJson
    Examples.noDate id Examples.accept "filter" ∅ "a||eq"
  = inl (RequestQueryException "Invalid filter value").
Proof.
  exact (conditionParser_needs_a_value Examples.parserOptions
           Examples.parseJson Examples.noDate id Examples.accept "filter" ∅
           "a||eq" eq_refl eq_refl eq_refl eq_refl).
Defined.

(** X21 on an example: [s=oops]. *)
Lemma intercept_bad_search_is_a_bad_request_witness :
  exists s,
    Examples.intercept (JObj []) (Examples.crudOptionsWith None)
      Interceptor.ReadAll (JObj [("query", JObj [("s", JStr "oops")])]) None
    = Throw (BadRequestException "Invalid search param. JSON expected") s
    /\ Interceptor.calls s = [].
Proof.
  exact (intercept_bad_search_is_a_bad_request Examples.parserOptions
           Examples.parseJson Examples.noDate id Examples.accept
           Examples.accept1 Examples.accept2 Examples.accept2 Examples.accept2
           Examples.accept2 Examples.noQs (JObj [])
           (Examples.crudOptionsWith None) Interceptor.ReadAll
           (JObj [("query", JObj [("s", JStr "oops")])]) "s" (JStr "oops")
           eq_refl eq_refl eq_refl eq_refl eq_refl).
Defined.

(** * Reading one entity, and writing *)

#[local] Instance keepsWrites_refl : Reflexive Props.keepsWrites.
Proof. intros s. reflexivity. Qed.

#[local] Instance keepsWrites_trans : Transitive Props.keepsWrites.
Proof. intros s1 s2 s3 H1 H2. unfold Props.keepsWrites in *. congruence. Qed.

Lemma onWorld_keepsWrites {A} (m : Service.M A) :
  Props.respects Props.keepsWrites (Service.onWorld m).
Proof.
  intros s. unfold Service.onWorld.
  destruct (m (Service.world s)); reflexivity.
Qed.

(** A property of [{...target, ...source}] is that of [source] when it
    has one, and that of [target] otherwise. *)
Lemma assoc_spread k target source :
  Props.distinctKeys source ->
  Js.assoc k (Service.spread target source)
  = match Js.assoc k (Js.entries source) with
    | Some v => Some v
    | None => Js.assoc k target
    end.
Proof.
  unfold Props.distinctKeys, Service.spread.
  generalize (Js.entries source) as l. intros l. revert target.
  induction l as [|[k0 v0] l IH]; intros target Hnd; cbn.
  - reflexivity.
  - apply NoDup_cons in Hnd as [Hk0 Hnd]. cbn in Hk0. rewrite (IH _ Hnd).
    rewrite assoc_assocSet. destruct (String.eqb k k0) eqn:E.
    + apply String.eqb_eq in E. subst k0.
      apply assoc_None_iff in Hk0. rewrite Hk0. reflexivity.
    + reflexivity.
Qed.

Lemma firstOf_spread k target source below :
  Props.distinctKeys source ->
  Js.assoc k target = Props.firstOf k below ->
  Js.assoc k (Service.spread target source)
  = Props.firstOf k (source :: below).
Proof.
  intros Hnd H. rewrite assoc_spread by exact Hnd. cbn. rewrite H.
  reflexivity.
Qed.

(** [getParamFilters]: the value of the last filter on a field. *)
Lemma getParamFilters_lookup parsed k :
  Js.assoc k (Service.getParamFilters parsed) = Props.paramOf k parsed.
Proof.
  unfold Service.getParamFilters, Props.paramOf.
  assert (forall l acc,
             Js.assoc k
               (foldl (fun filters filter =>
                         Js.assocSet (Request.field filter)
                                     (Request.value filter) filters) acc l)
             = match last (List.filter
                             (fun f => String.eqb (Request.field f) k) l) with
               | Some f => Some (Request.value f)
               | None => Js.assoc k acc
               end) as H.
  { intros l. induction l as [|f l IH]; intros acc; cbn.
    - reflexivity.
    - rewrite IH. rewrite assoc_assocSet.
      rewrite (String.eqb_sym (Request.field f) k).
      destruct (String.eqb k (Request.field f)); [|reflexivity].
      destruct (List.filter _ l) as [|g r]; [reflexivity|].
      rewrite last_cons_cons.
      destruct (last (g :: r)) eqn:Hl; [reflexivity|].
      apply last_None in Hl. discriminate. }
  destruct (Request.paramsFilter parsed) as [|f l] eqn:Hp; [reflexivity|].
  cbn [Util.hasLength]. rewrite H.
  destruct (last _); reflexivity.
Qed.

Lemma getParamFilters_distinctKeys parsed :
  Props.distinctKeys (JObj (Service.getParamFilters parsed)).
Proof.
  unfold Props.distinctKeys, Service.getParamFilters. cbn [Js.entries].
  assert (forall (l : list Request.QueryFilter) acc,
             NoDup (map fst acc) ->
             NoDup (map fst
               (foldl (fun filters filter =>
                         Js.assocSet (Request.field filter)
                                     (Request.value filter) filters) acc l)))
    as H.
  { intros l. induction l as [|f l IH]; intros acc Hacc; cbn; [exact Hacc|].
    apply IH, assocSet_NoDup, Hacc. }
  destruct (Util.hasLength _); [apply H|]; apply NoDup_nil_2.
Qed.

Lemma assoc_assign_filters k (l : list Request.QueryFilter) acc :
  Js.assoc k
    (foldl (fun o filter =>
              Js.assocSet (Request.field filter) (Request.value filter) o)
           acc l)
  = match last (List.filter (fun f => String.eqb (Request.field f) k) l) with
    | Some f => Some (Request.value f)
    | None => Js.assoc k acc
    end.
Proof.
  revert acc. induction l as [|f l IH]; intros acc; cbn.
  - reflexivity.
  - rewrite IH. rewrite assoc_assocSet.
    rewrite (String.eqb_sym (Request.field f) k).
    destruct (String.eqb k (Request.field f)); [|reflexivity].
    destruct (List.filter _ l) as [|g r]; [reflexivity|].
    rewrite last_cons_cons.
    destruct (last (g :: r)) eqn:Hl; [reflexivity|].
    apply last_None in Hl. discriminate.
Qed.

Section Writes.

Context (repo : Service.Repository) (hrtime : nat -> Z * Z).
Context (rowsAfter : list Service.RepoCall -> Orm.ExpressionMap ->
                     gmap string JValue -> list JValue).
Context (saved : list Service.RepoCall -> JValue -> JValue).
Context (savedBulk : list Service.RepoCall -> list JValue -> list JValue).
Context (recovered : list Service.RepoCall -> JValue -> JValue).
Context (plainToClass : JValue -> JValue -> JValue).
Context (instanceOfEntity : JValue -> bool).
Context (notFoundException : string -> Exn).

Local Abbreviation getOneOrFail :=
  (Service.getOneOrFail repo hrtime rowsAfter notFoundException).
Local Abbreviation prepareEntityBeforeSave :=
  (Service.prepareEntityBeforeSave plainToClass instanceOfEntity).
Local Abbreviation createOne :=
  (Service.createOne repo hrtime rowsAfter saved plainToClass instanceOfEntity
                     notFoundException).
Local Abbreviation createMany :=
  (Service.createMany savedBulk plainToClass instanceOfEntity).
Local Abbreviation updateOne :=
  (Service.updateOne repo hrtime rowsAfter saved plainToClass
                     notFoundException).
Local Abbreviation replaceOne :=
  (Service.replaceOne repo hrtime rowsAfter saved plainToClass
                      notFoundException).
Local Abbreviation deleteOne :=
  (Service.deleteOne repo hrtime rowsAfter plainToClass notFoundException).
Local Abbreviation recoverOne :=
  (Service.recoverOne repo hrtime rowsAfter recovered notFoundException).

(** A lookup writes nothing. *)
Lemma getOneOrFail_keepsWrites req shallow withDeleted :
  Props.respects Props.keepsWrites (getOneOrFail req shallow withDeleted).
Proof.
  unfold Service.getOneOrFail.
  apply respects_bind; [typeclasses eauto|apply onWorld_keepsWrites|].
  intros builder.
  apply respects_bind; [typeclasses eauto| |].
  { destruct shallow; [apply onWorld_keepsWrites|].
    apply respects_ret. typeclasses eauto. }
  intros [].
  apply respects_bind; [typeclasses eauto| |].
  { destruct withDeleted.
    - apply respects_bind; [typeclasses eauto|apply onWorld_keepsWrites|].
      intros []. apply respects_gets. typeclasses eauto.
    - apply respects_gets. typeclasses eauto. }
  intros found. destruct (negb (Js.truthy found)).
  - apply respects_throw. typeclasses eauto.
  - apply respects_ret. typeclasses eauto.
Qed.

(** What a lookup returns is not falsy. *)
Lemma getOneOrFail_truthy req shallow withDeleted s found s' :
  getOneOrFail req shallow withDeleted s = Ok found s' ->
  Js.truthy found = true.
Proof.
  unfold Service.getOneOrFail. intros H.
  apply bind_Ok in H as (b & s1 & _ & H).
  apply bind_Ok in H as ([] & s2 & _ & H).
  apply bind_Ok in H as (f & s3 & _ & H).
  destruct (Js.truthy f) eqn:Hf; cbn in H; [|discriminate].
  injection H as <- _. exact Hf.
Qed.

(** X23: [replaceOne] saves, whatever its lookup does: the lookup may find
    no entity, or throw on the search of the request; either way one entity
    is saved, and nothing else is written. *)
Theorem replaceOne_always_saves req dto s :
  exists entity,
    Service.writes (Claims.final (replaceOne req dto s))
    = Service.writes s ++ [Service.Save entity].
Proof.
  unfold Service.replaceOne.
  set (req' := Service.disableCache req).
  set (shallow := Service.replaceOneBase_returnShallow _).
  pose proof (getOneOrFail_keepsWrites req' shallow false s) as Hfirst.
  unfold mbind at 1, ST_bind at 1, Service.catch.
  assert (forall (f : JValue -> JValue) found s1,
             Service.writes s1 = Service.writes s ->
             exists entity,
               Service.writes
                 (Claims.final
                    ((Service.repo_save saved (f found)
                      ≫= fun replaced =>
                        if shallow then mret replaced
                        else if negb (Util.hasLength
                                        (Service.req_primaryParams req'))
                        then mret replaced
                        else lift (Service.pick
                                     (Service.req_primaryParams req') replaced)
                             ≫= fun search =>
                               getOneOrFail
                                 (Service.withSearch (JObj search) req')
                                 false false) s1))
               = Service.writes s ++ [Service.Save entity]) as Hrest.
  { intros f found s1 Hs1. exists (f found).
    unfold mbind at 1, ST_bind at 1, Service.repo_save.
    rewrite <- Hs1.
    set (s2 := Service.mkStore _ _).
    change (Service.writes s1 ++ [Service.Save (f found)])
      with (Service.writes s2).
    destruct shallow; [reflexivity|].
    destruct (negb _); [reflexivity|].
    unfold mbind, ST_bind, lift.
    destruct (Service.pick _ _) as [e|search]; [reflexivity|].
    apply getOneOrFail_keepsWrites. }
  destruct (getOneOrFail req' shallow false s) as [found s1|e s1];
    cbn [Claims.final] in Hfirst.
  - apply (Hrest (fun found => plainToClass (JObj _) _) found s1 Hfirst).
  - apply (Hrest (fun found => plainToClass (JObj _) _) JNull s1 Hfirst).
Qed.

(** X24: [createOne], unless its route returns the saved entity as it is,
    always reads the entity back: the return on a missing primary parameter
    is never taken, as its test asks for no primary parameter and for one
    whose value is missing. With no primary parameter the search of the read
    is the empty object. *)
Theorem createOne_reads_back req dto s :
  Service.createOneBase_returnShallow (Service.req_routes req) = false ->
  Js.truthy (prepareEntityBeforeSave dto (Service.req_parsed req)) = true ->
  createOne req dto s
  = (Service.repo_save saved
       (prepareEntityBeforeSave dto (Service.req_parsed req))
     ≫= fun entity =>
       lift (Service.pick (Service.req_primaryParams req) entity)
       ≫= fun search =>
         getOneOrFail (Service.withSearch (JObj search) req) false false) s.
Proof.
  intros Hshallow Hentity. unfold Service.createOne.
  rewrite Hshallow, Hentity. cbn [negb].
  unfold mbind at 1, ST_bind at 1. cbn [mret ST_ret].
  unfold mbind at 1 3, ST_bind at 1 3.
  destruct (Service.repo_save _ _ s) as [entity s1|e s1]; [|reflexivity].
  destruct (Service.req_primaryParams req) as [|p ps]; reflexivity.
Qed.

(** X25: what [prepareEntityBeforeSave] makes of a body: a property is that
    of [authPersist] when it has one, else that of the route parameters,
    else that of the body. There is nothing to save when the body is no
    object, or has no property and the route no parameter. *)
Theorem prepareEntityBeforeSave_precedence dto parsed :
  Props.distinctKeys (Request.authPersist parsed) ->
  if Util.isObject dto
     && (Util.hasLength (Js.entries dto)
         || Util.hasLength (Request.paramsFilter parsed))
  then exists toSave,
      prepareEntityBeforeSave dto parsed
      = (if instanceOfEntity dto then JObj toSave
         else plainToClass (JObj toSave)
                           (Request.classTransformOptions parsed))
      /\ forall k,
          Js.assoc k toSave
          = Props.firstOf k [Request.authPersist parsed;
                             JObj (Service.getParamFilters parsed);
                             dto]
  else prepareEntityBeforeSave dto parsed = JUndefined.
Proof.
  intros Hauth. unfold Service.prepareEntityBeforeSave.
  destruct (Util.isObject dto); cbn [negb andb]; [|reflexivity].
  set (assigned := if Util.hasLength (Request.paramsFilter parsed)
                   then _ else _).
  assert (forall k,
             Js.assoc k assigned
             = Props.firstOf k [JObj (Service.getParamFilters parsed); dto])
    as Hassigned.
  { intros k. cbn [Props.firstOf Js.entries].
    rewrite getParamFilters_lookup. subst assigned. unfold Props.paramOf.
    destruct (Request.paramsFilter parsed) as [|f l]; cbn [Util.hasLength].
    - cbn. destruct (Js.assoc k (Js.entries dto)); reflexivity.
    - rewrite assoc_assign_filters.
      destruct (last _); cbn; [reflexivity|].
      destruct (Js.assoc k (Js.entries dto)); reflexivity. }
  assert (Util.hasLength (map fst assigned)
          = Util.hasLength (Js.entries dto)
            || Util.hasLength (Request.paramsFilter parsed)) as ->.
  { subst assigned.
    destruct (Request.paramsFilter parsed) as [|f l]; cbn [Util.hasLength].
    - rewrite orb_false_r. destruct (Js.entries dto); reflexivity.
    - rewrite orb_true_r.
      assert (forall (l : list Request.QueryFilter) acc,
                 acc <> [] ->
                 foldl (fun o filter =>
                          Js.assocSet (Request.field filter)
                                      (Request.value filter) o) acc l
                 <> []) as Hne.
      { intros l0. induction l0 as [|g l0 IH]; intros acc Hacc; cbn;
          [exact Hacc|].
        apply IH, assocSet_not_nil. }
      cbn [foldl].
      match goal with
      | |- Util.hasLength (map fst (foldl ?step ?acc ?l)) = _ =>
          pose proof (Hne l acc) as Hne'
      end.
      destruct (foldl _ _ l) as [|x r].
      + exfalso. apply Hne'; [|reflexivity]. apply assocSet_not_nil.
      + reflexivity. }
  destruct (_ || _); cbn [negb]; [|reflexivity].
  exists (Service.spread assigned (Request.authPersist parsed)). split.
  - reflexivity.
  - intros k. apply firstOf_spread; [exact Hauth|apply Hassigned].
Qed.

(** X26: what [updateOne] saves, once it found the entity: a property is
    that of [authPersist] when it has one; else that of the route
    parameters, unless the route allows the body to override them; else that
    of the body; else that of the entity found. It is the one write made. *)
Theorem updateOne_saves_by_precedence req dto s found s1 :
  getOneOrFail (Service.disableCache req)
    (Service.updateOneBase_returnShallow (Service.req_routes req)) false s
  = Ok found s1 ->
  Props.distinctKeys found ->
  Props.distinctKeys dto ->
  Props.distinctKeys (Request.authPersist (Service.req_parsed req)) ->
  exists toSave,
    Service.writes (Claims.final (updateOne req dto s))
    = Service.writes s
      ++ [Service.Save
            (plainToClass (JObj toSave)
               (Request.classTransformOptions (Service.req_parsed req)))]
    /\ forall k,
        Js.assoc k toSave
        = Props.firstOf k
            (Request.authPersist (Service.req_parsed req)
             :: (if Service.updateOneBase_allowParamsOverride
                      (Service.req_routes req)
                 then []
                 else [JObj (Service.getParamFilters (Service.req_parsed req))])
             ++ [dto; found]).
Proof.
  intros Hlookup Hfound Hdto Hauth. unfold Service.updateOne.
  pose proof (getOneOrFail_keepsWrites (Service.disableCache req)
                (Service.updateOneBase_returnShallow (Service.req_routes req))
                false s) as Hs1.
  rewrite Hlookup in Hs1. cbn [Claims.final] in Hs1.
  rewrite (bind_Ok_eq _ _ _ _ _ Hlookup).
  change (Service.req_routes (Service.disableCache req))
    with (Service.req_routes req).
  change (Service.req_parsed (Service.disableCache req))
    with (Service.req_parsed req).
  set (allow := Service.updateOneBase_allowParamsOverride _).
  set (toSave := if negb allow then _ else _).
  exists toSave. split.
  - unfold mbind at 1, ST_bind at 1, Service.repo_save.
    rewrite <- Hs1.
    set (entity := plainToClass _ _).
    set (s2 := Service.mkStore _ _).
    change (Service.writes s1 ++ [Service.Save entity])
      with (Service.writes s2).
    destruct (Service.updateOneBase_returnShallow _); [reflexivity|].
    unfold mbind, ST_bind.
    destruct (Util.hasLength _ && _); [reflexivity|]. cbn [mret ST_ret].
    apply getOneOrFail_keepsWrites.
  - intros k. subst toSave.
    assert (Js.assoc k (Service.spread (Service.spread [] found) dto)
            = Props.firstOf k [dto; found]) as Hbase.
    { apply firstOf_spread; [exact Hdto|].
      apply firstOf_spread; [exact Hfound|reflexivity]. }
    destruct allow; cbn [negb app].
    + apply firstOf_spread; [exact Hauth|exact Hbase].
    + apply firstOf_spread; [exact Hauth|].
      apply firstOf_spread; [apply getParamFilters_distinctKeys|exact Hbase].
Qed.

(** What [replaceOne] saves: a property is that of [authPersist] when it
    has one; else that of the route parameters and then that of the body,
    or the body first when the route allows it to override the
    parameters; else that of the entity found, if one was. *)
Theorem replaceOne_saves_by_precedence req dto s :
  let found :=
    match getOneOrFail (Service.disableCache req)
            (Service.replaceOneBase_returnShallow (Service.req_routes req))
            false s with
    | Ok found _ => found
    | Throw _ _ => JObj []
    end in
  Props.distinctKeys found ->
  Props.distinctKeys dto ->
  Props.distinctKeys (Request.authPersist (Service.req_parsed req)) ->
  exists toSave,
    Service.writes (Claims.final (replaceOne req dto s))
    = Service.writes s
      ++ [Service.Save
            (plainToClass (JObj toSave)
               (Request.classTransformOptions (Service.req_parsed req)))]
    /\ forall k,
        Js.assoc k toSave
        = Props.firstOf k
            (Request.authPersist (Service.req_parsed req)
             :: (if Service.replaceOneBase_allowParamsOverride
                      (Service.req_routes req)
                 then [dto;
                       JObj (Service.getParamFilters (Service.req_parsed req))]
                 else [JObj (Service.getParamFilters (Service.req_parsed req));
                       dto])
             ++ [found]).
Proof.
  intros found Hfound Hdto Hauth. unfold Service.replaceOne.
  change (Service.req_routes (Service.disableCache req))
    with (Service.req_routes req).
  change (Service.req_parsed (Service.disableCache req))
    with (Service.req_parsed req).
  set (req' := Service.disableCache req) in *.
  set (shallow := Service.replaceOneBase_returnShallow _) in *.
  set (allow := Service.replaceOneBase_allowParamsOverride _).
  pose proof (getOneOrFail_keepsWrites req' shallow false s) as Hs1.
  unfold mbind at 1, ST_bind at 1, Service.catch.
  assert (exists f s1,
             (match getOneOrFail req' shallow false s with
              | Ok a s' => Ok a s'
              | Throw e s' => (mret JNull : ST Service.Store JValue) s'
              end) = Ok f s1
             /\ Js.or_else f (JObj []) = found
             /\ Service.writes s1 = Service.writes s) as (f & s1 & -> & Hf & Hw).
  { subst found.
    destruct (getOneOrFail req' shallow false s) as [f s1|e s1] eqn:Hlookup;
      cbn [Claims.final] in Hs1.
    - exists f, s1. repeat split; [|exact Hs1].
      unfold Js.or_else.
      rewrite (getOneOrFail_truthy _ _ _ _ _ _ Hlookup). reflexivity.
    - exists JNull, s1. repeat split. exact Hs1. }
  rewrite Hf.
  set (toSave := if negb allow then _ else _).
  exists toSave. split.
  - unfold mbind at 1, ST_bind at 1, Service.repo_save.
    rewrite <- Hw.
    set (entity := plainToClass _ _).
    set (s2 := Service.mkStore _ _).
    change (Service.writes s1 ++ [Service.Save entity])
      with (Service.writes s2).
    destruct shallow; [reflexivity|].
    destruct (negb (Util.hasLength _)); [reflexivity|].
    unfold mbind, ST_bind, lift.
    destruct (Service.pick _ _) as [e|search]; [reflexivity|].
    apply getOneOrFail_keepsWrites.
  - intros k. subst toSave.
    assert (Js.assoc k (Service.spread [] found) = Props.firstOf k [found])
      as Hbase.
    { apply firstOf_spread; [exact Hfound|reflexivity]. }
    destruct allow; cbn [negb app].
    + apply firstOf_spread; [exact Hauth|].
      apply firstOf_spread; [exact Hdto|].
      apply firstOf_spread; [apply getParamFilters_distinctKeys|exact Hbase].
    + apply firstOf_spread; [exact Hauth|].
      apply firstOf_spread; [apply getParamFilters_distinctKeys|].
      apply firstOf_spread; [exact Hdto|exact Hbase].
Qed.

(** X27: [createMany] either saves, in one call and in chunks of 50, a list
    that is not empty and holds no [undefined], or throws a bad request and
    leaves the store as it was. *)
Theorem createMany_outcome req dto s :
  match createMany req dto s with
  | Ok r s' =>
      exists items,
        Js.prop "bulk" dto = JArr items
        /\ let bulk :=
             List.filter (fun d => negb (Util.isUndefined d))
               (map (fun one =>
                       prepareEntityBeforeSave one (Service.req_parsed req))
                    items) in
           bulk <> []
           /\ r = savedBulk (Service.writes s) bulk
           /\ s' = Service.mkStore (Service.world s)
                     (Service.writes s ++ [Service.SaveBulk bulk 50])
  | Throw e s' =>
      e = BadRequestException "Empty data. Nothing to save." /\ s' = s
  end.
Proof.
  unfold Service.createMany, mbind, ST_bind.
  destruct (Util.isObject dto); cbn [negb orb]; [|split; reflexivity].
  destruct (Js.prop "bulk" dto) as [| | | | | | items |] eqn:Hbulk;
    cbn [Util.isArrayFull negb]; try (split; reflexivity).
  destruct items as [|item items]; cbn [negb]; [split; reflexivity|].
  cbn [mret ST_ret].
  set (bulk := List.filter _ _).
  destruct bulk as [|e bulk'] eqn:Hb; cbn [Util.hasLength negb];
    [split; reflexivity|].
  cbn [mret ST_ret]. unfold Service.repo_saveBulk.
  exists (item :: items). split; [reflexivity|].
  cbn zeta. fold bulk. rewrite Hb. repeat split. discriminate.
Qed.

Lemma onWorld_Ok {A} (m : Service.M A) s a s' :
  Service.onWorld m s = Ok a s' ->
  exists w', m (Service.world s) = Ok a w'
             /\ s' = Service.mkStore w' (Service.writes s).
Proof.
  unfold Service.onWorld. destruct (m (Service.world s)) as [a0 w'|e w'];
    [|discriminate].
  intros [= <- <-]. eauto.
Qed.

Lemma expressionMap_updateBuilder (b : nat) f w w' (u : unit) :
  Service.updateBuilder b f w = Ok u w' ->
  Service.expressionMap b w'
  = match Service.builders w !! b with
    | Some m => f m
    | None => Orm.emptyExpressionMap
    end
  /\ Service.parameters w' = Service.parameters w.
Proof.
  change Service.Ref with nat in *.
  unfold Service.updateBuilder, modify, Service.expressionMap.
  intros [= _ <-]. cbn. rewrite list_lookup_alter.
  rewrite decide_True by reflexivity.
  destruct (Service.builders w !! b); split; reflexivity.
Qed.

(** The row a lookup returns is the first row of the page of the builder
    it made, by the rows the store has after the writes made so far. *)
Lemma getOneOrFail_found req shallow withDeleted s found s' :
  getOneOrFail req shallow withDeleted s = Ok found s' ->
  exists (b : nat) w1,
    (if shallow then Service.repo_createQueryBuilder
     else Service.createBuilder repo hrtime (Service.req_parsed req)
            (Service.req_options req) true withDeleted) (Service.world s)
    = Ok b w1
    /\ Service.writes s' = Service.writes s
    /\ (let m := Service.expressionMap b (Service.world s') in
        found
        = default JNull
            (head (Service.pageOf (Orm.take m) (Orm.skip m)
                     (rowsAfter (Service.writes s) m
                        (Service.parameters (Service.world s'))))))
    /\ (shallow = false -> withDeleted = false -> Service.world s' = w1).
Proof.
  unfold Service.getOneOrFail. intros H.
  apply bind_Ok in H as (b & s1 & Hb & H).
  apply onWorld_Ok in Hb as (w1 & Hb & ->).
  exists b, w1. split; [exact Hb|].
  apply bind_Ok in H as ([] & s2 & Hsearch & H).
  assert (Service.writes s2 = Service.writes s
          /\ (shallow = false -> Service.world s2 = w1)) as [Hw2 Hs2].
  { destruct shallow.
    - apply onWorld_Ok in Hsearch as (w2 & _ & ->). split; [reflexivity|].
      discriminate.
    - injection Hsearch as <-. split; reflexivity. }
  apply bind_Ok in H as (f & s3 & Hget & H).
  destruct (Js.truthy f) eqn:Hf; cbn in H; [|discriminate].
  injection H as <- <-.
  destruct withDeleted.
  - apply bind_Ok in Hget as ([] & s4 & Hdel & Hget).
    apply onWorld_Ok in Hdel as (w4 & _ & ->).
    unfold Service.builder_getOne, gets in Hget. injection Hget as <- <-.
    cbn [Service.writes Service.world]. rewrite Hw2.
    split; [reflexivity|]. split; [reflexivity|discriminate].
  - unfold Service.builder_getOne, gets in Hget. injection Hget as <- <-.
    rewrite Hw2. split; [reflexivity|]. split; [reflexivity|].
    intros Hsh _. apply Hs2, Hsh.
Qed.

(** X28: the lookups of [updateOne], [replaceOne], [deleteOne] and
    [recoverOne] are made after the cache of the route was switched off: the
    builder of such a lookup, a new one, has no cache, whatever the route
    and the request say. *)
Theorem writes_look_up_without_the_cache req shallow withDeleted s found s' :
  getOneOrFail (Service.disableCache req) shallow withDeleted s
  = Ok found s' ->
  Orm.cache
    (Service.expressionMap (length (Service.builders (Service.world s)))
                           (Service.world s'))
  = None.
Proof.
  unfold Service.getOneOrFail. intros H.
  apply bind_Ok in H as (b & s1 & Hb & H).
  apply onWorld_Ok in Hb as (w1 & Hb & ->).
  apply bind_Ok in H as ([] & s2 & Hsearch & H).
  assert (b = length (Service.builders (Service.world s))
          /\ Orm.cache (Service.expressionMap b (Service.world s2)) = None)
    as (-> & Hcache).
  { destruct shallow.
    - unfold Service.repo_createQueryBuilder in Hb. injection Hb as <- <-.
      apply onWorld_Ok in Hsearch as (w2 & Hsearch & ->).
      cbn [Service.world] in *.
      pose proof (setSearchCondition_compiled repo hrtime
                    (default ∅ (Request.o_customOperators
                                  (Service.req_options
                                     (Service.disableCache req))))
                    (Request.search
                       (Service.req_parsed (Service.disableCache req)))
                    (length (Service.builders (Service.world s)))
                    Service.KAnd
                    (Service.set_builders
                       (Service.builders (Service.world s)
                        ++ [Orm.emptyExpressionMap]) (Service.world s)))
        as Hcompiled.
      rewrite Hsearch in Hcompiled. cbn [Claims.final] in Hcompiled.
      destruct Hcompiled as [Hcompiled _].
      destruct (Hcompiled (length (Service.builders (Service.world s)))
                  Orm.emptyExpressionMap) as (m' & Hm' & [ws ->]).
      { cbn. apply list_lookup_middle. reflexivity. }
      split; [reflexivity|]. unfold Service.expressionMap.
      change Service.Ref with nat in *. rewrite Hm'. reflexivity.
    - injection Hsearch as <-. cbn [Service.world].
      pose proof (createBuilder_built repo hrtime _ _ _ _ _ _ _ Hb)
        as (-> & _ & _ & Hcache & _).
      split; [reflexivity|exact Hcache]. }
  apply bind_Ok in H as (f & s3 & Hget & H).
  destruct (Js.truthy f) eqn:Hf; cbn in H; [|discriminate].
  injection H as _ <-.
  destruct withDeleted.
  - apply bind_Ok in Hget as ([] & s4 & Hdel & Hget).
    apply onWorld_Ok in Hdel as (w4 & Hdel & ->).
    unfold Service.builder_getOne, gets in Hget. injection Hget as _ <-.
    cbn [Service.world].
    apply expressionMap_updateBuilder in Hdel as [-> _].
    unfold Service.expressionMap in Hcache.
    change Service.Ref with nat in *.
    destruct (Service.builders (Service.world s2) !! _); [|reflexivity].
    exact Hcache.
  - unfold Service.builder_getOne, gets in Hget. injection Hget as _ <-.
    exact Hcache.
Qed.

(** X29: [getOne] reads with the limit and the offset of the request, as a
    list is read: when the offset, or the pages before the one asked for,
    pass over every row the query yields, no entity is found. *)
Theorem getOne_applies_the_offset req s b w1 :
  Service.createBuilder repo hrtime (Service.req_parsed req)
    (Service.req_options req) true false (Service.world s)
  = Ok b w1 ->
  (length (rowsAfter (Service.writes s) (Service.expressionMap b w1)
             (Service.parameters w1))
   <= Z.to_nat
        (default 0%Z
           (CrudService.getSkip (Service.req_parsed req)
              (CrudService.getTake (Service.req_parsed req)
                 (Request.o_query (Service.req_options req))))))%nat ->
  Service.getOne repo hrtime rowsAfter notFoundException req s
  = Throw (notFoundException (Service.alias repo))
          (Service.mkStore w1 (Service.writes s)).
Proof.
  intros Hb Hrows.
  pose proof (createBuilder_built repo hrtime _ _ _ _ _ _ _ Hb)
    as (_ & _ & _ & _ & _ & Hskip).
  unfold Service.getOne, Service.getOneOrFail.
  unfold mbind at 1, ST_bind at 1, Service.onWorld. rewrite Hb.
  unfold mbind, ST_bind. cbn [mret ST_ret].
  unfold Service.builder_getOne, gets. cbn [Service.world Service.writes].
  rewrite Hskip. unfold Service.pageOf.
  rewrite drop_ge by exact Hrows.
  destruct (Orm.take _); [rewrite firstn_nil|]; reflexivity.
Qed.

(** X30: the second lookup of [updateOne] is the first one again: the values
    assigned to the route parameter filters do not reach the search, so an
    entity whose update took it out of the search is saved and then not
    found. *)
Theorem updateOne_looks_up_the_same_again req dto s found s1 :
  Service.updateOneBase_returnShallow (Service.req_routes req) = false ->
  getOneOrFail (Service.disableCache req) false false s = Ok found s1 ->
  exists entity,
    let s2 := Service.mkStore (Service.world s1)
                (Service.writes s1 ++ [Service.Save entity]) in
    updateOne req dto s
    = if Util.hasLength (Request.paramsFilter (Service.req_parsed req))
         && Util.isNil (saved (Service.writes s1) entity)
      then Throw (TypeError "Cannot read properties of undefined") s2
      else getOneOrFail (Service.disableCache req) false false s2.
Proof.
  intros Hshallow Hlookup. unfold Service.updateOne.
  rewrite Hshallow. rewrite (bind_Ok_eq _ _ _ _ _ Hlookup).
  match goal with
  | |- context [Service.repo_save _ ?e] => exists e
  end.
  cbn zeta.
  unfold mbind at 1, ST_bind at 1, Service.repo_save.
  unfold mbind, ST_bind.
  change (Service.req_parsed (Service.disableCache req))
    with (Service.req_parsed req).
  destruct (Util.hasLength _ && Util.isNil _); reflexivity.
Qed.

(** [updateOne], [deleteOne] and [recoverOne] write nothing when their
    lookup fails: they fail as the lookup does. *)
Theorem a_failed_lookup_writes_nothing req dto s :
  (forall e s1,
      getOneOrFail (Service.disableCache req)
        (Service.updateOneBase_returnShallow (Service.req_routes req)) false s
      = Throw e s1 ->
      updateOne req dto s = Throw e s1
      /\ Service.writes s1 = Service.writes s)
  /\ (forall e s1,
         getOneOrFail (Service.disableCache req)
           (Service.deleteOneBase_returnDeleted (Service.req_routes req))
           false s
         = Throw e s1 ->
         deleteOne req s = Throw e s1
         /\ Service.writes s1 = Service.writes s)
  /\ (forall e s1,
         getOneOrFail (Service.disableCache req) false true s = Throw e s1 ->
         recoverOne req s = Throw e s1
         /\ Service.writes s1 = Service.writes s).
Proof.
  repeat split.
  - unfold Service.updateOne, mbind, ST_bind.
    change (Service.req_routes (Service.disableCache req))
      with (Service.req_routes req).
    rewrite H. reflexivity.
  - pose proof (getOneOrFail_keepsWrites (Service.disableCache req)
                  (Service.updateOneBase_returnShallow (Service.req_routes req))
                  false s) as Hk.
    rewrite H in Hk. exact Hk.
  - unfold Service.deleteOne, mbind, ST_bind.
    change (Service.req_routes (Service.disableCache req))
      with (Service.req_routes req).
    rewrite H. reflexivity.
  - pose proof (getOneOrFail_keepsWrites (Service.disableCache req)
                  (Service.deleteOneBase_returnDeleted (Service.req_routes req))
                  false s) as Hk.
    rewrite H in Hk. exact Hk.
  - unfold Service.recoverOne, mbind, ST_bind. rewrite H. reflexivity.
  - pose proof (getOneOrFail_keepsWrites (Service.disableCache req)
                  false true s) as Hk.
    rewrite H in Hk. exact Hk.
Qed.

End Writes.

(** ** Instances on the example store *)

Ltac distinct_keys :=
  unfold Props.distinctKeys; cbn;
  repeat (apply NoDup_cons_2;
          [rewrite ?not_elem_of_cons; repeat split;
           solve [discriminate|apply not_elem_of_nil]|]);
  apply NoDup_nil_2.

(** X24 on the example service. *)
Lemma createOne_reads_back_witness :
  Service.createOne Examples.users Examples.clock Examples.oneUser
    Examples.asGiven Examples.plain Examples.noInstance Examples.notFound
    Examples.userOne Examples.bob Examples.unwritten
  = Ok Examples.ann
       (Claims.final
          (Service.createOne Examples.users Examples.clock Examples.oneUser
             Examples.asGiven Examples.plain Examples.noInstance
             Examples.notFound Examples.userOne Examples.bob
             Examples.unwritten)).
Proof.
  rewrite (createOne_reads_back Examples.users Examples.clock Examples.oneUser
             Examples.asGiven Examples.plain Examples.noInstance
             Examples.notFound Examples.userOne Examples.bob
             Examples.unwritten eq_refl eq_refl).
  vm_compute. reflexivity.
Defined.

(** X25 on the example service. *)
Lemma prepareEntityBeforeSave_precedence_witness :
  exists toSave,
    Service.prepareEntityBeforeSave Examples.plain Examples.noInstance
      Examples.bob (Service.req_parsed Examples.userOne)
    = JObj toSave
    /\ Js.assoc "id" toSave = Some (JNum 1)
    /\ Js.assoc "owner" toSave = Some (JNum 7)
    /\ Js.assoc "name" toSave = Some (JStr "bob").
Proof.
  assert (Props.distinctKeys
            (Request.authPersist (Service.req_parsed Examples.userOne)))
    as Hauth by distinct_keys.
  pose proof (prepareEntityBeforeSave_precedence Examples.plain
                Examples.noInstance Examples.bob
                (Service.req_parsed Examples.userOne) Hauth) as H.
  destruct H as (toSave & Heq & Hk). exists toSave.
  split; [exact Heq|]. rewrite !Hk. repeat split; reflexivity.
Defined.

(** X26 on the example service. *)
Lemma updateOne_saves_by_precedence_witness :
  exists toSave,
    Service.writes
      (Claims.final
         (Service.updateOne Examples.users Examples.clock Examples.oneUser
            Examples.asGiven Examples.plain Examples.notFound
            Examples.userOne Examples.bob Examples.unwritten))
    = [Service.Save toSave]
    /\ Js.prop "id" toSave = JNum 1
    /\ Js.prop "owner" toSave = JNum 7
    /\ Js.prop "name" toSave = JStr "bob".
Proof.
  assert (Props.distinctKeys Examples.ann) as Hann by distinct_keys.
  assert (Props.distinctKeys Examples.bob) as Hbob by distinct_keys.
  assert (Props.distinctKeys
            (Request.authPersist (Service.req_parsed Examples.userOne)))
    as Hauth by distinct_keys.
  set (lookup := Service.getOneOrFail Examples.users Examples.clock
                   Examples.oneUser Examples.notFound
                   (Service.disableCache Examples.userOne) false false
                   Examples.unwritten).
  assert (lookup = Ok Examples.ann (Claims.final lookup)) as Hlookup
      by (vm_compute; reflexivity).
  destruct (updateOne_saves_by_precedence Examples.users Examples.clock
              Examples.oneUser Examples.asGiven Examples.plain
              Examples.notFound Examples.userOne Examples.bob
              Examples.unwritten Examples.ann (Claims.final lookup)
              Hlookup Hann Hbob Hauth)
    as (toSave & Hw & Hk).
  exists (JObj toSave). split; [exact Hw|].
  unfold Js.prop. cbn [Js.entries]. rewrite !Hk. repeat split; reflexivity.
Defined.

Lemma replaceOne_saves_by_precedence_witness :
  exists toSave,
    Service.writes
      (Claims.final
         (Service.replaceOne Examples.users Examples.clock Examples.oneUser
            Examples.asGiven Examples.plain Examples.notFound
            Examples.userOne Examples.bob Examples.unwritten))
    = [Service.Save toSave]
    /\ Js.prop "id" toSave = JNum 1
    /\ Js.prop "owner" toSave = JNum 7
    /\ Js.prop "name" toSave = JStr "bob".
Proof.
  assert (Props.distinctKeys Examples.bob) as Hbob by distinct_keys.
  assert (Props.distinctKeys
            (Request.authPersist (Service.req_parsed Examples.userOne)))
    as Hauth by distinct_keys.
  set (lookup := Service.getOneOrFail Examples.users Examples.clock
                   Examples.oneUser Examples.notFound
                   (Service.disableCache Examples.userOne) false false
                   Examples.unwritten).
  assert (lookup = Ok Examples.ann (Claims.final lookup)) as Hlookup
      by (vm_compute; reflexivity).
  assert (Props.distinctKeys
            match lookup with
            | Ok found _ => found
            | Throw _ _ => JObj []
            end) as Hann by (rewrite Hlookup; distinct_keys).
  destruct (replaceOne_saves_by_precedence Examples.users Examples.clock
              Examples.oneUser Examples.asGiven Examples.plain
              Examples.notFound Examples.userOne Examples.bob
              Examples.unwritten Hann Hbob Hauth)
    as (toSave & Hw & Hk).
  exists (JObj toSave). split; [exact Hw|].
  unfold Js.prop. cbn [Js.entries]. rewrite !Hk.
  repeat split; vm_compute; reflexivity.
Defined.

(** X28 on an example: the route caches; the lookup of an update does not.
    *)
Lemma writes_look_up_without_the_cache_witness :
  Request.q_cache (Request.o_query (Service.req_options Examples.userOne))
  = JNum 1000
  /\ Orm.cache
       (Service.expressionMap 1
          (Service.world
             (Claims.final
                (Service.getOneOrFail Examples.users Examples.clock
                   Examples.oneUser Examples.notFound
                   (Service.disableCache Examples.userOne) false false
                   Examples.unwritten))))
     = None.
Proof.
  split; [reflexivity|].
  set (lookup := Service.getOneOrFail Examples.users Examples.clock
                   Examples.oneUser Examples.notFound
                   (Service.disableCache Examples.userOne) false false
                   Examples.unwritten).
  assert (lookup = Ok Examples.ann (Claims.final lookup)) as Hlookup
      by (vm_compute; reflexivity).
  exact (writes_look_up_without_the_cache Examples.users Examples.clock
           Examples.oneUser Examples.notFound Examples.userOne false false
           Examples.unwritten Examples.ann (Claims.final lookup) Hlookup).
Defined.

(** X29 on an example: [GET /users/1?limit=10&page=2]: the one user is
    passed over. *)
Lemma getOne_applies_the_offset_witness :
  Service.getOne Examples.users Examples.clock Examples.oneUser
    Examples.notFound
    (Service.mkCrudRequest Examples.page2 Examples.noOptions
       Examples.noRoutes ["id"])
    Examples.unwritten
  = Throw (NotFoundException "User not found")
          (Service.mkStore Examples.page2Built []).
Proof.
  assert (Service.createBuilder Examples.users Examples.clock Examples.page2
            Examples.noOptions true false Examples.fresh
          = Ok 1 Examples.page2Built) as Hbuilt by (vm_compute; reflexivity).
  apply (getOne_applies_the_offset Examples.users Examples.clock
           Examples.oneUser Examples.notFound
           (Service.mkCrudRequest Examples.page2 Examples.noOptions
              Examples.noRoutes ["id"])
           Examples.unwritten 1 Examples.page2Built Hbuilt).
  vm_compute. lia.
Defined.

(** X30 on an example: the update of the user 1 by the body that names the
    user 9. *)
Lemma updateOne_looks_up_the_same_again_witness :
  exists s2,
    Service.updateOne Examples.users Examples.clock Examples.oneUser
      Examples.asGiven Examples.plain Examples.notFound Examples.userOne
      Examples.bob Examples.unwritten
    = Service.getOneOrFail Examples.users Examples.clock Examples.oneUser
        Examples.notFound (Service.disableCache Examples.userOne) false false
        s2.
Proof.
  set (lookup := Service.getOneOrFail Examples.users Examples.clock
                   Examples.oneUser Examples.notFound
                   (Service.disableCache Examples.userOne) false false
                   Examples.unwritten).
  assert (lookup = Ok Examples.ann (Claims.final lookup)) as Hlookup
      by (vm_compute; reflexivity).
  set (update := Service.updateOne Examples.users Examples.clock
                   Examples.oneUser Examples.asGiven Examples.plain
                   Examples.notFound Examples.userOne Examples.bob
                   Examples.unwritten).
  assert (update = Ok Examples.ann (Claims.final update)) as Hupdate
      by (vm_compute; reflexivity).
  destruct (updateOne_looks_up_the_same_again Examples.users Examples.clock
              Examples.oneUser Examples.asGiven Examples.plain
              Examples.notFound Examples.userOne Examples.bob
              Examples.unwritten Examples.ann (Claims.final lookup)
              eq_refl Hlookup)
    as (entity & H).
  fold update in H. rewrite Hupdate in H. rewrite Hupdate.
  destruct (Util.hasLength _ && Util.isNil _).
  - discriminate H.
  - eexists. exact H.
Defined.
